(** * Planno: filtering, recurrence and reconciliation core

    A shallow embedding of the task planner's engine
    (DateUtils.js, Task.js, ValidationUtils.js, TaskFilter.js,
    TaskController.js, RenderController.js, and the parts of the
    category, filter and settings controllers that drive them) and the
    proofs of its properties.

    Representation choices, fixed once for the whole development:
    - strings are Rocq [string]s (ASCII); [toLowerCase] and the string
      order of [<] act on ASCII code units;
    - a JavaScript [Date] is its time value, an integer number of
      milliseconds since the epoch (no TimeClip: the range is not bounded);
      the local time zone has a constant offset [tz] (milliseconds) from UTC;
    - an ISO timestamp string ([createdAt], [completedAt]) is represented by
      the time value it parses to;
    - a [dueDate] string 'YYYY-MM-DD' is represented by its three numeric
      fields, the empty string by [None]; the fields need not name a day
      of the calendar, and [new Date] of such a string can be NaN;
    - [recurrenceData] is the object the task form writes, with an array
      of day numbers; [StoredTask] has the recurrence calculation on
      whatever else an imported task may hold there. *)

From Stdlib Require Import ZArith String Ascii List Lia Bool Permutation Sorted.
From Stdlib Require Import DecimalString.
From stdpp Require Import base list.
Import ListNotations.
Local Open Scope string_scope.
Local Open Scope Z_scope.

(** ** Results of computations that may throw *)

Inductive result (A : Type) : Type :=
| Ok (a : A)
| Throw (msg : string).
Arguments Ok {A} a.
Arguments Throw {A} msg.

Definition rbind {A B} (r : result A) (k : A -> result B) : result B :=
  match r with
  | Ok a => k a
  | Throw m => Throw m
  end.

(** [try { body } catch (error) { handler }] *)
Definition try_catch {A} (body : result A) (handler : string -> result A) : result A :=
  match body with
  | Ok a => Ok a
  | Throw m => handler m
  end.

Notation "'let!' x ':=' c1 'in' c2" := (rbind c1 (fun x => c2))
  (at level 10, x name, c1 at level 100, c2 at level 200).

(** ** Array.prototype.sort

    The comparator returns a number; [a] goes before [b] when it is
    negative.  The sort is stable, which an insertion from the right
    realises: an element is placed before the first element it does not
    exceed. *)

Section ArraySort.
Context {A : Type} (cmp : A -> A -> Z).

Fixpoint sort_insert (x : A) (l : list A) : list A :=
  match l with
  | [] => [x]
  | y :: ys => if cmp x y <=? 0 then x :: y :: ys else y :: sort_insert x ys
  end.

Fixpoint sortWith (l : list A) : list A :=
  match l with
  | [] => []
  | x :: xs => sort_insert x (sortWith xs)
  end.
End ArraySort.

(** ** Strings *)

Definition lower_ascii (c : ascii) : ascii :=
  let n := nat_of_ascii c in
  if ((65 <=? n) && (n <=? 90))%nat then ascii_of_nat (n + 32) else c.

Fixpoint toLowerCase (s : string) : string :=
  match s with
  | EmptyString => EmptyString
  | String c r => String (lower_ascii c) (toLowerCase r)
  end.

(** [s.includes(term)] *)
Fixpoint includes (s term : string) : bool :=
  String.prefix term s ||
  match s with
  | EmptyString => false
  | String _ r => includes r term
  end.

Definition is_space (c : ascii) : bool :=
  let n := nat_of_ascii c in
  ((n =? 32) || ((9 <=? n) && (n <=? 13)))%nat.

Fixpoint trimStart (s : string) : string :=
  match s with
  | EmptyString => EmptyString
  | String c r => if is_space c then trimStart r else s
  end.

Definition reverse_string (s : string) : string :=
  string_of_list_ascii (List.rev (list_ascii_of_string s)).

Definition trim (s : string) : string :=
  reverse_string (trimStart (reverse_string (trimStart s))).

Definition str_length (s : string) : Z := Z.of_nat (String.length s).

(** [a < b] on strings, and the three-way comparison used to sort them. *)
Definition str_cmp (a b : string) : Z :=
  match String.compare a b with
  | Lt => -1
  | Eq => 0
  | Gt => 1
  end.

(** [arr.sort()] on an array of strings. *)
Definition sortStrings (l : list string) : list string := sortWith str_cmp l.

Definition is_Some_b {A} (o : option A) : bool :=
  match o with
  | Some _ => true
  | None => false
  end.

(** [s === o] for a string [s] and a nullable string [o]. *)
Definition same_string (s : string) (o : option string) : bool :=
  match o with
  | Some s' => String.eqb s s'
  | None => false
  end.

(** Truthiness of a nullable string: [null] and [''] are falsy. *)
Definition truthy (o : option string) : bool :=
  match o with
  | Some s => negb (String.eqb s "")
  | None => false
  end.

(** ** ECMAScript date arithmetic (ECMA-262, Date objects) *)

Module JsDate.

Definition msPerDay : Z := 86400000.

Definition Day (t : Z) : Z := t / msPerDay.
Definition TimeWithinDay (t : Z) : Z := t mod msPerDay.

Definition isLeapYear (y : Z) : bool :=
  (y mod 4 =? 0) && (negb (y mod 100 =? 0) || (y mod 400 =? 0)).

Definition DaysInYear (y : Z) : Z := if isLeapYear y then 366 else 365.

Definition DayFromYear (y : Z) : Z :=
  365 * (y - 1970) + (y - 1969) / 4 - (y - 1901) / 100 + (y - 1601) / 400.

(** The year containing day number [d]: the largest [y] with
    [DayFromYear y <= d], computed in closed form over 400-year eras
    that start on March 1st. *)
Definition YearFromDay (d : Z) : Z :=
  let z := d + 719468 in
  let era := z / 146097 in
  let doe := z - era * 146097 in
  let yoe := (doe - doe / 1460 + doe / 36524 - doe / 146096) / 365 in
  let doy := doe - (365 * yoe + yoe / 4 - yoe / 100) in
  let mp := (5 * doy + 2) / 153 in
  yoe + era * 400 + (if mp <? 10 then 0 else 1).

Definition YearFromTime (t : Z) : Z := YearFromDay (Day t).
Definition InLeapYear (t : Z) : bool := isLeapYear (YearFromTime t).
Definition DayWithinYear (t : Z) : Z := Day t - DayFromYear (YearFromTime t).

(** Day within the year on which month [m] (0 = January) starts. *)
Definition monthStart (leap : bool) (m : Z) : Z :=
  let l := if leap then 1 else 0 in
  if m <=? 0 then 0
  else if m =? 1 then 31
  else if m =? 2 then 59 + l
  else if m =? 3 then 90 + l
  else if m =? 4 then 120 + l
  else if m =? 5 then 151 + l
  else if m =? 6 then 181 + l
  else if m =? 7 then 212 + l
  else if m =? 8 then 243 + l
  else if m =? 9 then 273 + l
  else if m =? 10 then 304 + l
  else 334 + l.

Definition MonthFromTime (t : Z) : Z :=
  let d := DayWithinYear t in
  let l := if InLeapYear t then 1 else 0 in
  if d <? 31 then 0
  else if d <? 59 + l then 1
  else if d <? 90 + l then 2
  else if d <? 120 + l then 3
  else if d <? 151 + l then 4
  else if d <? 181 + l then 5
  else if d <? 212 + l then 6
  else if d <? 243 + l then 7
  else if d <? 273 + l then 8
  else if d <? 304 + l then 9
  else if d <? 334 + l then 10
  else 11.

Definition DateFromTime (t : Z) : Z :=
  DayWithinYear t - monthStart (InLeapYear t) (MonthFromTime t) + 1.

Definition WeekDay (t : Z) : Z := (Day t + 4) mod 7.

(** MakeDay: the day number of the first of month [month] of [year]
    (months outside 0..11 carry into the year), plus [date - 1]. *)
Definition MakeDay (year month date : Z) : Z :=
  let ym := year + month / 12 in
  let mn := month mod 12 in
  DayFromYear ym + monthStart (isLeapYear ym) mn + date - 1.

Definition MakeDate (day time : Z) : Z := day * msPerDay + time.

Definition LocalTime (tz t : Z) : Z := t + tz.
Definition UTC (tz t : Z) : Z := t - tz.

(** [new Date(year, month, day, 0, 0, 0, 0)]; years 0..99 mean 1900..1999. *)
Definition fromFields (tz year month day : Z) : Z :=
  let yr := if (0 <=? year) && (year <=? 99) then 1900 + year else year in
  UTC tz (MakeDate (MakeDay yr month day) 0).

(** [new Date('YYYY-MM-DD')]: a date-only ISO string is UTC midnight. *)
Definition parseISODate (year month day : Z) : Z :=
  MakeDate (MakeDay year (month - 1) day) 0.

Definition getFullYear (tz d : Z) : Z := YearFromTime (LocalTime tz d).
Definition getMonth (tz d : Z) : Z := MonthFromTime (LocalTime tz d).
Definition getDate (tz d : Z) : Z := DateFromTime (LocalTime tz d).
Definition getDay (tz d : Z) : Z := WeekDay (LocalTime tz d).

Definition setDate (tz d date : Z) : Z :=
  let t := LocalTime tz d in
  UTC tz (MakeDate (MakeDay (YearFromTime t) (MonthFromTime t) date) (TimeWithinDay t)).

Definition setMonth (tz d month : Z) : Z :=
  let t := LocalTime tz d in
  UTC tz (MakeDate (MakeDay (YearFromTime t) month (DateFromTime t)) (TimeWithinDay t)).

Definition setFullYear (tz d year : Z) : Z :=
  let t := LocalTime tz d in
  UTC tz (MakeDate (MakeDay year (MonthFromTime t) (DateFromTime t)) (TimeWithinDay t)).

(** [d.setHours(0, 0, 0, 0)] *)
Definition setHoursZero (tz d : Z) : Z :=
  UTC tz (MakeDate (Day (LocalTime tz d)) 0).

(** [d.toDateString()], e.g. "Wed Jan 01 2025": weekday, month, day, year. *)
Definition toDateString (tz d : Z) : Z * Z * Z * Z :=
  (getDay tz d, getMonth tz d, getDate tz d, getFullYear tz d).

Definition dateString_eqb (a b : Z * Z * Z * Z) : bool :=
  let '(w1, m1, d1, y1) := a in
  let '(w2, m2, d2, y2) := b in
  (w1 =? w2) && (m1 =? m2) && (d1 =? d2) && (y1 =? y2).

(** The instant [n] days after [d]. *)
Definition plusDays (d n : Z) : Z := d + n * msPerDay.

Definition msPerHour : Z := 3600000.
Definition msPerMinute : Z := 60000.
Definition msPerSecond : Z := 1000.

Definition MakeTime (hour min sec ms : Z) : Z :=
  hour * msPerHour + min * msPerMinute + sec * msPerSecond + ms.

Definition HourFromTime (t : Z) : Z := (t / msPerHour) mod 24.

Definition getHours (tz d : Z) : Z := HourFromTime (LocalTime tz d).

(** [d.setHours(hour, min, sec, ms)] *)
Definition setHours (tz d hour min sec ms : Z) : Z :=
  UTC tz (MakeDate (Day (LocalTime tz d)) (MakeTime hour min sec ms)).

End JsDate.

(** ** Data model (models/Task.js) *)

(** A date string 'YYYY-MM-DD', by its numeric fields. *)
Record DateStr := mkDateStr { ds_year : Z; ds_month : Z; ds_day : Z }.

(** [recurrenceData]: for weekly tasks, the selected weekdays (0 = Sunday). *)
Record RecurrenceData := mkRecurrenceData { weekdays : list Z }.

Module Task.
Record t := mk {
  id : string;
  title : string;
  description : string;
  category : string;
  tags : list string;
  priority : string;
  dueDate : option DateStr;
  dueTime : string;
  completed : bool;
  createdAt : Z;
  completedAt : option Z;
  isRecurring : bool;
  recurrenceType : option string;
  recurrenceData : option RecurrenceData;
  parentRecurringId : option string
}.

(** [this.tags.includes(tagId)] *)
Definition hasTag (task : t) (tagId : string) : bool :=
  existsb (String.eqb tagId) (tags task).

Definition with_tags (task : t) (new_tags : list string) : t :=
  mk (id task) (title task) (description task) (category task) new_tags
     (priority task) (dueDate task) (dueTime task) (completed task)
     (createdAt task) (completedAt task) (isRecurring task)
     (recurrenceType task) (recurrenceData task) (parentRecurringId task).

(** [addTag(tagId)]: the returned flag and the task after the call. *)
Definition addTag (task : t) (tagId : string) : bool * t :=
  if negb (hasTag task tagId) && (Z.of_nat (length (tags task)) <? 3)
  then (true, with_tags task (tags task ++ [tagId])%list)
  else (false, task).
End Task.

Record Category := mkCategory { cat_id : string; cat_name : string; cat_color : string }.
Record Tag := mkTag { tag_id : string; tag_name : string; tag_color : string }.

(** ** utils/DateUtils.js *)

Module DateUtils.
Import JsDate.

Definition createLocalDate (tz : Z) (dateString : option DateStr) : option Z :=
  match dateString with
  | None => None
  | Some s => Some (fromFields tz (ds_year s) (ds_month s - 1) (ds_day s))
  end.

(** [today = new Date(); today.setHours(0, 0, 0, 0)] *)
Definition startOfToday (tz now : Z) : Z := setHoursZero tz now.

Definition isTaskDueToday (tz now : Z) (task : Task.t) : bool :=
  match createLocalDate tz (Task.dueDate task) with
  | None => false
  | Some taskDate =>
      let today := startOfToday tz now in
      dateString_eqb (toDateString tz today) (toDateString tz taskDate)
  end.

Definition isTaskOverdue (tz now : Z) (task : Task.t) : bool :=
  match createLocalDate tz (Task.dueDate task) with
  | None => false
  | Some taskDate =>
      if Task.completed task then false
      else
        let today := startOfToday tz now in
        taskDate <? today
  end.

Definition isTaskUpcoming (tz now : Z) (task : Task.t) : bool :=
  match createLocalDate tz (Task.dueDate task) with
  | None => false
  | Some taskDate =>
      let today := startOfToday tz now in
      let nextWeek := setDate tz today (getDate tz today + 7) in
      (today <? taskDate) && (taskDate <=? nextWeek)
  end.

Definition addDays (tz date days : Z) : Z :=
  setDate tz date (getDate tz date + days).

Definition addMonths (tz date months : Z) : Z :=
  setMonth tz date (getMonth tz date + months).

Definition addYears (tz date years : Z) : Z :=
  setFullYear tz date (getFullYear tz date + years).

(** [task.recurrenceData?.weekdays || []] *)
Definition selectedWeekdaysOf (task : Task.t) : list Z :=
  match Task.recurrenceData task with
  | Some d => weekdays d
  | None => []
  end.

(** On a task whose [recurrenceData] is absent or holds an array of day
    numbers, as the task form writes it.  [StoredTask] below has the
    function on whatever [recurrenceData.weekdays] holds, where it can
    throw. *)
Definition calculateNextRecurrenceDate (tz : Z) (task : Task.t) : option Z :=
  if negb (is_Some_b (Task.dueDate task)) || negb (truthy (Task.recurrenceType task))
  then None
  else
    match createLocalDate tz (Task.dueDate task) with
    | None => None
    | Some currentDate =>
        let baseDate := currentDate in
        let ty := default "" (Task.recurrenceType task) in
        if String.eqb ty "daily" then Some (addDays tz baseDate 1)
        else if String.eqb ty "weekly" then
          let weekdays := selectedWeekdaysOf task in
          match weekdays with
          | [] => Some (addDays tz baseDate 7)
          | _ :: _ =>
              let currentWeekday := getDay tz baseDate in
              let selectedWeekdays := sortWith (fun a b => a - b) weekdays in
              match List.find (fun weekday => currentWeekday <? weekday) selectedWeekdays with
              | Some weekday =>
                  let daysToAdd := weekday - currentWeekday in
                  Some (addDays tz baseDate daysToAdd)
              | None =>
                  (* the sorted array is not empty here *)
                  let firstWeekday := hd 0 selectedWeekdays in
                  let daysToNextWeek := 7 - currentWeekday + firstWeekday in
                  Some (addDays tz baseDate daysToNextWeek)
              end
          end
        else if String.eqb ty "monthly" then Some (addMonths tz baseDate 1)
        else if String.eqb ty "yearly" then Some (addYears tz baseDate 1)
        else None
  end.

(** The month and the day are padded to two digits, the year is written
    as it is: the fields returned are those of a 'YYYY-MM-DD' string for the
    years 1000 to 9999, of a shorter or longer string for other years. *)
Definition formatDateISO (tz date : Z) : DateStr :=
  mkDateStr (getFullYear tz date) (getMonth tz date + 1) (getDate tz date).

Definition isSameDay (tz : Z) (date1 date2 : option Z) : bool :=
  match date1, date2 with
  | Some d1, Some d2 => dateString_eqb (toDateString tz d1) (toDateString tz d2)
  | _, _ => false
  end.

(** [Math.ceil(a / b)] for a positive [b]. *)
Definition ceil_div (a b : Z) : Z := - ((- a) / b).

Definition getDaysBetween (startDate endDate : option Z) : Z :=
  match startDate, endDate with
  | Some s, Some e =>
      let timeDiff := e - s in
      ceil_div timeDiff (1000 * 3600 * 24)
  | _, _ => 0
  end.

Definition isDateInRange (date startDate endDate : option Z) : bool :=
  match date, startDate, endDate with
  | Some d, Some s, Some e => (s <=? d) && (d <=? e)
  | _, _, _ => false
  end.

Definition getStartOfDay (tz date : Z) : Z := setHours tz date 0 0 0 0.

Definition getEndOfDay (tz date : Z) : Z := setHours tz date 23 59 59 999.

Definition getTimeGreeting (tz now : Z) : string :=
  let hour := getHours tz now in
  if hour <? 12 then "Bom dia"
  else if hour <? 18 then "Boa tarde"
  else "Boa noite".

End DateUtils.

(** ** The recurrence calculation on recurrence data that was not checked

    The task form writes [recurrenceData] as [{ weekdays: [...] }], an
    array of day numbers, and the rest of this development takes it so
    ([RecurrenceData]).  A task that comes from an imported file carries
    whatever the file held there: the import checks [recurrenceType] but not
    [recurrenceData] (script.js, validateTaskSchema).  This module is
    [calculateNextRecurrenceDate] on such a task. *)

Module StoredTask.

(** What [task.recurrenceData?.weekdays] evaluates to: an array of day
    numbers; a falsy value ([undefined] when there is no [recurrenceData]
    or it has no such property, [null], [false], [0], ['']); or any other
    value (a non-empty string, a number, [true], an object), with the value
    of its [length] property when that is a number. *)
Inductive WeekdaysValue :=
| WeekdaysArray (days : list Z)
| WeekdaysFalsy
| WeekdaysOther (length : option Z).

(** The fields of a task that the calculation reads. *)
Record t := mk {
  dueDate : option DateStr;
  recurrenceType : option string;
  weekdaysValue : WeekdaysValue
}.

(** A task of the typed model, as it is stored. *)
Definition of_task (task : Task.t) : t :=
  mk (Task.dueDate task) (Task.recurrenceType task)
     match Task.recurrenceData task with
     | Some d => WeekdaysArray (weekdays d)
     | None => WeekdaysFalsy
     end.

(** [weekdays.length === 0] is tested on whatever [weekdays || []] is;
    [weekdays.map] is a function only when it is an array. *)
Definition calculateNextRecurrenceDate (tz : Z) (task : t) : result (option Z) :=
  if negb (is_Some_b (dueDate task)) || negb (truthy (recurrenceType task))
  then Ok None
  else
    match DateUtils.createLocalDate tz (dueDate task) with
    | None => Ok None
    | Some currentDate =>
        let baseDate := currentDate in
        let ty := default "" (recurrenceType task) in
        if String.eqb ty "daily" then Ok (Some (DateUtils.addDays tz baseDate 1))
        else if String.eqb ty "weekly" then
          match weekdaysValue task with
          | WeekdaysFalsy | WeekdaysArray [] | WeekdaysOther (Some 0) =>
              Ok (Some (DateUtils.addDays tz baseDate 7))
          | WeekdaysOther _ => Throw "TypeError: weekdays.map is not a function"
          | WeekdaysArray weekdays =>
              let currentWeekday := JsDate.getDay tz baseDate in
              let selectedWeekdays := sortWith (fun a b => a - b) weekdays in
              match List.find (fun weekday => currentWeekday <? weekday) selectedWeekdays with
              | Some weekday =>
                  let daysToAdd := weekday - currentWeekday in
                  Ok (Some (DateUtils.addDays tz baseDate daysToAdd))
              | None =>
                  (* the sorted array is not empty here *)
                  let firstWeekday := hd 0 selectedWeekdays in
                  let daysToNextWeek := 7 - currentWeekday + firstWeekday in
                  Ok (Some (DateUtils.addDays tz baseDate daysToNextWeek))
              end
          end
        else if String.eqb ty "monthly" then Ok (Some (DateUtils.addMonths tz baseDate 1))
        else if String.eqb ty "yearly" then Ok (Some (DateUtils.addYears tz baseDate 1))
        else Ok None
    end.

End StoredTask.

(** ** filters/TaskFilter.js *)

Module TaskFilter.
Import JsDate.

Record SortOptions := mkSortOptions { field : string; direction : string }.

Record t := mk {
  currentFilter : string;
  currentCategoryFilter : option string;
  currentTagFilter : option string;
  sortOptions : SortOptions;
  completedTasksDays : Z
}.

(** The constructor's state. *)
Definition initial : t :=
  mk "all" None None (mkSortOptions "createdAt" "desc") 30.

Definition find_category (categories : list Category) (cid : string) : option Category :=
  List.find (fun cat => String.eqb (cat_id cat) cid) categories.

Definition find_tag (tags : list Tag) (tid : string) : option Tag :=
  List.find (fun tag => String.eqb (tag_id tag) tid) tags.

Definition matchesSearchTerm (task : Task.t) (searchTerm : string)
    (categories : list Category) (tags : list Tag) : bool :=
  let term := toLowerCase searchTerm in
  let titleMatch := includes (toLowerCase (Task.title task)) term in
  let descriptionMatch := includes (toLowerCase (Task.description task)) term in
  let categoryMatch :=
    match find_category categories (Task.category task) with
    | Some category => includes (toLowerCase (cat_name category)) term
    | None => false
    end in
  let tagMatch :=
    let taskTags := omap (find_tag tags) (Task.tags task) in
    existsb (fun tag => includes (toLowerCase (tag_name tag)) term) taskTags in
  titleMatch || descriptionMatch || categoryMatch || tagMatch.

(** The cutoff of the retention window: [new Date()] moved back by
    [completedTasksDays] calendar days. *)
Definition cutoffDate (tz now days : Z) : Z :=
  setDate tz now (getDate tz now - days).

Definition applyStatusFilter (st : t) (tz now : Z) (tasks : list Task.t) : list Task.t :=
  let filtered := tasks in
  let filtered :=
    if String.eqb (currentFilter st) "completed" then
      let filtered := List.filter (fun task => Task.completed task) filtered in
      if 0 <? completedTasksDays st then
        let cutoff := cutoffDate tz now (completedTasksDays st) in
        List.filter (fun task =>
                       let completedDate := default (Task.createdAt task) (Task.completedAt task) in
                       cutoff <=? completedDate) filtered
      else filtered
    else if String.eqb (currentFilter st) "recurring" then
      List.filter (fun task => Task.isRecurring task) filtered
    else if String.eqb (currentFilter st) "today" then
      List.filter (fun task => DateUtils.isTaskDueToday tz now task) filtered
    else if String.eqb (currentFilter st) "upcoming" then
      List.filter (fun task => DateUtils.isTaskUpcoming tz now task) filtered
    else if String.eqb (currentFilter st) "overdue" then
      List.filter (fun task => DateUtils.isTaskOverdue tz now task) filtered
    else filtered in
  if negb (String.eqb (currentFilter st) "completed")
  then List.filter (fun task => negb (Task.completed task)) filtered
  else filtered.

Definition applyPriorityFilter (st : t) (tasks : list Task.t) : list Task.t :=
  if existsb (String.eqb (currentFilter st)) ["low"; "medium"; "high"]
  then List.filter (fun task => String.eqb (Task.priority task) (currentFilter st)) tasks
  else tasks.

(** The value a task is sorted by, [aValue] / [bValue] of the comparator:
    a string or a number, depending on the field. *)
(** The values the sort compares: strings and numbers.  [VNaN] is the
    number NaN, the time value of a date that does not parse. *)
Inductive SortValue :=
| VStr (s : string)
| VNum (n : Z)
| VNaN.

(** [new Date(dueDate).getTime()] for a 'YYYY-MM-DD' string: the UTC
    midnight of the date, and NaN when a field is outside the ranges of the
    date-time string format (a month 13, a day 0 or 32). *)
Definition dateStringTime (s : DateStr) : SortValue :=
  if (0 <=? ds_year s) && (ds_year s <=? 9999)
     && (1 <=? ds_month s) && (ds_month s <=? 12)
     && (1 <=? ds_day s) && (ds_day s <=? 31)
  then VNum (parseISODate (ds_year s) (ds_month s) (ds_day s))
  else VNaN.

Definition priorityOrder (p : string) : Z :=
  if String.eqb p "high" then 3
  else if String.eqb p "medium" then 2
  else if String.eqb p "low" then 1
  else 0.

Definition tagNamesJoined (tags : list Tag) (task : Task.t) : string :=
  String.concat ","
    (sortStrings
       (map (fun tagId =>
               match find_tag tags tagId with
               | Some tag => toLowerCase (tag_name tag)
               | None => ""
               end) (Task.tags task))).

(** [aValue] of the comparator.  A [createdAt] is held as the time value
    of a timestamp that parses, so its key is a number. *)
Definition sortValue (fld : string) (categories : list Category) (tags : list Tag)
    (a : Task.t) : SortValue :=
  if String.eqb fld "title" then VStr (toLowerCase (Task.title a))
  else if String.eqb fld "priority" then VNum (priorityOrder (Task.priority a))
  else if String.eqb fld "status" then VNum (if Task.completed a then 1 else 0)
  else if String.eqb fld "category" then
    VStr match find_category categories (Task.category a) with
         | Some categoryA => toLowerCase (cat_name categoryA)
         | None => ""
         end
  else if String.eqb fld "tags" then VStr (tagNamesJoined tags a)
  else if String.eqb fld "dueDate" then
    match Task.dueDate a with
    | Some s => dateStringTime s
    | None => VNum 0
    end
  else VNum (Task.createdAt a).

(** The two tests of the comparator: [Lt] when [aValue < bValue], [Gt]
    when [aValue > bValue], [Eq] when neither holds, which is so for equal
    values and whenever one of them is NaN.  Every field yields values of
    one kind; a number is put before a string only to give the function a
    value there. *)
Definition value_compare (a b : SortValue) : comparison :=
  match a, b with
  | VStr x, VStr y => String.compare x y
  | VNum x, VNum y => Z.compare x y
  | VNum _, VStr _ => Lt
  | VStr _, VNum _ => Gt
  | VNaN, _ | _, VNaN => Eq
  end.

Definition compareTasks (opts : SortOptions) (categories : list Category)
    (tags : list Tag) (a b : Task.t) : Z :=
  let aValue := sortValue (field opts) categories tags a in
  let bValue := sortValue (field opts) categories tags b in
  match value_compare aValue bValue with
  | Lt => if String.eqb (direction opts) "asc" then -1 else 1
  | Gt => if String.eqb (direction opts) "asc" then 1 else -1
  | Eq => 0
  end.

Definition sortTasks (st : t) (tasks : list Task.t) (categories : list Category)
    (tags : list Tag) : list Task.t :=
  sortWith (compareTasks (sortOptions st) categories tags) tasks.

Definition filterTasks (st : t) (tz now : Z) (tasks : list Task.t)
    (categories : list Category) (tags : list Tag) (searchTerm : string) : list Task.t :=
  let filtered := tasks in
  let filtered := applyStatusFilter st tz now filtered in
  let filtered := applyPriorityFilter st filtered in
  let activeFilters : list (Task.t -> bool) :=
    ((if truthy (currentCategoryFilter st)
     then [fun task => same_string (Task.category task) (currentCategoryFilter st)]
     else [])
    ++ (if truthy (currentTagFilter st)
        then [fun task => existsb (fun tg => same_string tg (currentTagFilter st))
                            (Task.tags task)]
        else [])
    ++ (if negb (String.eqb searchTerm "")
        then [fun task => matchesSearchTerm task searchTerm categories tags]
        else []))%list in
  let filtered :=
    fold_left (fun acc flt => List.filter flt acc) activeFilters filtered in
  sortTasks st filtered categories tags.

(** *** The filter's state *)

Definition setFilter (st : t) (filter : string) : t :=
  mk filter None None (sortOptions st) (completedTasksDays st).

(** [a === b] on nullable strings. *)
Definition same_nullable (a b : option string) : bool :=
  match a with
  | Some s => same_string s b
  | None => negb (is_Some_b b)
  end.

(** [categoryId] is an id, or [null] when the caller switches the
    category filter off. *)
Definition setCategoryFilter (st : t) (categoryId : option string) : t :=
  mk "all"
     (if same_nullable (currentCategoryFilter st) categoryId then None else categoryId)
     (currentTagFilter st) (sortOptions st) (completedTasksDays st).

Definition setTagFilter (st : t) (tagId : option string) : t :=
  mk "all"
     (currentCategoryFilter st)
     (if same_nullable (currentTagFilter st) tagId then None else tagId)
     (sortOptions st) (completedTasksDays st).

Definition clearAllFilters (st : t) : t :=
  mk "all" None None (sortOptions st) (completedTasksDays st).

(** A [sortOptions] object with any subset of its keys. *)
Record SortOptionsData := mkSortOptionsData {
  data_field : option string;
  data_direction : option string
}.

(** [{ ...sortOptions, ...options }] *)
Definition mergeSortOptions (opts : SortOptions) (options : SortOptionsData) : SortOptions :=
  mkSortOptions (default (field opts) (data_field options))
                (default (direction opts) (data_direction options)).

Definition setSortOptions (st : t) (options : SortOptionsData) : t :=
  mk (currentFilter st) (currentCategoryFilter st) (currentTagFilter st)
     (mergeSortOptions (sortOptions st) options) (completedTasksDays st).

Definition setCompletedTasksDays (st : t) (days : Z) : t :=
  mk (currentFilter st) (currentCategoryFilter st) (currentTagFilter st)
     (sortOptions st) days.

Definition filterTasksByCategoryAndTag (st : t) (tasks : list Task.t) : list Task.t :=
  let filtered := tasks in
  let filtered :=
    if truthy (currentCategoryFilter st)
    then List.filter (fun task => same_string (Task.category task) (currentCategoryFilter st))
                     filtered
    else filtered in
  let filtered :=
    if truthy (currentTagFilter st)
    then List.filter (fun task => existsb (fun tg => same_string tg (currentTagFilter st))
                                          (Task.tags task)) filtered
    else filtered in
  filtered.

Definition hasActiveFilters (st : t) : bool :=
  is_Some_b (currentCategoryFilter st) || is_Some_b (currentTagFilter st).

Record FilterStats := mkFilterStats {
  total : nat;
  completed : nat;
  pending : nat;
  overdue : nat;
  dueToday : nat;
  upcoming : nat;
  recurring : nat
}.

Definition getFilterStats (tz now : Z) (tasks : list Task.t) : FilterStats :=
  mkFilterStats
    (length tasks)
    (length (List.filter (fun task => Task.completed task) tasks))
    (length (List.filter (fun task => negb (Task.completed task)) tasks))
    (length (List.filter (fun task => DateUtils.isTaskOverdue tz now task) tasks))
    (length (List.filter (fun task => DateUtils.isTaskDueToday tz now task) tasks))
    (length (List.filter (fun task => DateUtils.isTaskUpcoming tz now task) tasks))
    (length (List.filter (fun task => Task.isRecurring task) tasks)).

(** The object [getState] returns and [setState] takes; a restored
    object may lack any of the keys. *)
Record State := mkState {
  state_currentFilter : option string;
  state_currentCategoryFilter : option (option string);
  state_currentTagFilter : option (option string);
  state_sortOptions : option SortOptionsData;
  state_completedTasksDays : option Z
}.

Definition getState (st : t) : State :=
  mkState (Some (currentFilter st))
          (Some (currentCategoryFilter st))
          (Some (currentTagFilter st))
          (Some (mkSortOptionsData (Some (field (sortOptions st)))
                                   (Some (direction (sortOptions st)))))
          (Some (completedTasksDays st)).

(** [v || null] on a nullable string key that may be absent. *)
Definition nullable_or_null (o : option (option string)) : option string :=
  match o with
  | Some (Some s) => if String.eqb s "" then None else Some s
  | _ => None
  end.

Definition setState (st : t) (state : State) : t :=
  mk (match state_currentFilter state with
      | Some s => if String.eqb s "" then "all" else s
      | None => "all"
      end)
     (nullable_or_null (state_currentCategoryFilter state))
     (nullable_or_null (state_currentTagFilter state))
     (match state_sortOptions state with
      | Some options => mergeSortOptions (sortOptions st) options
      | None => sortOptions st
      end)
     (match state_completedTasksDays state with
      | Some days => if days =? 0 then 30 else days
      | None => 30
      end).

End TaskFilter.

(** ** core/TaskController.js *)

(** [array.findIndex(p)]; [None] stands for -1. *)
Fixpoint findIndex {A} (p : A -> bool) (l : list A) : option nat :=
  match l with
  | [] => None
  | x :: r => if p x then Some 0%nat else S <$> findIndex p r
  end.

(** The object handed to [addTask] and [updateTask]: any subset of the
    task's keys.  [None] is an absent key; a nullable field that is present
    carries its own option. *)
Module TaskData.
Record t := mk {
  id : option string;
  title : option string;
  description : option string;
  category : option string;
  tags : option (list string);
  priority : option string;
  dueDate : option (option DateStr);
  dueTime : option string;
  completed : option bool;
  createdAt : option Z;
  completedAt : option (option Z);
  isRecurring : option bool;
  recurrenceType : option (option string);
  recurrenceData : option (option RecurrenceData);
  parentRecurringId : option (option string)
}.

Definition empty : t :=
  mk None None None None None None None None None None None None None None None.
End TaskData.

Module TaskController.

(** The controller's state: [this.tasks], and how many ids the id
    generator has handed out so far.  [saveTasks] copies [this.tasks] to
    storage and swallows its own errors, the toast manager only notifies;
    neither reads or writes [this.tasks] again, and both are left out. *)
Record t := mk { tasks : list Task.t; generated : nat }.

(** What the controller reads from its surroundings: the time zone
    offset, the current instant, and [IdGenerator.generateTaskId], whose
    n-th call returns [generateTaskId n]. *)
Record Env := mkEnv { tz : Z; now : Z; generateTaskId : nat -> string }.

(** [v || d] for a string key that may be absent. *)
Definition str_or (o : option string) (d : string) : string :=
  match o with
  | Some s => if String.eqb s "" then d else s
  | None => d
  end.

(** [v || null] for a nullable string key that may be absent. *)
Definition str_or_null (o : option (option string)) : option string :=
  match o with
  | Some (Some s) => if String.eqb s "" then None else Some s
  | _ => None
  end.

Definition getTaskById (st : t) (taskId : string) : option Task.t :=
  List.find (fun task => String.eqb (Task.id task) taskId) (tasks st).

Definition addTask (env : Env) (st : t) (taskData : TaskData.t) : bool * t :=
  let task :=
    Task.mk
      (generateTaskId env (generated st))
      (str_or (TaskData.title taskData) "")
      (str_or (TaskData.description taskData) "")
      (str_or (TaskData.category taskData) "personal")
      (default [] (TaskData.tags taskData))
      (str_or (TaskData.priority taskData) "medium")
      (default None (TaskData.dueDate taskData))
      (str_or (TaskData.dueTime taskData) "")
      (default false (TaskData.completed taskData))
      (now env)
      None
      (default false (TaskData.isRecurring taskData))
      (str_or_null (TaskData.recurrenceType taskData))
      (default None (TaskData.recurrenceData taskData))
      (str_or_null (TaskData.parentRecurringId taskData)) in
  let st := mk (tasks st) (S (generated st)) in
  if String.eqb (trim (Task.title task)) "" then (false, st)
  else (true, mk (tasks st ++ [task])%list (generated st)).

(** [{ ...task, ...taskData, id: taskId }] *)
Definition merge (task : Task.t) (taskData : TaskData.t) (taskId : string) : Task.t :=
  Task.mk
    taskId
    (default (Task.title task) (TaskData.title taskData))
    (default (Task.description task) (TaskData.description taskData))
    (default (Task.category task) (TaskData.category taskData))
    (default (Task.tags task) (TaskData.tags taskData))
    (default (Task.priority task) (TaskData.priority taskData))
    (default (Task.dueDate task) (TaskData.dueDate taskData))
    (default (Task.dueTime task) (TaskData.dueTime taskData))
    (default (Task.completed task) (TaskData.completed taskData))
    (default (Task.createdAt task) (TaskData.createdAt taskData))
    (default (Task.completedAt task) (TaskData.completedAt taskData))
    (default (Task.isRecurring task) (TaskData.isRecurring taskData))
    (default (Task.recurrenceType task) (TaskData.recurrenceType taskData))
    (default (Task.recurrenceData task) (TaskData.recurrenceData taskData))
    (default (Task.parentRecurringId task) (TaskData.parentRecurringId taskData)).

Definition updateTask (st : t) (taskId : string) (taskData : TaskData.t) : bool * t :=
  match findIndex (fun task => String.eqb (Task.id task) taskId) (tasks st) with
  | None => (false, st)
  | Some taskIndex =>
      match tasks st !! taskIndex with
      | None => (false, st)
      | Some old =>
          (true, mk (<[taskIndex := merge old taskData taskId]> (tasks st)) (generated st))
      end
  end.

(** A possibly [null] date in a relational comparison: [null] counts as 0. *)
Definition dateNumber (d : option Z) : Z := default 0 d.

Definition generateNextRecurringTask (env : Env) (st : t) (parentTask : Task.t) : t :=
  match DateUtils.calculateNextRecurrenceDate (tz env) parentTask with
  | None => st
  | Some nextDate =>
      let nextTask :=
        Task.mk
          (generateTaskId env (generated st))
          (Task.title parentTask)
          (Task.description parentTask)
          (Task.category parentTask)
          (Task.tags parentTask)
          (Task.priority parentTask)
          (Some (DateUtils.formatDateISO (tz env) nextDate))
          (Task.dueTime parentTask)
          false
          (now env)
          (Task.completedAt parentTask)
          (Task.isRecurring parentTask)
          (Task.recurrenceType parentTask)
          (Task.recurrenceData parentTask)
          (Some (Task.id parentTask)) in
      mk (tasks st ++ [nextTask])%list (S (generated st))
  end.

(** One step of the [forEach] of [checkAndGenerateRecurringTasks]. *)
Definition checkTask (env : Env) (today : Z) (st : t) (task : Task.t) : t :=
  if Task.isRecurring task && negb (truthy (Task.parentRecurringId task)) then
    let taskDate := DateUtils.createLocalDate (tz env) (Task.dueDate task) in
    if (Task.completed task && (dateNumber taskDate <=? today))
       || (negb (Task.completed task) && (dateNumber taskDate <? today))
    then
      let hasNextOccurrence :=
        existsb (fun t =>
                   same_string (Task.id task) (Task.parentRecurringId t)
                   && (today <? dateNumber (DateUtils.createLocalDate (tz env) (Task.dueDate t))))
                (tasks st) in
      if negb hasNextOccurrence then generateNextRecurringTask env st task else st
    else st
  else st.

(** [forEach] visits the elements the array had when the loop started;
    the tasks pushed meanwhile are in [this.tasks] but are not visited. *)
Definition checkAndGenerateRecurringTasks (env : Env) (st : t) : t :=
  let today := DateUtils.startOfToday (tz env) (now env) in
  fold_left (checkTask env today) (tasks st) st.

Definition deleteTask (st : t) (taskId : string) : bool * t :=
  match findIndex (fun task => String.eqb (Task.id task) taskId) (tasks st) with
  | None => (false, st)
  | Some taskIndex => (true, mk (delete taskIndex (tasks st)) (generated st))
  end.

(** [confirmed] is the user's answer to the [confirm] dialog. *)
Definition deleteTaskConfirm (st : t) (taskId : string) (confirmed : bool) : bool * t :=
  match getTaskById st taskId with
  | None => (false, st)
  | Some task => if confirmed then deleteTask st taskId else (false, st)
  end.

Definition with_completed (task : Task.t) (completed : bool) : Task.t :=
  Task.mk (Task.id task) (Task.title task) (Task.description task) (Task.category task)
          (Task.tags task) (Task.priority task) (Task.dueDate task) (Task.dueTime task)
          completed (Task.createdAt task) (Task.completedAt task) (Task.isRecurring task)
          (Task.recurrenceType task) (Task.recurrenceData task)
          (Task.parentRecurringId task).

Record ToggleResult := mkToggleResult {
  success : bool;
  wasCompleted : bool;
  isNowCompleted : bool
}.

(** [toggleTaskComplete]: [None] is the [false] returned for an unknown
    id. *)
Definition toggleTaskComplete (st : t) (taskId : string) : option ToggleResult * t :=
  match findIndex (fun task => String.eqb (Task.id task) taskId) (tasks st) with
  | None => (None, st)
  | Some taskIndex =>
      match tasks st !! taskIndex with
      | None => (None, st)
      | Some task =>
          let wasCompleted := Task.completed task in
          let task := with_completed task (negb (Task.completed task)) in
          (Some (mkToggleResult true wasCompleted (Task.completed task)),
           mk (<[taskIndex := task]> (tasks st)) (generated st))
      end
  end.

Definition with_dueDate (task : Task.t) (dueDate : option DateStr) : Task.t :=
  Task.mk (Task.id task) (Task.title task) (Task.description task) (Task.category task)
          (Task.tags task) (Task.priority task) dueDate (Task.dueTime task)
          (Task.completed task) (Task.createdAt task) (Task.completedAt task)
          (Task.isRecurring task) (Task.recurrenceType task) (Task.recurrenceData task)
          (Task.parentRecurringId task).

Definition generateRecurringAfterComplete (env : Env) (st : t) (completedTask : Task.t) : t :=
  if Task.isRecurring completedTask then
    match Task.parentRecurringId completedTask with
    | Some parentId =>
        if String.eqb parentId "" then generateNextRecurringTask env st completedTask
        else
          match getTaskById st parentId with
          | Some parentTask =>
              let taskForCalculation := with_dueDate parentTask (Task.dueDate completedTask) in
              generateNextRecurringTask env st taskForCalculation
          | None => st
          end
    | None => generateNextRecurringTask env st completedTask
    end
  else st.

Record TaskStats := mkTaskStats { total : Z; completed : Z; pending : Z }.

Definition getTaskStats (st : t) : TaskStats :=
  let total := Z.of_nat (length (tasks st)) in
  let completed := Z.of_nat (length (List.filter (fun task => Task.completed task) (tasks st))) in
  let pending := total - completed in
  mkTaskStats total completed pending.

Definition getCategoryTaskCount (st : t) (categoryId : string) : nat :=
  length (List.filter (fun task => String.eqb (Task.category task) categoryId) (tasks st)).

Definition getTagTaskCount (st : t) (tagId : string) : nat :=
  length (List.filter (fun task => Task.hasTag task tagId) (tasks st)).

End TaskController.

(** ** utils/ValidationUtils.js *)

Module ValidationUtils.

Record FieldResult := mkField { field_isValid : bool; message : string }.
Record TaskResult := mkResult { isValid : bool; errors : list string }.

Definition ok : FieldResult := mkField true "".

(** A number inside a template string. *)
Definition show (n : Z) : string := NilZero.string_of_int (Z.to_int n).

Definition validateRequired (value fieldName : string) : FieldResult :=
  if String.eqb value "" || String.eqb (trim value) ""
  then mkField false (fieldName ++ " é obrigatório.")
  else ok.

Definition validateLength (value : string) (minLength maxLength : Z)
    (fieldName : string) : FieldResult :=
  if String.eqb value "" then ok
  else
    let length := str_length (trim value) in
    if length <? minLength then
      mkField false (fieldName ++ " deve ter pelo menos " ++ show minLength ++ " caracteres.")
    else if maxLength <? length then
      mkField false (fieldName ++ " deve ter no máximo " ++ show maxLength ++ " caracteres.")
    else ok.

(** Whether [new Date('YYYY-MM-DD')] is a valid date: the fields are in
    the ranges of the date-time string format. *)
Definition parsesAsDate (s : DateStr) : bool :=
  (0 <=? ds_year s) && (ds_year s <=? 9999)
  && (1 <=? ds_month s) && (ds_month s <=? 12)
  && (1 <=? ds_day s) && (ds_day s <=? 31).

Definition validateDate (tz now : Z) (dateString : option DateStr) (allowPast : bool)
    : FieldResult :=
  match dateString with
  | None => ok
  | Some s =>
      if negb (parsesAsDate s) then mkField false "Data inválida."
      else
        let date := JsDate.parseISODate (ds_year s) (ds_month s) (ds_day s) in
        if negb allowPast && (date <? DateUtils.startOfToday tz now)
        then mkField false "Data não pode ser no passado."
        else ok
  end.

Definition digit_between (c : ascii) (lo hi : nat) : bool :=
  let n := nat_of_ascii c in
  ((48 + lo <=? n) && (n <=? 48 + hi))%nat.

(** The regular expression [^([01]?[0-9]|2[0-3]):[0-5][0-9]$]. *)
Definition matchesTime (s : string) : bool :=
  match list_ascii_of_string s with
  | [h; c; m1; m2] =>
      digit_between h 0 9 && Ascii.eqb c ":" && digit_between m1 0 5 && digit_between m2 0 9
  | [h1; h2; c; m1; m2] =>
      ((digit_between h1 0 1 && digit_between h2 0 9)
       || (digit_between h1 2 2 && digit_between h2 0 3))
      && Ascii.eqb c ":" && digit_between m1 0 5 && digit_between m2 0 9
  | _ => false
  end.

Definition validateTime (timeString : string) : FieldResult :=
  if String.eqb timeString "" then ok
  else if negb (matchesTime timeString)
  then mkField false "Horário deve estar no formato HH:MM."
  else ok.

(** [if (!r.isValid) errors.push(r.message)] *)
Definition push_error (errors : list string) (r : FieldResult) : list string :=
  if field_isValid r then errors else (errors ++ [message r])%list.

Definition validateTask (tz now : Z) (task : Task.t) : TaskResult :=
  let errors := [] in
  let errors := push_error errors (validateRequired (Task.title task) "Título da tarefa") in
  let errors := push_error errors (validateLength (Task.title task) 1 100 "Título da tarefa") in
  let errors :=
    if negb (String.eqb (Task.description task) "")
    then push_error errors (validateLength (Task.description task) 0 500 "Descrição")
    else errors in
  let errors := push_error errors (validateDate tz now (Task.dueDate task) true) in
  let errors := push_error errors (validateTime (Task.dueTime task)) in
  let errors :=
    if 3 <? Z.of_nat (length (Task.tags task))
    then (errors ++ ["Você pode selecionar no máximo 3 tags por tarefa."])%list
    else errors in
  let errors :=
    if Task.isRecurring task && negb (is_Some_b (Task.dueDate task))
    then (errors ++ ["Tarefas recorrentes precisam de uma data de vencimento."])%list
    else errors in
  mkResult (Nat.eqb (length errors) 0) errors.

End ValidationUtils.

(** ** models/Task.js: the methods of the class *)

Module TaskMethods.

(** [new Task(data)]; [generatedId] is what [IdGenerator.generateTaskId]
    would return and [now] the instant of the call. *)
Definition new (generatedId : string) (now : Z) (data : TaskData.t) : Task.t :=
  Task.mk
    (TaskController.str_or (TaskData.id data) generatedId)
    (TaskController.str_or (TaskData.title data) "")
    (TaskController.str_or (TaskData.description data) "")
    (TaskController.str_or (TaskData.category data) "personal")
    (default [] (TaskData.tags data))
    (TaskController.str_or (TaskData.priority data) "medium")
    (default None (TaskData.dueDate data))
    (TaskController.str_or (TaskData.dueTime data) "")
    (default false (TaskData.completed data))
    (default now (TaskData.createdAt data))
    (default None (TaskData.completedAt data))
    (default false (TaskData.isRecurring data))
    (TaskController.str_or_null (TaskData.recurrenceType data))
    (default None (TaskData.recurrenceData data))
    (TaskController.str_or_null (TaskData.parentRecurringId data)).

Definition with_completion (task : Task.t) (completed : bool) (completedAt : option Z)
    : Task.t :=
  Task.mk (Task.id task) (Task.title task) (Task.description task) (Task.category task)
          (Task.tags task) (Task.priority task) (Task.dueDate task) (Task.dueTime task)
          completed (Task.createdAt task) completedAt (Task.isRecurring task)
          (Task.recurrenceType task) (Task.recurrenceData task)
          (Task.parentRecurringId task).

(** [markAsCompleted(completed)]; [now] is the instant of the call. *)
Definition markAsCompleted (now : Z) (task : Task.t) (completed : bool) : Task.t :=
  let completedAt :=
    if completed && negb (is_Some_b (Task.completedAt task)) then Some now
    else if negb completed then None
    else Task.completedAt task in
  with_completion task completed completedAt.

Definition toggleCompleted (now : Z) (task : Task.t) : Task.t :=
  markAsCompleted now task (negb (Task.completed task)).

(** [removeTag(tagId)]: the returned flag and the task after the call. *)
Definition removeTag (task : Task.t) (tagId : string) : bool * Task.t :=
  match findIndex (String.eqb tagId) (Task.tags task) with
  | Some index => (true, Task.with_tags task (delete index (Task.tags task)))
  | None => (false, task)
  end.

Definition toJSON (task : Task.t) : TaskData.t :=
  TaskData.mk (Some (Task.id task)) (Some (Task.title task)) (Some (Task.description task))
              (Some (Task.category task)) (Some (Task.tags task))
              (Some (Task.priority task)) (Some (Task.dueDate task))
              (Some (Task.dueTime task)) (Some (Task.completed task))
              (Some (Task.createdAt task)) (Some (Task.completedAt task))
              (Some (Task.isRecurring task)) (Some (Task.recurrenceType task))
              (Some (Task.recurrenceData task)) (Some (Task.parentRecurringId task)).

Definition fromJSON (generatedId : string) (now : Z) (json : TaskData.t) : Task.t :=
  new generatedId now json.

(** [clone()] passes every field of the task, with copies of [tags] and
    [recurrenceData], to the constructor. *)
Definition clone (generatedId : string) (now : Z) (task : Task.t) : Task.t :=
  new generatedId now (toJSON task).

(** [createRecurringInstance(newId, newDueDate)] *)
Definition createRecurringInstance (generatedId : string) (now : Z) (task : Task.t)
    (newId : string) (newDueDate : option DateStr) : Task.t :=
  let newTask := clone generatedId now task in
  Task.mk newId (Task.title newTask) (Task.description newTask) (Task.category newTask)
          (Task.tags newTask) (Task.priority newTask) newDueDate (Task.dueTime newTask)
          false now None (Task.isRecurring newTask) (Task.recurrenceType newTask)
          (Task.recurrenceData newTask) (Some (Task.id task)).

(** [new Date(this.dueDate)]: the date-only string read as UTC midnight;
    [None] is an invalid date, which compares false with everything. *)
Definition parsedDueDate (s : DateStr) : option Z :=
  if ValidationUtils.parsesAsDate s
  then Some (JsDate.parseISODate (ds_year s) (ds_month s) (ds_day s))
  else None.

Definition isOverdue (tz now : Z) (task : Task.t) : bool :=
  match Task.dueDate task with
  | None => false
  | Some s =>
      if Task.completed task then false
      else
        let today := JsDate.setHours tz now 0 0 0 0 in
        match parsedDueDate s with
        | Some dueDate => dueDate <? today
        | None => false
        end
  end.

Definition isDueToday (tz now : Z) (task : Task.t) : bool :=
  match Task.dueDate task with
  | None => false
  | Some s =>
      let today := JsDate.setHours tz now 0 0 0 0 in
      match parsedDueDate s with
      | Some dueDate =>
          JsDate.dateString_eqb (JsDate.toDateString tz today) (JsDate.toDateString tz dueDate)
      | None => false
      end
  end.

Definition isUpcoming (tz now : Z) (task : Task.t) : bool :=
  match Task.dueDate task with
  | None => false
  | Some s =>
      let today := JsDate.setHours tz now 0 0 0 0 in
      match parsedDueDate s with
      | Some dueDate =>
          let nextWeek := JsDate.setDate tz today (JsDate.getDate tz today + 7) in
          (today <? dueDate) && (dueDate <=? nextWeek)
      | None => false
      end
  end.

(** [validate()] *)
Definition validate (task : Task.t) : ValidationUtils.TaskResult :=
  let errors := [] in
  let errors :=
    if String.eqb (Task.title task) "" || String.eqb (trim (Task.title task)) ""
    then (errors ++ ["Título é obrigatório"])%list else errors in
  let errors :=
    if negb (String.eqb (Task.title task) "") && (100 <? str_length (Task.title task))
    then (errors ++ ["Título deve ter no máximo 100 caracteres"])%list else errors in
  let errors :=
    if negb (String.eqb (Task.description task) "")
       && (500 <? str_length (Task.description task))
    then (errors ++ ["Descrição deve ter no máximo 500 caracteres"])%list else errors in
  let errors :=
    if 3 <? Z.of_nat (length (Task.tags task))
    then (errors ++ ["Máximo de 3 tags por tarefa"])%list else errors in
  let errors :=
    if negb (existsb (String.eqb (Task.priority task)) ["low"; "medium"; "high"])
    then (errors ++ ["Prioridade inválida"])%list else errors in
  let errors :=
    if Task.isRecurring task && negb (is_Some_b (Task.dueDate task))
    then (errors ++ ["Tarefas recorrentes precisam de data de vencimento"])%list
    else errors in
  ValidationUtils.mkResult (Nat.eqb (length errors) 0) errors.

End TaskMethods.

(** ** The category controller (CategoryController.js)

    A category is kept by its id, name and color; its [createdAt] stamp,
    which none of these functions reads, is left out.  The tag controller
    is written the same way over tags. *)

Module CategoryController.

(** [this.categories], and how many ids the id generator has handed out
    so far; [generateCategoryId n] is the id its n-th call returns. *)
Record t := mk { categories : list Category; generated : nat }.

(** The object handed to [updateCategory]: any subset of the keys. *)
Record CategoryData := mkCategoryData {
  data_name : option string;
  data_color : option string
}.

Definition getCategoryById (st : t) (categoryId : string) : option Category :=
  List.find (fun cat => String.eqb (cat_id cat) categoryId) (categories st).

(** [addCategory({ name, color })] *)
Definition addCategory (generateCategoryId : nat -> string) (st : t) (name color : string)
    : bool * t :=
  if 5 <=? Z.of_nat (length (categories st)) then (false, st)
  else
    let category := mkCategory (generateCategoryId (generated st)) (trim name) color in
    let st := mk (categories st) (S (generated st)) in
    if String.eqb (cat_name category) "" then (false, st)
    else
      let existingCategory :=
        List.find (fun cat => String.eqb (toLowerCase (cat_name cat))
                                         (toLowerCase (cat_name category)))
                  (categories st) in
      match existingCategory with
      | Some _ => (false, st)
      | None => (true, mk (categories st ++ [category])%list (generated st))
      end.

Definition updateCategory (st : t) (categoryId : string) (categoryData : CategoryData)
    : bool * t :=
  match findIndex (fun cat => String.eqb (cat_id cat) categoryId) (categories st) with
  | None => (false, st)
  | Some categoryIndex =>
      let existingCategory :=
        match data_name categoryData with
        | Some name =>
            if String.eqb name "" then None
            else List.find (fun cat => negb (String.eqb (cat_id cat) categoryId)
                                       && String.eqb (toLowerCase (cat_name cat))
                                                     (toLowerCase name))
                           (categories st)
        | None => None
        end in
      match existingCategory with
      | Some _ => (false, st)
      | None =>
          match categories st !! categoryIndex with
          | None => (false, st)
          | Some old =>
              let updated :=
                mkCategory categoryId
                           (default (cat_name old) (data_name categoryData))
                           (default (cat_color old) (data_color categoryData)) in
              (true, mk (<[categoryIndex := updated]> (categories st)) (generated st))
          end
      end
  end.

(** [deleteCategory(categoryId)]; [tasks] is what
    [taskController.getAllTasks()] returns. *)
Definition deleteCategory (st : t) (tasks : list Task.t) (categoryId : string) : bool * t :=
  let tasksUsingCategory :=
    List.filter (fun task => String.eqb (Task.category task) categoryId) tasks in
  if 0 <? Z.of_nat (length tasksUsingCategory) then (false, st)
  else
    match findIndex (fun cat => String.eqb (cat_id cat) categoryId) (categories st) with
    | None => (false, st)
    | Some categoryIndex =>
        (true, mk (delete categoryIndex (categories st)) (generated st))
    end.

Definition isCategoryInUse (tasks : list Task.t) (categoryId : string) : bool :=
  existsb (fun task => String.eqb (Task.category task) categoryId) tasks.

End CategoryController.

(** ** The filter controller and the category and tag clicks of the
    settings controller

    [FilterController] keeps its own copy of the filter selection next to
    the [TaskFilter] it drives.  The search filter object it also writes to
    has no part in what follows and is left out. *)

Module FilterController.

Record t := mk {
  taskFilter : TaskFilter.t;
  currentFilter : string;
  currentCategoryFilter : option string;
  currentTagFilter : option string;
  currentSearchTerm : string
}.

Definition initial : t := mk TaskFilter.initial "all" None None "".

Definition setFilter (fc : t) (filter : string) : t :=
  mk (TaskFilter.setFilter (taskFilter fc) filter) filter None None (currentSearchTerm fc).

Definition setCategoryFilter (fc : t) (categoryId : option string) : t :=
  mk (TaskFilter.setCategoryFilter (taskFilter fc) categoryId) "all" categoryId
     (currentTagFilter fc) (currentSearchTerm fc).

Definition setTagFilter (fc : t) (tagId : option string) : t :=
  mk (TaskFilter.setTagFilter (taskFilter fc) tagId) "all" (currentCategoryFilter fc)
     tagId (currentSearchTerm fc).

Definition setSearchTerm (fc : t) (searchTerm : string) : t :=
  mk (taskFilter fc) (currentFilter fc) (currentCategoryFilter fc) (currentTagFilter fc)
     searchTerm.

Definition clearAllFilters (fc : t) : t :=
  mk (TaskFilter.clearAllFilters (taskFilter fc)) "all" None None "".

Definition getFilteredTasks (fc : t) (tz now : Z) (tasks : list Task.t)
    (categories : list Category) (tags : list Tag) : list Task.t :=
  TaskFilter.filterTasks (taskFilter fc) tz now tasks categories tags (currentSearchTerm fc).

Definition hasActiveFilters (fc : t) : bool :=
  is_Some_b (currentCategoryFilter fc) || is_Some_b (currentTagFilter fc)
  || negb (String.eqb (currentSearchTerm fc) "").

Definition getFilteredStats (fc : t) (tz now : Z) (tasks : list Task.t)
    : TaskFilter.FilterStats :=
  if truthy (currentCategoryFilter fc) || truthy (currentTagFilter fc)
  then TaskFilter.getFilterStats tz now
         (TaskFilter.filterTasksByCategoryAndTag (taskFilter fc) tasks)
  else TaskFilter.getFilterStats tz now tasks.

End FilterController.

Module SettingsController.

(** [filterByCategory(categoryId)]: a click on a category. *)
Definition filterByCategory (fc : FilterController.t) (categoryId : string)
    : FilterController.t :=
  let isCurrentlyActive := same_string categoryId (FilterController.currentCategoryFilter fc) in
  let newCategoryId := if isCurrentlyActive then None else Some categoryId in
  FilterController.setCategoryFilter fc newCategoryId.

(** [filterByTag(tagId)]: a click on a tag. *)
Definition filterByTag (fc : FilterController.t) (tagId : string) : FilterController.t :=
  let isCurrentlyActive := same_string tagId (FilterController.currentTagFilter fc) in
  let newTagId := if isCurrentlyActive then None else Some tagId in
  FilterController.setTagFilter fc newTagId.

(** [toggleTaskComplete(taskId)]: a click on a task's checkbox. *)
Definition toggleTaskComplete (env : TaskController.Env) (st : TaskController.t)
    (taskId : string) : TaskController.t :=
  let '(result, st) := TaskController.toggleTaskComplete st taskId in
  match result with
  | Some result =>
      if negb (TaskController.wasCompleted result) && TaskController.isNowCompleted result
      then
        match TaskController.getTaskById st taskId with
        | Some task =>
            if Task.isRecurring task
            then TaskController.generateRecurringAfterComplete env st task
            else st
        | None => st
        end
      else st
  | None => st
  end.

End SettingsController.

(** ** utils/IdGenerator.js *)

Module IdGenerator.

(** A letter of [a-z] in either case, or a digit. *)
Definition isAlphanumeric (c : ascii) : bool :=
  let code := Z.of_nat (nat_of_ascii c) in
  ((48 <=? code) && (code <=? 57))
  || ((65 <=? code) && (code <=? 90))
  || ((97 <=? code) && (code <=? 122)).

(** [id.length > 0 && /^[a-z0-9]+$/i.test(id)] *)
Definition isValid (id : string) : bool :=
  (0 <? str_length id) && forallb isAlphanumeric (list_ascii_of_string id).

End IdGenerator.

(** ** A JavaScript [Map] with string keys

    Entries are kept in insertion order; setting an existing key replaces
    its value in place. *)

Module JsMap.
Definition t (V : Type) : Type := list (string * V).

Definition get {V} (m : t V) (k : string) : option V :=
  snd <$> List.find (fun e => String.eqb (fst e) k) m.

Definition has {V} (m : t V) (k : string) : bool := is_Some_b (get m k).

Fixpoint set {V} (m : t V) (k : string) (v : V) : t V :=
  match m with
  | [] => [(k, v)]
  | (k', v') :: r => if String.eqb k' k then (k, v) :: r else (k', v') :: set r k v
  end.

Definition keys {V} (m : t V) : list string := map fst m.
Definition values {V} (m : t V) : list V := map snd m.
End JsMap.

(** ** The task list element and the renderer (TaskRenderer.js) *)

Module TaskRenderer.

(** What [createTaskHTML(task, categories, tags)] was built from. *)
Record TaskHTML := mkTaskHTML {
  html_task : Task.t;
  html_category : option Category;
  html_tags : list Tag
}.

Inductive node :=
| TaskItem (html : TaskHTML)
| EmptyState (message : string).

Definition createTaskHTML (task : Task.t) (categories : list Category)
    (tags : list Tag) : TaskHTML :=
  mkTaskHTML task
    (TaskFilter.find_category categories (Task.category task))
    (omap (TaskFilter.find_tag tags) (Task.tags task)).

(** The value of the [data-task-id] attribute.  [createTaskHTML] writes
    the id into the markup as it is, so the attribute holds the id itself
    when the id has no character that HTML reads specially, as is the case
    of the ids [IdGenerator.isValid] accepts. *)
Definition data_task_id (n : node) : option string :=
  match n with
  | TaskItem h => Some (Task.id (html_task h))
  | EmptyState _ => None
  end.

(** [html.includes(text)] for a text that is not part of the fixed
    markup: it then lies within one of the interpolated values. *)
Definition html_includes (text : string) (n : node) : bool :=
  match n with
  | EmptyState message => includes message text
  | TaskItem h =>
      let task := html_task h in
      includes (Task.id task) text
      || includes (Task.title task) text
      || includes (Task.description task) text
      || includes (Task.dueTime task) text
      || match html_category h with
         | Some c => includes (cat_name c) text || includes (cat_color c) text
         | None => false
         end
      || existsb (fun tg => includes (tag_name tg) text || includes (tag_color tg) text)
                 (html_tags h)
  end.

(** [renderTasks] on the children of the [taskList] element; [None]
    when the document has no such element. *)
Definition renderTasks (taskList : option (list node)) (tasks : list Task.t)
    (categories : list Category) (tags : list Tag) (emptyMessage : string)
    : option (list node) :=
  match taskList with
  | None => None
  | Some _ =>
      match tasks with
      | [] => Some [EmptyState emptyMessage]
      | _ :: _ => Some (map (fun task => TaskItem (createTaskHTML task categories tags)) tasks)
      end
  end.

End TaskRenderer.

(** ** core/RenderController.js *)

Fixpoint list_eqb {A} (eqb : A -> A -> bool) (l1 l2 : list A) : bool :=
  match l1, l2 with
  | [], [] => true
  | x :: r1, y :: r2 => eqb x y && list_eqb eqb r1 r2
  | _, _ => false
  end.

Definition option_eqb {A} (eqb : A -> A -> bool) (o1 o2 : option A) : bool :=
  match o1, o2 with
  | None, None => true
  | Some x, Some y => eqb x y
  | _, _ => false
  end.

Definition DateStr_eqb (a b : DateStr) : bool :=
  (ds_year a =? ds_year b) && (ds_month a =? ds_month b) && (ds_day a =? ds_day b).

Module RenderController.
Import TaskRenderer.

Definition defaultEmptyMessage : string := "Nenhuma tarefa encontrada".

(** [lastRenderedTasks], and the children of the element with id
    [taskList] ([None]: the document has no such element). *)
Record t := mk {
  lastRenderedTasks : JsMap.t Task.t;
  taskList : option (list node)
}.

(** The browser: which ids make [[data-task-id="id"]] a selector that
    [querySelector] rejects with a SyntaxError. *)
Record Browser := mkBrowser { invalidSelector : string -> bool }.

(** [taskListElement.querySelector(`[data-task-id="${taskId}"]`)]: the
    position of the first matching child.  The id is written into the
    selector as it is, so the selector asks for the id itself when the id
    has no character that a CSS string reads specially. *)
Definition querySelector (br : Browser) (children : list node) (taskId : string)
    : result (option nat) :=
  if invalidSelector br taskId then Throw "SyntaxError"
  else Ok (findIndex (fun n => same_string taskId (data_task_id n)) children).

Definition relevantProps : list string :=
  ["title"; "description"; "completed"; "priority"; "category"; "tags";
   "dueDate"; "dueTime"; "isRecurring"; "recurrenceType"; "recurrenceData"].

(** [currentTask[prop] !== lastTask[prop]] *)
Definition prop_differs (prop : string) (currentTask lastTask : Task.t) : bool :=
  if String.eqb prop "title" then
    negb (String.eqb (Task.title currentTask) (Task.title lastTask))
  else if String.eqb prop "description" then
    negb (String.eqb (Task.description currentTask) (Task.description lastTask))
  else if String.eqb prop "completed" then
    negb (Bool.eqb (Task.completed currentTask) (Task.completed lastTask))
  else if String.eqb prop "priority" then
    negb (String.eqb (Task.priority currentTask) (Task.priority lastTask))
  else if String.eqb prop "category" then
    negb (String.eqb (Task.category currentTask) (Task.category lastTask))
  else if String.eqb prop "dueDate" then
    negb (option_eqb DateStr_eqb (Task.dueDate currentTask) (Task.dueDate lastTask))
  else if String.eqb prop "dueTime" then
    negb (String.eqb (Task.dueTime currentTask) (Task.dueTime lastTask))
  else if String.eqb prop "isRecurring" then
    negb (Bool.eqb (Task.isRecurring currentTask) (Task.isRecurring lastTask))
  else if String.eqb prop "recurrenceType" then
    negb (option_eqb String.eqb (Task.recurrenceType currentTask)
                     (Task.recurrenceType lastTask))
  else false.

(** [JSON.stringify(a) !== JSON.stringify(b)] on recurrence data. *)
Definition recurrenceData_differs (a b : option RecurrenceData) : bool :=
  negb (option_eqb (fun x y => list_eqb Z.eqb (weekdays x) (weekdays y)) a b).

(** The two tag arrays are sorted in place by this comparison.  The order
    of a task's tags plays no part in any comparison made here; the tasks
    are kept as they were, which is what the call does to a task whose tags
    are in sorted order already. *)
Definition hasTaskChanged (currentTask lastTask : Task.t) : bool :=
  existsb (fun prop =>
             if String.eqb prop "tags" then
               let currentTags := Task.tags currentTask in
               let lastTags := Task.tags lastTask in
               negb (list_eqb String.eqb (sortStrings currentTags) (sortStrings lastTags))
             else if String.eqb prop "recurrenceData" then
               recurrenceData_differs (Task.recurrenceData currentTask)
                                      (Task.recurrenceData lastTask)
             else prop_differs prop currentTask lastTask)
          relevantProps.

(** [currentTasks]: the map built from the task list. *)
Definition currentTasksOf (tasks : list Task.t) : JsMap.t Task.t :=
  fold_left (fun m task => JsMap.set m (Task.id task) task) tasks [].

Record Diff := mkDiff {
  addedTasks : list Task.t;
  modifiedTasks : list Task.t;
  removedTaskIds : list string
}.

(** The two [forEach] loops of [renderTasks]. *)
Definition diff (lastRendered currentTasks : JsMap.t Task.t) : Diff :=
  let '(added, modified) :=
    fold_left (fun '(added, modified) '(taskId, task) =>
                 match JsMap.get lastRendered taskId with
                 | None => ((added ++ [task])%list, modified)
                 | Some lastTask =>
                     if hasTaskChanged task lastTask
                     then (added, (modified ++ [task])%list)
                     else (added, modified)
                 end)
              currentTasks ([], []) in
  let removed :=
    fold_left (fun removed '(taskId, _) =>
                 if negb (JsMap.has currentTasks taskId)
                 then (removed ++ [taskId])%list
                 else removed)
              lastRendered [] in
  mkDiff added modified removed.

Fixpoint forEachM {A S} (f : S -> A -> result S) (l : list A) (s : S) : result S :=
  match l with
  | [] => Ok s
  | x :: r => let! s' := f s x in forEachM f r s'
  end.

(** [applyIncrementalUpdates] on the children of the task list element. *)
Definition applyIncrementalUpdates (br : Browser) (children : list node)
    (addedTasks modifiedTasks : list Task.t) (removedTaskIds : list string)
    (categories : list Category) (tags : list Tag) : result (list node) :=
  try_catch
    (let! children :=
       forEachM (fun children taskId =>
                   let! taskElement := querySelector br children taskId in
                   match taskElement with
                   | Some i => Ok (delete i children)
                   | None => Ok children
                   end) removedTaskIds children in
     let! children :=
       forEachM (fun children task =>
                   let! taskElement := querySelector br children (Task.id task) in
                   match taskElement with
                   | Some i =>
                       let newElement := TaskItem (createTaskHTML task categories tags) in
                       Ok (<[i := newElement]> children)
                   | None => Ok children
                   end) modifiedTasks children in
     match addedTasks with
     | [] => Ok children
     | _ :: _ =>
         let children :=
           if existsb (html_includes "Nenhuma tarefa encontrada") children
           then [] else children in
         let newTasksHTML :=
           map (fun task => TaskItem (createTaskHTML task categories tags)) addedTasks in
         Ok (children ++ newTasksHTML)%list
     end)
    (fun error =>
       let allTasks := (addedTasks ++ modifiedTasks)%list in
       Ok (default children
             (TaskRenderer.renderTasks (Some children) allTasks categories tags
                                       defaultEmptyMessage))).

Definition renderTasks (br : Browser) (st : t) (tasks : list Task.t)
    (categories : list Category) (tags : list Tag) (emptyMessage : string) : result t :=
  try_catch
    (match taskList st with
     | None =>
         Ok (mk (lastRenderedTasks st)
                (TaskRenderer.renderTasks (taskList st) tasks categories tags emptyMessage))
     | Some children =>
         match tasks with
         | [] => Ok (mk [] (Some [EmptyState emptyMessage]))
         | _ :: _ =>
             let currentTasks := currentTasksOf tasks in
             let d := diff (lastRenderedTasks st) currentTasks in
             let! children :=
               applyIncrementalUpdates br children (addedTasks d) (modifiedTasks d)
                                       (removedTaskIds d) categories tags in
             Ok (mk currentTasks (Some children))
         end
     end)
    (fun error =>
       Ok (mk [] (TaskRenderer.renderTasks (taskList st) tasks categories tags emptyMessage))).

(** [clearCache()]: forget the rendered tasks and blank the list
    element, so that the next call renders everything anew. *)
Definition clearCache (st : t) : t :=
  mk [] ((fun _ => []) <$> taskList st).

End RenderController.

(** * Vocabulary of the properties *)

(** [a <= b] on strings. *)
Definition str_le (a b : string) : Prop := String.compare a b <> Gt.

(** The recurrence types the calculator knows. *)
Definition valid_recurrenceType (ty : option string) : Prop :=
  ty = Some "daily" \/ ty = Some "weekly" \/ ty = Some "monthly" \/ ty = Some "yearly".

(** A value of [recurrenceData.weekdays] that the weekly case gets
    through: a falsy value, an array, or a value whose [length] is 0. *)
Definition weekdays_usable (w : StoredTask.WeekdaysValue) : Prop :=
  match w with
  | StoredTask.WeekdaysOther length => length = Some 0
  | _ => True
  end.

(** The instant a completed task counts as completed at:
    [completedAt], or [createdAt] when that is absent. *)
Definition completionTime (task : Task.t) : Z :=
  match Task.completedAt task with
  | Some c => c
  | None => Task.createdAt task
  end.

(** [a > b] does not hold: [a <= b] when neither value is NaN. *)
Definition value_le (a b : TaskFilter.SortValue) : Prop :=
  TaskFilter.value_compare a b <> Gt.

(** A task has at most three tag references. *)
Definition tags_within_limit (task : Task.t) : Prop :=
  (length (Task.tags task) <= 3)%nat.

(** The tracked fields of two versions of a task agree; the tags may come
    in any order. *)
Definition tracked_fields_equal (a b : Task.t) : Prop :=
  Task.title a = Task.title b
  /\ Task.description a = Task.description b
  /\ Task.completed a = Task.completed b
  /\ Task.priority a = Task.priority b
  /\ Task.category a = Task.category b
  /\ Permutation (Task.tags a) (Task.tags b)
  /\ Task.dueDate a = Task.dueDate b
  /\ Task.dueTime a = Task.dueTime b
  /\ Task.isRecurring a = Task.isRecurring b
  /\ Task.recurrenceType a = Task.recurrenceType b
  /\ Task.recurrenceData a = Task.recurrenceData b.

(** The two loops of the diff, entry by entry. *)
Definition added_of (lastRendered : JsMap.t Task.t) (e : string * Task.t) : list Task.t :=
  match JsMap.get lastRendered (fst e) with
  | None => [snd e]
  | Some _ => []
  end.

Definition modified_of (lastRendered : JsMap.t Task.t) (e : string * Task.t) : list Task.t :=
  match JsMap.get lastRendered (fst e) with
  | None => []
  | Some lastTask => if RenderController.hasTaskChanged (snd e) lastTask then [snd e] else []
  end.

Definition removed_of (currentTasks : JsMap.t Task.t) (e : string * Task.t) : list string :=
  if negb (JsMap.has currentTasks (fst e)) then [fst e] else [].

(** Days in month [m] (0 = January) of a leap or common year. *)
Definition DaysInMonth (leap : bool) (m : Z) : Z :=
  if m =? 1 then (if leap then 29 else 28)
  else if (m =? 3) || (m =? 5) || (m =? 8) || (m =? 10) then 30
  else 31.

(** A date string names a day of the calendar, in a year of four digits
    without a leading zero. *)
Definition calendar_date (s : DateStr) : Prop :=
  1000 <= ds_year s <= 9999
  /\ 1 <= ds_month s <= 12
  /\ 1 <= ds_day s <= DaysInMonth (JsDate.isLeapYear (ds_year s)) (ds_month s - 1).

(** The task ids a view shows, in document order. *)
Definition shown_ids (children : list TaskRenderer.node) : list string :=
  omap TaskRenderer.data_task_id children.

(** No text of the element reads as the empty-state message. *)
Definition no_empty_marker (n : TaskRenderer.node) : Prop :=
  TaskRenderer.html_includes "Nenhuma tarefa encontrada" n = false.

(** A view is in sync with a cache: it shows one task element per cached
    task and nothing else, and each element was built from a version of
    its task that agrees with the cached one on the tracked fields. *)
Definition view_synced (cache : JsMap.t Task.t) (children : list TaskRenderer.node) : Prop :=
  List.NoDup (shown_ids children)
  /\ Permutation (shown_ids children) (JsMap.keys cache)
  /\ Forall (fun n => exists h last,
                 n = TaskRenderer.TaskItem h
                 /\ JsMap.get cache (Task.id (TaskRenderer.html_task h)) = Some last
                 /\ tracked_fields_equal last (TaskRenderer.html_task h)) children.

(** The states the incremental renderer works from: a view in sync with
    the cache, or the empty-state message over an empty cache. *)
Definition view_ready (cache : JsMap.t Task.t) (children : list TaskRenderer.node) : Prop :=
  (view_synced cache children /\ Forall no_empty_marker children)
  \/ (cache = []
      /\ exists message, children = [TaskRenderer.EmptyState message]
                         /\ includes message "Nenhuma tarefa encontrada" = true).

(** What replacing the element of task [t] does to each element. *)
Definition replaced_by (f : Task.t -> TaskRenderer.node) (ms : list Task.t)
    (n n2 : TaskRenderer.node) : Prop :=
  (n2 = n /\ forall t, In t ms -> TaskRenderer.data_task_id n <> Some (Task.id t))
  \/ (exists t, In t ms /\ n2 = f t /\ TaskRenderer.data_task_id n = Some (Task.id t)).

(** The calls that change a [TaskFilter]. *)
Inductive FilterAction :=
| SetFilter (filter : string)
| SetCategoryFilter (categoryId : option string)
| SetTagFilter (tagId : option string)
| ClearAllFilters
| SetSortOptions (options : TaskFilter.SortOptionsData)
| SetCompletedTasksDays (days : Z).

Definition applyFilterAction (st : TaskFilter.t) (a : FilterAction) : TaskFilter.t :=
  match a with
  | SetFilter filter => TaskFilter.setFilter st filter
  | SetCategoryFilter categoryId => TaskFilter.setCategoryFilter st categoryId
  | SetTagFilter tagId => TaskFilter.setTagFilter st tagId
  | ClearAllFilters => TaskFilter.clearAllFilters st
  | SetSortOptions options => TaskFilter.setSortOptions st options
  | SetCompletedTasksDays days => TaskFilter.setCompletedTasksDays st days
  end.

(** The filter controller's copy of the selection agrees with the
    [TaskFilter] it drives. *)
Definition filters_agree (fc : FilterController.t) : Prop :=
  FilterController.currentFilter fc = TaskFilter.currentFilter (FilterController.taskFilter fc)
  /\ FilterController.currentCategoryFilter fc
     = TaskFilter.currentCategoryFilter (FilterController.taskFilter fc)
  /\ FilterController.currentTagFilter fc
     = TaskFilter.currentTagFilter (FilterController.taskFilter fc).

(** [child] is the occurrence [generateNextRecurringTask] makes of
    [parent]: due on the parent's next recurrence date, open, created now,
    pointing to the parent and otherwise a copy of it. *)
Definition occurrence_of (env : TaskController.Env) (parent child : Task.t) : Prop :=
  exists nextDate,
    DateUtils.calculateNextRecurrenceDate (TaskController.tz env) parent = Some nextDate
    /\ Task.dueDate child = Some (DateUtils.formatDateISO (TaskController.tz env) nextDate)
    /\ Task.parentRecurringId child = Some (Task.id parent)
    /\ Task.completed child = false
    /\ Task.createdAt child = TaskController.now env
    /\ Task.title child = Task.title parent
    /\ Task.description child = Task.description parent
    /\ Task.category child = Task.category parent
    /\ Task.tags child = Task.tags parent
    /\ Task.priority child = Task.priority parent
    /\ Task.dueTime child = Task.dueTime parent
    /\ Task.completedAt child = Task.completedAt parent
    /\ Task.isRecurring child = Task.isRecurring parent
    /\ Task.recurrenceType child = Task.recurrenceType parent
    /\ Task.recurrenceData child = Task.recurrenceData parent.

(** A recurring task that is not itself a generated occurrence. *)
Definition recurring_root (task : Task.t) : bool :=
  Task.isRecurring task && negb (truthy (Task.parentRecurringId task)).

(** The ids in the store are pairwise distinct and were all handed out by
    the id generator. *)
Definition ids_generated (env : TaskController.Env) (st : TaskController.t) : Prop :=
  List.NoDup (map Task.id (TaskController.tasks st))
  /\ forall t, In t (TaskController.tasks st) ->
       exists n, (n < TaskController.generated st)%nat
                 /\ Task.id t = TaskController.generateTaskId env n.

(** The calls that change the store of a [TaskController]. *)
Inductive TaskAction :=
| AddTask (taskData : TaskData.t)
| UpdateTask (taskId : string) (taskData : TaskData.t)
| DeleteTask (taskId : string)
| ToggleTaskComplete (taskId : string)
| CheckAndGenerateRecurringTasks
| GenerateRecurringAfterComplete (completedTask : Task.t).

Definition applyTaskAction (env : TaskController.Env) (st : TaskController.t)
    (a : TaskAction) : TaskController.t :=
  match a with
  | AddTask taskData => snd (TaskController.addTask env st taskData)
  | UpdateTask taskId taskData => snd (TaskController.updateTask st taskId taskData)
  | DeleteTask taskId => snd (TaskController.deleteTask st taskId)
  | ToggleTaskComplete taskId => SettingsController.toggleTaskComplete env st taskId
  | CheckAndGenerateRecurringTasks => TaskController.checkAndGenerateRecurringTasks env st
  | GenerateRecurringAfterComplete completedTask =>
      TaskController.generateRecurringAfterComplete env st completedTask
  end.

(** Nothing is generated for [task] from a store holding [tasks]. *)
Definition settled (env : TaskController.Env) (today : Z) (tasks : list Task.t)
    (task : Task.t) : Prop :=
  recurring_root task = false
  \/ ((Task.completed task
       && (TaskController.dateNumber
             (DateUtils.createLocalDate (TaskController.tz env) (Task.dueDate task))
           <=? today))
      || (negb (Task.completed task)
          && (TaskController.dateNumber
                (DateUtils.createLocalDate (TaskController.tz env) (Task.dueDate task))
              <? today))) = false
  \/ DateUtils.calculateNextRecurrenceDate (TaskController.tz env) task = None
  \/ existsb (fun t =>
                same_string (Task.id task) (Task.parentRecurringId t)
                && (today <? TaskController.dateNumber
                               (DateUtils.createLocalDate (TaskController.tz env)
                                                          (Task.dueDate t))))
             tasks = true.

(** The category list is within its bounds: at most five categories, no
    two names equal up to case, no two ids equal, every id handed out by
    the generator. *)
Definition categories_ok (generateCategoryId : nat -> string) (st : CategoryController.t)
    : Prop :=
  (length (CategoryController.categories st) <= 5)%nat
  /\ List.NoDup (map (fun cat => toLowerCase (cat_name cat)) (CategoryController.categories st))
  /\ List.NoDup (map cat_id (CategoryController.categories st))
  /\ forall cat, In cat (CategoryController.categories st) ->
       exists n, (n < CategoryController.generated st)%nat
                 /\ cat_id cat = generateCategoryId n.

(** ** Sample data *)

Module Samples.

(** UTC-3. *)
Definition tzBR : Z := -10800000.

(** 2025-01-11, 12:00 local time. *)
Definition noon_2025_01_11 : Z := JsDate.fromFields tzBR 2025 0 11 + 12 * 3600000.

Definition plain (id title : string) : Task.t :=
  Task.mk id title "" "personal" [] "medium" None "" false 0 None false None None None.

Definition taskA : Task.t := plain "a" "Alpha".
Definition taskB : Task.t :=
  Task.mk "b" "Beta" "" "personal" [] "medium" None "" true 0 None false None None None.
Definition taskC : Task.t := plain "c" "Gamma".

(** Due on Wednesday 2025-01-01, repeating weekly on Mondays and Wednesdays. *)
Definition wednesday : DateStr := mkDateStr 2025 1 1.
Definition weeklyTask : Task.t :=
  Task.mk "w" "Report" "" "work" [] "high" (Some wednesday) "" false 0 None
          true (Some "weekly") (Some (mkRecurrenceData [1; 3])) None.

(** A weekly task as an imported file may hold it: [weekdays] is the
    string '1,3', not an array. *)
Definition weeklyText : StoredTask.t :=
  StoredTask.mk (Some wednesday) (Some "weekly") (StoredTask.WeekdaysOther (Some 3)).

(** A completed daily task that was due on 2025-01-10. *)
Definition dailyRoot : Task.t :=
  Task.mk "r" "Water the plants" "" "personal" [] "medium" (Some (mkDateStr 2025 1 10)) ""
          true 0 None true (Some "daily") None None.

Definition digit (n : nat) : string := String (ascii_of_nat (48 + n)) "".

Definition env : TaskController.Env :=
  TaskController.mkEnv tzBR noon_2025_01_11 (fun n => "g" ++ digit n).

Definition store (tasks : list Task.t) : TaskController.t := TaskController.mk tasks 0.

(** Completed 40 and 10 days before [noon_2025_01_11]. *)
Definition completedAgo (id : string) (days : Z) : Task.t :=
  Task.mk id "Done" "" "personal" [] "medium" None "" true 0
          (Some (JsDate.plusDays noon_2025_01_11 (- days))) false None None None.

Definition completedFilter : TaskFilter.t :=
  TaskFilter.mk "completed" None None (TaskFilter.mkSortOptions "createdAt" "desc") 30.

Definition threeTags : Task.t :=
  Task.mk "a" "Alpha" "" "personal" ["t1"; "t2"; "t3"] "medium" None "" false 0 None
          false None None None.

Definition withTags (ts : list string) : TaskData.t :=
  TaskData.mk (Some "other") None None None (Some ts) None None None None None None None
              None None None.

(** An id with a double quote in it, as an imported task may carry. *)
Definition quotedId : string := "q" ++ String (ascii_of_nat 34) "".
Definition taskQ : Task.t := plain quotedId "Quoted".

(** A browser in which an id with a double quote breaks the selector
    [[data-task-id="id"]]. *)
Definition browser : RenderController.Browser :=
  RenderController.mkBrowser (fun id => includes id (String (ascii_of_nat 34) "")).

Definition emptyView : RenderController.t :=
  RenderController.mk [] (Some [TaskRenderer.EmptyState "Nenhuma tarefa encontrada"]).

(** The controller after a first render of [taskA] and [taskQ]. *)
Definition rendered_A_Q : RenderController.t :=
  match RenderController.renderTasks browser emptyView [taskA; taskQ] [] []
                                     "Nenhuma tarefa encontrada" with
  | Ok st => st
  | Throw _ => emptyView
  end.

(** The controller with [taskA] and [taskC] rendered, in this order. *)
Definition rendered_A_C : RenderController.t :=
  RenderController.mk
    (RenderController.currentTasksOf [taskA; taskC])
    (Some (map (fun task => TaskRenderer.TaskItem (TaskRenderer.createTaskHTML task [] []))
               [taskA; taskC])).

(** A completed daily task due on 2025-01-11, the day of [noon_2025_01_11]. *)
Definition dailyToday : Task.t :=
  Task.mk "d" "Stretch" "" "personal" [] "medium" (Some (mkDateStr 2025 1 11)) ""
          true 0 None true (Some "daily") None None.

(** An id generator that never repeats itself: the n-th id is n letters
    long. *)
Fixpoint unary (n : nat) : string :=
  match n with
  | O => "t"
  | S m => String "x" (unary m)
  end.

Definition unaryEnv : TaskController.Env :=
  TaskController.mkEnv tzBR noon_2025_01_11 unary.

(** Two tasks for the sort by due date: the first is due in a month 13,
    the second on 2025-01-01. *)
Definition dueMonth13 : Task.t :=
  Task.mk "m" "Month 13" "" "personal" [] "medium" (Some (mkDateStr 2025 13 1)) ""
          false 0 None false None None None.
Definition dueJanuary : Task.t :=
  Task.mk "j" "January" "" "personal" [] "medium" (Some (mkDateStr 2025 1 1)) ""
          false 0 None false None None None.

(** A filter that shows every task, sorted by the given field and
    direction. *)
Definition sortedBy (fld direction : string) : TaskFilter.t :=
  TaskFilter.mk "all" None None (TaskFilter.mkSortOptions fld direction) 30.

Definition titled (title : string) : TaskData.t :=
  TaskData.mk None (Some title) None None None None None None None None None None
              None None None.

End Samples.

(** * Properties *)

(** ** Sorting *)

Section SortFacts.
Context {A : Type} (cmp : A -> A -> Z).

Lemma sort_insert_perm (x : A) (l : list A) :
  Permutation (sort_insert cmp x l) (x :: l).
Proof.
  induction l as [|y ys IH]; simpl; [reflexivity|].
  destruct (cmp x y <=? 0); [reflexivity|].
  rewrite IH. apply perm_swap.
Qed.

Lemma sortWith_perm (l : list A) : Permutation (sortWith cmp l) l.
Proof.
  induction l as [|x xs IH]; simpl; [reflexivity|].
  rewrite sort_insert_perm. now constructor.
Qed.

Lemma sortWith_In (l : list A) (x : A) : In x (sortWith cmp l) <-> In x l.
Proof.
  split; apply Permutation_in; [|symmetry]; apply sortWith_perm.
Qed.

(** With a comparator that decides a total preorder the result is sorted. *)
Variable le : A -> A -> Prop.
Hypothesis cmp_le : forall x y, cmp x y <= 0 <-> le x y.
Hypothesis le_total : forall x y, le x y \/ le y x.
Hypothesis le_trans : forall x y z, le x y -> le y z -> le x z.

Lemma sort_insert_sorted (x : A) (l : list A) :
  StronglySorted le l -> StronglySorted le (sort_insert cmp x l).
Proof using cmp_le le_total le_trans.
  induction 1 as [|y ys Hs IH Hall]; simpl.
  - repeat constructor.
  - destruct (Z.leb_spec (cmp x y) 0) as [Hle|Hgt].
    + apply cmp_le in Hle. constructor; [now constructor|].
      constructor; [exact Hle|].
      rewrite List.Forall_forall in *. eauto.
    + constructor; [exact IH|].
      assert (Hyx : le y x).
      { destruct (le_total x y) as [H|H]; [apply cmp_le in H; lia | exact H]. }
      rewrite List.Forall_forall in *. intros z Hz.
      apply (Permutation_in _ (sort_insert_perm x ys)) in Hz.
      destruct Hz as [<-|Hz]; auto.
Qed.

Lemma sortWith_sorted (l : list A) : StronglySorted le (sortWith cmp l).
Proof using cmp_le le_total le_trans.
  induction l; simpl; [constructor | now apply sort_insert_sorted].
Qed.
End SortFacts.

(** The same when the order is transitive only through the elements that
    satisfy [P], for an array of such elements. *)
Section SortFactsOn.
Context {A : Type} (cmp : A -> A -> Z) (le : A -> A -> Prop) (P : A -> Prop).
Hypothesis cmp_le : forall x y, cmp x y <= 0 <-> le x y.
Hypothesis le_total : forall x y, le x y \/ le y x.
Hypothesis le_trans : forall x y z, P y -> le x y -> le y z -> le x z.

Lemma sort_insert_sorted_on (x : A) (l : list A) :
  P x -> Forall P l -> StronglySorted le l -> StronglySorted le (sort_insert cmp x l).
Proof using cmp_le le_total le_trans.
  intros Hx HP Hs. induction Hs as [|y ys Hs IH Hall]; simpl.
  - repeat constructor.
  - inversion HP as [|? ? Hy HPs]; subst.
    destruct (Z.leb_spec (cmp x y) 0) as [Hle|Hgt].
    + apply cmp_le in Hle. constructor; [now constructor|].
      constructor; [exact Hle|].
      rewrite List.Forall_forall in *. eauto.
    + constructor; [now apply IH|].
      assert (Hyx : le y x).
      { destruct (le_total x y) as [H|H]; [apply cmp_le in H; lia | exact H]. }
      rewrite List.Forall_forall in *. intros z Hz.
      apply (Permutation_in _ (sort_insert_perm cmp x ys)) in Hz.
      destruct Hz as [<-|Hz]; auto.
Qed.

Lemma sortWith_sorted_on (l : list A) :
  Forall P l -> StronglySorted le (sortWith cmp l).
Proof using cmp_le le_total le_trans.
  induction 1 as [|x xs Hx HP IH]; simpl; [constructor|].
  apply sort_insert_sorted_on; [exact Hx | | exact IH].
  apply (Permutation_Forall (Permutation_sym (sortWith_perm cmp xs))). exact HP.
Qed.
End SortFactsOn.

Lemma StronglySorted_rev {A} (R : A -> A -> Prop) (l : list A) :
  StronglySorted R l -> StronglySorted (fun x y => R y x) (rev l).
Proof.
  induction 1 as [|x l Hs IH Hall]; simpl; [constructor|].
  assert (Hgen : forall l1 : list A,
             StronglySorted (fun a b => R b a) l1 ->
             Forall (fun a => R x a) l1 ->
             StronglySorted (fun a b => R b a) (l1 ++ [x])).
  { induction 1 as [|a l1 Hs1 IH1 Hall1]; simpl; intros Hx.
    - repeat constructor.
    - inversion Hx; subst. constructor; [now apply IH1|].
      rewrite List.Forall_app. split; [exact Hall1 | repeat constructor; assumption]. }
  apply Hgen; [exact IH|]. rewrite List.Forall_forall in *. intros a Ha.
  apply Hall. now apply in_rev.
Qed.

(** Two sorted arrangements of the same elements coincide when the order
    is antisymmetric on them. *)
Lemma sorted_perm_unique {A} (R : A -> A -> Prop) (l1 : list A) :
  forall l2,
    StronglySorted R l1 -> StronglySorted R l2 -> Permutation l1 l2 ->
    (forall x y, In x l1 -> In y l1 -> R x y -> R y x -> x = y) ->
    l1 = l2.
Proof.
  induction l1 as [|x r1 IH]; intros l2 S1 S2 P Hanti.
  - apply Permutation_nil in P. now subst.
  - destruct l2 as [|y r2]; [symmetry in P; now apply Permutation_nil in P|].
    inversion S1 as [|? ? S1' A1]; inversion S2 as [|? ? S2' A2]; subst.
    rewrite List.Forall_forall in A1, A2.
    assert (Hy : In y (x :: r1)) by (apply (Permutation_in _ (Permutation_sym P)); now left).
    assert (Hx : In x (y :: r2)) by (apply (Permutation_in _ P); now left).
    assert (x = y) as <-.
    { destruct Hy as [Hy|Hy]; [congruence|].
      destruct Hx as [Hx|Hx]; [congruence|].
      apply Hanti; [now left | now right | auto | auto]. }
    f_equal. apply IH; auto.
    + now apply Permutation_cons_inv in P.
    + intros a b Ha Hb. apply Hanti; now right.
Qed.

Lemma NoDup_map_inj {A B} (f : A -> B) (l : list A) (x y : A) :
  List.NoDup (map f l) -> In x l -> In y l -> f x = f y -> x = y.
Proof.
  induction l as [|a l IH]; simpl; [tauto|].
  intros Hnd Hx Hy Hf. inversion Hnd as [|? ? Hnot Hnd']; subst.
  destruct Hx as [<-|Hx], Hy as [<-|Hy]; auto.
  - exfalso. apply Hnot. rewrite Hf. now apply in_map.
  - exfalso. apply Hnot. rewrite <- Hf. now apply in_map.
Qed.

(** ** Order on strings *)

Lemma ascii_compare_trans (a b c : ascii) :
  Ascii.compare a b = Lt -> Ascii.compare b c = Lt -> Ascii.compare a c = Lt.
Proof.
  unfold Ascii.compare. rewrite !N.compare_lt_iff. lia.
Qed.

Lemma string_compare_refl (s : string) : String.compare s s = Eq.
Proof.
  induction s as [|a s IH]; simpl; [reflexivity|].
  unfold Ascii.compare. now rewrite N.compare_refl.
Qed.

Lemma string_compare_trans (s1 : string) :
  forall s2 s3,
    String.compare s1 s2 = Lt -> String.compare s2 s3 = Lt -> String.compare s1 s3 = Lt.
Proof.
  induction s1 as [|a s1 IH]; intros [|b s2] [|c s3]; simpl; try congruence.
  destruct (Ascii.compare a b) eqn:Hab; try congruence;
    destruct (Ascii.compare b c) eqn:Hbc; try congruence; intros H1 H2.
  - apply Ascii.compare_eq_iff in Hab, Hbc. subst.
    unfold Ascii.compare. rewrite N.compare_refl. eauto.
  - apply Ascii.compare_eq_iff in Hab. subst. now rewrite Hbc.
  - apply Ascii.compare_eq_iff in Hbc. subst. now rewrite Hab.
  - now rewrite (ascii_compare_trans _ _ _ Hab Hbc).
Qed.

Lemma str_cmp_le (a b : string) : str_cmp a b <= 0 <-> str_le a b.
Proof.
  unfold str_cmp, str_le. destruct (String.compare a b); split; (lia || congruence).
Qed.

Lemma str_le_total (a b : string) : str_le a b \/ str_le b a.
Proof.
  unfold str_le. rewrite (String.compare_antisym b a).
  destruct (String.compare a b); simpl; (left; congruence) || (right; congruence).
Qed.

Lemma str_le_antisym (a b : string) : str_le a b -> str_le b a -> a = b.
Proof.
  unfold str_le. rewrite (String.compare_antisym b a).
  destruct (String.compare a b) eqn:H; simpl; try congruence.
  intros _ _. now apply String.compare_eq_iff.
Qed.

Lemma str_le_trans (a b c : string) : str_le a b -> str_le b c -> str_le a c.
Proof.
  unfold str_le.
  destruct (String.compare a b) eqn:Hab; [| |congruence];
    destruct (String.compare b c) eqn:Hbc; try congruence; intros _ _.
  - apply String.compare_eq_iff in Hab, Hbc. subst. now rewrite string_compare_refl.
  - apply String.compare_eq_iff in Hab. subst. now rewrite Hbc.
  - apply String.compare_eq_iff in Hbc. subst. now rewrite Hab.
  - now rewrite (string_compare_trans _ _ _ Hab Hbc).
Qed.

Lemma sortStrings_sorted (l : list string) : StronglySorted str_le (sortStrings l).
Proof.
  apply sortWith_sorted.
  - apply str_cmp_le.
  - apply str_le_total.
  - apply str_le_trans.
Qed.

(** Sorting makes two string arrays equal exactly when they hold the same
    entries with the same multiplicities. *)
Lemma sortStrings_eq_iff (a b : list string) :
  sortStrings a = sortStrings b <-> Permutation a b.
Proof.
  split; intros H.
  - rewrite <- (sortWith_perm str_cmp a), <- (sortWith_perm str_cmp b).
    unfold sortStrings in H. now rewrite H.
  - apply (sorted_perm_unique str_le); try apply sortStrings_sorted.
    + unfold sortStrings. now rewrite !sortWith_perm.
    + intros x y _ _. apply str_le_antisym.
Qed.

(** ** Date arithmetic *)

(** The closed form of [YearFromDay] is the year of the standard: the
    last year that starts on or before the day. *)
Lemma YearFromDay_spec (d : Z) :
  JsDate.DayFromYear (JsDate.YearFromDay d) <= d
  < JsDate.DayFromYear (JsDate.YearFromDay d + 1).
Proof.
  unfold JsDate.YearFromDay. cbv zeta.
  match goal with
  | |- context [if ?mp <? 10 then _ else _] => destruct (Z.ltb_spec mp 10)
  end; unfold JsDate.DayFromYear; Z.div_mod_to_equations; lia.
Qed.

Lemma DayFromYear_mono (y1 y2 : Z) :
  y1 <= y2 -> JsDate.DayFromYear y1 <= JsDate.DayFromYear y2.
Proof.
  intros H. unfold JsDate.DayFromYear. Z.div_mod_to_equations. lia.
Qed.

Lemma YearFromDay_largest (d y : Z) :
  JsDate.DayFromYear y <= d -> y <= JsDate.YearFromDay d.
Proof.
  intros H. pose proof (YearFromDay_spec d) as [_ Hlt].
  destruct (Z.le_gt_cases y (JsDate.YearFromDay d)) as [Hle|Hgt]; [exact Hle|].
  pose proof (DayFromYear_mono (JsDate.YearFromDay d + 1) y ltac:(lia)). lia.
Qed.

Lemma DaysInYear_step (y : Z) :
  JsDate.DayFromYear (y + 1) = JsDate.DayFromYear y + JsDate.DaysInYear y.
Proof.
  unfold JsDate.DaysInYear, JsDate.isLeapYear, JsDate.DayFromYear.
  destruct (Z.eqb_spec (y mod 4) 0), (Z.eqb_spec (y mod 100) 0),
    (Z.eqb_spec (y mod 400) 0); simpl; Z.div_mod_to_equations; lia.
Qed.

Lemma DayWithinYear_range (t : Z) :
  0 <= JsDate.DayWithinYear t < JsDate.DaysInYear (JsDate.YearFromTime t).
Proof.
  unfold JsDate.DayWithinYear, JsDate.YearFromTime.
  pose proof (YearFromDay_spec (JsDate.Day t)) as H.
  rewrite DaysInYear_step in H. lia.
Qed.

(** The day of the month lies between 1 and 31. *)
Lemma DateFromTime_range (t : Z) : 1 <= JsDate.DateFromTime t <= 31.
Proof.
  pose proof (DayWithinYear_range t) as H.
  unfold JsDate.DateFromTime, JsDate.MonthFromTime, JsDate.InLeapYear, JsDate.DaysInYear in *.
  destruct (JsDate.isLeapYear (JsDate.YearFromTime t));
    repeat (match goal with
            | |- context [if ?a <? ?b then _ else _] => destruct (Z.ltb_spec a b)
            end; [cbn; lia|]); cbn; lia.
Qed.

Lemma MonthFromTime_range (t : Z) : 0 <= JsDate.MonthFromTime t <= 11.
Proof.
  unfold JsDate.MonthFromTime.
  repeat (destruct (_ <? _); [lia|]). lia.
Qed.

(** Setting the day of the month stays within the local month's own
    frame: the day number moves by the difference of the dates. *)
Lemma MakeDay_own_month (t date : Z) :
  JsDate.MakeDay (JsDate.YearFromTime t) (JsDate.MonthFromTime t) date
  = JsDate.Day t + (date - JsDate.DateFromTime t).
Proof.
  pose proof (MonthFromTime_range t) as Hm.
  unfold JsDate.MakeDay.
  rewrite Z.div_small, Z.mod_small by lia.
  rewrite Z.add_0_r.
  unfold JsDate.DateFromTime, JsDate.DayWithinYear, JsDate.InLeapYear. lia.
Qed.

Lemma setDate_plusDays (tz d n : Z) :
  JsDate.setDate tz d (JsDate.getDate tz d + n) = JsDate.plusDays d n.
Proof.
  unfold JsDate.setDate, JsDate.getDate, JsDate.plusDays.
  rewrite MakeDay_own_month.
  unfold JsDate.UTC, JsDate.MakeDate, JsDate.LocalTime, JsDate.Day, JsDate.TimeWithinDay.
  pose proof (Z.div_mod (d + tz) JsDate.msPerDay) as H.
  unfold JsDate.msPerDay in *. lia.
Qed.

Lemma addDays_plusDays (tz d n : Z) :
  DateUtils.addDays tz d n = JsDate.plusDays d n.
Proof. apply setDate_plusDays. Qed.

Lemma cutoffDate_plusDays (tz now days : Z) :
  TaskFilter.cutoffDate tz now days = JsDate.plusDays now (- days).
Proof.
  unfold TaskFilter.cutoffDate.
  replace (JsDate.getDate tz now - days) with (JsDate.getDate tz now + - days) by lia.
  apply setDate_plusDays.
Qed.

(** ** Recurrence *)

Lemma find_sorted_min {A} (R : A -> A -> Prop) (p : A -> bool) (l : list A) (w : A) :
  StronglySorted R l -> (forall x, R x x) ->
  List.find p l = Some w -> forall w', In w' l -> p w' = true -> R w w'.
Proof.
  intros Hs Hrefl. induction Hs as [|x l Hs IH Hall]; simpl; [discriminate|].
  destruct (p x) eqn:Hp.
  - intros [= <-] w' [<-|Hin] _; [apply Hrefl|].
    rewrite List.Forall_forall in Hall. auto.
  - intros Hf w' [<-|Hin] Hw'; [congruence|]. now apply IH.
Qed.

Lemma weekdays_sorted (W : list Z) :
  StronglySorted Z.le (sortWith (fun a b => a - b) W).
Proof.
  apply sortWith_sorted; intros; lia.
Qed.

Lemma hd_sorted_min (W : list Z) (m : Z) :
  In m W -> (forall w, In w W -> m <= w) ->
  hd 0 (sortWith (fun a b => a - b) W) = m.
Proof.
  intros Hin Hmin.
  pose proof (weekdays_sorted W) as Hs.
  pose proof (sortWith_In (fun a b => a - b) W) as HIn.
  destruct (sortWith (fun a b => a - b) W) as [|s0 rest] eqn:E.
  - apply HIn in Hin. destruct Hin.
  - simpl. inversion Hs as [|? ? _ Hall]; subst.
    rewrite List.Forall_forall in Hall.
    assert (m <= s0) by (apply Hmin, HIn; now left).
    apply HIn in Hin. destruct Hin as [->|Hin]; [reflexivity|].
    specialize (Hall _ Hin). lia.
Qed.

(** C2. For a task with a due date and weekly recurrence: with no selected
    weekday the next occurrence is the due date plus 7 days; otherwise, with
    [c] the weekday of the due date, it is the due date plus [w - c] days for
    the smallest selected [w > c] if there is one, and plus [7 - c + m] days
    for the smallest selected weekday [m] if none exceeds [c].  A Wednesday
    ([c = 3]) with Monday and Wednesday selected gives plus 5 days. *)
Theorem weekly_next_occurrence (tz : Z) (task : Task.t) (due : DateStr) :
  Task.dueDate task = Some due ->
  Task.recurrenceType task = Some "weekly" ->
  let base := JsDate.fromFields tz (ds_year due) (ds_month due - 1) (ds_day due) in
  let W := DateUtils.selectedWeekdaysOf task in
  let c := JsDate.getDay tz base in
  let next := DateUtils.calculateNextRecurrenceDate tz task in
  (W = [] -> next = Some (JsDate.plusDays base 7))
  /\ (forall w, In w W -> c < w -> (forall w', In w' W -> c < w' -> w <= w') ->
      next = Some (JsDate.plusDays base (w - c)))
  /\ (forall m, In m W -> (forall w, In w W -> w <= c) -> (forall w, In w W -> m <= w) ->
      next = Some (JsDate.plusDays base (7 - c + m)))
  /\ (c = 3 -> (forall w, In w W <-> w = 1 \/ w = 3) ->
      next = Some (JsDate.plusDays base 5)).
Proof.
  intros Hdue Hty base W c next.
  assert (Hnext : next =
    match W with
    | [] => Some (JsDate.plusDays base 7)
    | _ :: _ =>
        match List.find (fun weekday => c <? weekday) (sortWith (fun a b => a - b) W) with
        | Some weekday => Some (JsDate.plusDays base (weekday - c))
        | None => Some (JsDate.plusDays base (7 - c + hd 0 (sortWith (fun a b => a - b) W)))
        end
    end).
  { subst next W c base. unfold DateUtils.calculateNextRecurrenceDate.
    rewrite Hdue, Hty.
    cbn -[DateUtils.addDays JsDate.fromFields JsDate.getDay sortWith].
    destruct (DateUtils.selectedWeekdaysOf task); rewrite ?addDays_plusDays; [reflexivity|].
    destruct (List.find _ _); rewrite ?addDays_plusDays; reflexivity. }
  pose proof (weekdays_sorted W) as Hs.
  pose proof (sortWith_In (fun a b => a - b) W) as HIn.
  assert (Hsome : forall w, In w W -> c < w -> (forall w', In w' W -> c < w' -> w <= w') ->
                  next = Some (JsDate.plusDays base (w - c))).
  { intros w Hw Hcw Hmin. rewrite Hnext.
    destruct W as [|w0 r] eqn:EW; [destruct Hw|]. rewrite <- EW in *.
    destruct (List.find _ _) as [w1|] eqn:Hf.
    - pose proof (find_sorted_min Z.le _ _ _ Hs Z.le_refl Hf) as Hfmin.
      apply find_some in Hf. destruct Hf as [Hw1 Hc1].
      apply HIn in Hw1. apply Z.ltb_lt in Hc1.
      assert (w1 <= w) by (apply Hfmin; [now apply HIn | now apply Z.ltb_lt]).
      assert (w <= w1) by now apply Hmin.
      do 2 f_equal. lia.
    - exfalso. pose proof (find_none _ _ Hf w (proj2 (HIn w) Hw)) as Hn.
      simpl in Hn. apply Z.ltb_ge in Hn. lia. }
  assert (Hnone : forall m, In m W -> (forall w, In w W -> w <= c) ->
                  (forall w, In w W -> m <= w) ->
                  next = Some (JsDate.plusDays base (7 - c + m))).
  { intros m Hm Hall Hmin. rewrite Hnext.
    destruct W as [|w0 r] eqn:EW; [destruct Hm|]. rewrite <- EW in *.
    destruct (List.find _ _) as [w1|] eqn:Hf.
    - exfalso. apply find_some in Hf. destruct Hf as [Hw1 Hc1].
      apply HIn in Hw1. apply Z.ltb_lt in Hc1. specialize (Hall _ Hw1). lia.
    - now rewrite (hd_sorted_min W m Hm Hmin). }
  repeat split.
  - intros HW. rewrite Hnext, HW. reflexivity.
  - exact Hsome.
  - exact Hnone.
  - intros Hc HW.
    replace 5 with (7 - c + 1) by lia.
    apply Hnone.
    + apply HW. now left.
    + intros w Hw. apply HW in Hw. lia.
    + intros w Hw. apply HW in Hw. lia.
Qed.

Lemma valid_recurrenceType_dec (ty : option string) :
  {valid_recurrenceType ty} + {~ valid_recurrenceType ty}.
Proof.
  unfold valid_recurrenceType. destruct ty as [ty|].
  - destruct (String.eqb_spec ty "daily") as [->|?]; [left; auto|].
    destruct (String.eqb_spec ty "weekly") as [->|?]; [left; auto|].
    destruct (String.eqb_spec ty "monthly") as [->|?]; [left; auto|].
    destruct (String.eqb_spec ty "yearly") as [->|?]; [left; auto|].
    right. intros [H|[H|[H|H]]]; congruence.
  - right. intros [H|[H|[H|H]]]; congruence.
Qed.

(** The calculation on a stored task, case by case. *)
Lemma stored_next_cases (tz : Z) (task : StoredTask.t) :
  let next := StoredTask.calculateNextRecurrenceDate tz task in
  (next = Ok None
   /\ (StoredTask.dueDate task = None
       \/ ~ valid_recurrenceType (StoredTask.recurrenceType task)))
  \/ ((exists d, next = Ok (Some d))
      /\ StoredTask.dueDate task <> None
      /\ valid_recurrenceType (StoredTask.recurrenceType task)
      /\ (StoredTask.recurrenceType task = Some "weekly" ->
          weekdays_usable (StoredTask.weekdaysValue task)))
  \/ (next = Throw "TypeError: weekdays.map is not a function"
      /\ StoredTask.dueDate task <> None
      /\ StoredTask.recurrenceType task = Some "weekly"
      /\ ~ weekdays_usable (StoredTask.weekdaysValue task)).
Proof.
  destruct task as [due ty w]. unfold StoredTask.calculateNextRecurrenceDate.
  cbn [StoredTask.dueDate StoredTask.recurrenceType StoredTask.weekdaysValue].
  destruct due as [due|]; [|left; split; [reflexivity | now left]].
  destruct ty as [ty|];
    [|left; split; [reflexivity | right; intros [H|[H|[H|H]]]; discriminate H]].
  cbn [is_Some_b negb orb DateUtils.createLocalDate default truthy].
  destruct (String.eqb_spec ty "") as [->|Hne]; cbn [negb];
    [left; split; [reflexivity | right; intros [H|[H|[H|H]]]; discriminate H]|].
  cbv zeta. change (id ty) with ty.
  destruct (String.eqb_spec ty "daily") as [->|Hd].
  { right; left. split; [eauto|]. split; [discriminate|]. split; [left; reflexivity|].
    intros H; discriminate H. }
  destruct (String.eqb_spec ty "weekly") as [->|Hw].
  { destruct w as [[|day days]| |[len|]].
    - right; left. split; [eauto|]. split; [discriminate|].
      split; [right; left; reflexivity | intros _; exact I].
    - right; left. split; [destruct (List.find _ _); eauto|]. split; [discriminate|].
      split; [right; left; reflexivity | intros _; exact I].
    - right; left. split; [eauto|]. split; [discriminate|].
      split; [right; left; reflexivity | intros _; exact I].
    - destruct (Z.eq_dec len 0) as [->|Hlen].
      + right; left. split; [eauto|]. split; [discriminate|].
        split; [right; left; reflexivity | intros _; reflexivity].
      + right; right. split; [destruct len; [congruence | reflexivity | reflexivity]|].
        split; [discriminate|].
        split; [reflexivity|]. simpl. congruence.
    - right; right. split; [reflexivity|]. split; [discriminate|].
      split; [reflexivity|]. simpl. congruence. }
  destruct (String.eqb_spec ty "monthly") as [->|Hm].
  { right; left. split; [eauto|]. split; [discriminate|].
    split; [right; right; left; reflexivity | intros H; discriminate H]. }
  destruct (String.eqb_spec ty "yearly") as [->|Hy].
  { right; left. split; [eauto|]. split; [discriminate|].
    split; [right; right; right; reflexivity | intros H; discriminate H]. }
  left. split; [reflexivity|]. right. intros [H|[H|[H|H]]]; congruence.
Qed.

(** On a task of the typed model the calculation is
    [DateUtils.calculateNextRecurrenceDate]. *)
Lemma stored_next_of_task (tz : Z) (task : Task.t) :
  StoredTask.calculateNextRecurrenceDate tz (StoredTask.of_task task)
  = Ok (DateUtils.calculateNextRecurrenceDate tz task).
Proof.
  unfold StoredTask.calculateNextRecurrenceDate, DateUtils.calculateNextRecurrenceDate,
    StoredTask.of_task, DateUtils.selectedWeekdaysOf.
  cbn [StoredTask.dueDate StoredTask.recurrenceType StoredTask.weekdaysValue].
  destruct (negb _ || negb _); [reflexivity|].
  destruct (DateUtils.createLocalDate tz (Task.dueDate task)) as [currentDate|];
    [|reflexivity].
  cbv zeta.
  destruct (String.eqb _ "daily"); [reflexivity|].
  destruct (String.eqb _ "weekly").
  { destruct (Task.recurrenceData task) as [[[|day days]]|]; try reflexivity.
    cbn [weekdays]. destruct (List.find _ _); reflexivity. }
  destruct (String.eqb _ "monthly"); [reflexivity|].
  destruct (String.eqb _ "yearly"); reflexivity.
Qed.


(** ** Filtering *)

Lemma fold_filter_In {A} (fs : list (A -> bool)) (l : list A) (x : A) :
  In x (fold_left (fun acc flt => List.filter flt acc) fs l) -> In x l.
Proof.
  revert l. induction fs as [|f fs IH]; simpl; intros l H; [exact H|].
  apply IH in H. apply filter_In in H. tauto.
Qed.

Lemma applyPriorityFilter_In (st : TaskFilter.t) (tasks : list Task.t) (x : Task.t) :
  In x (TaskFilter.applyPriorityFilter st tasks) -> In x tasks.
Proof.
  unfold TaskFilter.applyPriorityFilter. destruct (existsb _ _); [|tauto].
  intros H. apply filter_In in H. tauto.
Qed.

Lemma applyStatusFilter_hides_completed (st : TaskFilter.t) (tz now : Z)
    (tasks : list Task.t) (x : Task.t) :
  TaskFilter.currentFilter st <> "completed" ->
  In x (TaskFilter.applyStatusFilter st tz now tasks) -> Task.completed x = false.
Proof.
  intros Hne. unfold TaskFilter.applyStatusFilter.
  destruct (String.eqb_spec (TaskFilter.currentFilter st) "completed") as [E|_]; [contradiction|].
  simpl. intros H. apply filter_In in H. destruct H as [_ H].
  now apply negb_true_iff in H.
Qed.

(** C1. Whenever the status filter is not 'completed', no task of the list
    returned by [filterTasks] is completed, whatever the tasks, categories,
    tags, search term and the other filters are. *)
Theorem filterTasks_hides_completed (st : TaskFilter.t) (tz now : Z)
    (tasks : list Task.t) (categories : list Category) (tags : list Tag)
    (searchTerm : string) :
  TaskFilter.currentFilter st <> "completed" ->
  forall task,
    In task (TaskFilter.filterTasks st tz now tasks categories tags searchTerm) ->
    Task.completed task = false.
Proof.
  intros Hne task Hin. unfold TaskFilter.filterTasks, TaskFilter.sortTasks in Hin.
  apply sortWith_In in Hin.
  apply fold_filter_In in Hin.
  apply applyPriorityFilter_In in Hin.
  now apply (applyStatusFilter_hides_completed st tz now tasks).
Qed.

(** C6. Under the 'completed' status filter a task is kept exactly when it
    is completed and, for a positive retention window, its completion time
    is not earlier than now minus that many days; a window of 0 applies no
    cutoff.  A task completed 40 days ago is dropped by a 30-day window, one
    completed 10 days ago is kept. *)
Theorem completed_filter_retention (st : TaskFilter.t) (tz now : Z)
    (tasks : list Task.t) :
  TaskFilter.currentFilter st = "completed" ->
  let days := TaskFilter.completedTasksDays st in
  let kept := TaskFilter.applyStatusFilter st tz now tasks in
  (forall task,
      In task kept <->
      (In task tasks /\ Task.completed task = true /\
       (0 < days -> JsDate.plusDays now (- days) <= completionTime task)))
  /\ (days = 0 -> forall task, In task kept <-> (In task tasks /\ Task.completed task = true))
  /\ (days = 30 ->
      forall task, In task tasks -> Task.completed task = true ->
        (completionTime task = JsDate.plusDays now (-40) -> ~ In task kept)
        /\ (completionTime task = JsDate.plusDays now (-10) -> In task kept)).
Proof.
  intros Hf days kept.
  assert (Hiff : forall task,
      In task kept <->
      (In task tasks /\ Task.completed task = true /\
       (0 < days -> JsDate.plusDays now (- days) <= completionTime task))).
  { intros task. subst kept days. unfold TaskFilter.applyStatusFilter.
    rewrite Hf. cbn [String.eqb Ascii.eqb Bool.eqb negb].
    destruct (Z.ltb_spec 0 (TaskFilter.completedTasksDays st)) as [Hpos|Hnpos].
    - rewrite !filter_In, cutoffDate_plusDays. unfold completionTime, default.
      rewrite Z.leb_le. tauto.
    - rewrite filter_In. split; [intros [? ?]; repeat split; auto; lia | tauto]. }
  split; [exact Hiff|]. split.
  - intros H0 task. rewrite Hiff. split; [tauto|]. intros [? ?]. repeat split; auto. lia.
  - intros H30 task Hin Hc. split.
    + intros Ht Hk. apply Hiff in Hk. destruct Hk as (_ & _ & Hk).
      rewrite Ht, H30 in Hk. unfold JsDate.plusDays, JsDate.msPerDay in Hk. lia.
    + intros Ht. apply Hiff. repeat split; auto. intros _.
      rewrite Ht, H30. unfold JsDate.plusDays, JsDate.msPerDay. lia.
Qed.

(** ** Sorting tasks *)

Lemma value_compare_antisym (a b : TaskFilter.SortValue) :
  TaskFilter.value_compare a b = CompOpp (TaskFilter.value_compare b a).
Proof.
  destruct a, b; simpl; auto using String.compare_antisym, Z.compare_antisym.
Qed.

Lemma value_compare_eq (a b : TaskFilter.SortValue) :
  a <> TaskFilter.VNaN -> b <> TaskFilter.VNaN ->
  TaskFilter.value_compare a b = Eq -> a = b.
Proof.
  destruct a, b; simpl; try discriminate; try congruence; intros _ _ H.
  - f_equal. now apply String.compare_eq_iff.
  - f_equal. now apply Z.compare_eq.
Qed.

Lemma value_le_total (a b : TaskFilter.SortValue) : value_le a b \/ value_le b a.
Proof.
  unfold value_le. rewrite (value_compare_antisym b a).
  destruct (TaskFilter.value_compare a b); simpl; (left; congruence) || (right; congruence).
Qed.

Lemma value_le_antisym (a b : TaskFilter.SortValue) :
  a <> TaskFilter.VNaN -> b <> TaskFilter.VNaN ->
  value_le a b -> value_le b a -> a = b.
Proof.
  intros Ha Hb. unfold value_le. rewrite (value_compare_antisym b a).
  destruct (TaskFilter.value_compare a b) eqn:H; simpl; try congruence.
  intros _ _. now apply value_compare_eq.
Qed.

(** NaN is neither smaller nor greater than any value, so [value_le] is
    transitive only through a value that is not NaN. *)
Lemma value_le_trans (a b c : TaskFilter.SortValue) :
  b <> TaskFilter.VNaN -> value_le a b -> value_le b c -> value_le a c.
Proof.
  unfold value_le. destruct a as [x|x|], b as [y|y|], c as [z|z|]; simpl; try congruence.
  - intros _. apply str_le_trans.
  - intros _. rewrite !Z.compare_gt_iff. lia.
Qed.

(** The key is NaN only under the field 'dueDate', for a due date that
    does not parse. *)
Lemma sortValue_NaN_iff (fld : string) (categories : list Category) (tags : list Tag)
    (a : Task.t) :
  TaskFilter.sortValue fld categories tags a = TaskFilter.VNaN
  <-> fld = "dueDate"
      /\ exists s, Task.dueDate a = Some s /\ ValidationUtils.parsesAsDate s = false.
Proof.
  unfold TaskFilter.sortValue.
  destruct (String.eqb_spec fld "title") as [->|_];
    [split; [discriminate | intros [H _]; discriminate H]|].
  destruct (String.eqb_spec fld "priority") as [->|_];
    [split; [discriminate | intros [H _]; discriminate H]|].
  destruct (String.eqb_spec fld "status") as [->|_];
    [split; [discriminate | intros [H _]; discriminate H]|].
  destruct (String.eqb_spec fld "category") as [->|_];
    [split; [discriminate | intros [H _]; discriminate H]|].
  destruct (String.eqb_spec fld "tags") as [->|_];
    [split; [discriminate | intros [H _]; discriminate H]|].
  destruct (String.eqb_spec fld "dueDate") as [->|Hne];
    [|split; [discriminate | intros [H _]; contradiction]].
  destruct (Task.dueDate a) as [s|].
  - change (TaskFilter.dateStringTime s)
      with (if ValidationUtils.parsesAsDate s
            then TaskFilter.VNum (JsDate.parseISODate (ds_year s) (ds_month s) (ds_day s))
            else TaskFilter.VNaN).
    destruct (ValidationUtils.parsesAsDate s) eqn:E; split.
    + discriminate.
    + intros (_ & s' & [= <-] & H). congruence.
    + intros _. split; [reflexivity|]. exists s. auto.
    + reflexivity.
  - split; [discriminate | intros (_ & s & H & _); discriminate H].
Qed.

Section SortDirections.
Variables (fld : string) (categories : list Category) (tags : list Tag).

Let key := TaskFilter.sortValue fld categories tags.
Let asc := TaskFilter.compareTasks (TaskFilter.mkSortOptions fld "asc") categories tags.
Let desc := TaskFilter.compareTasks (TaskFilter.mkSortOptions fld "desc") categories tags.

Lemma asc_le (a b : Task.t) : asc a b <= 0 <-> value_le (key a) (key b).
Proof.
  unfold asc, key, TaskFilter.compareTasks, value_le. simpl.
  destruct (TaskFilter.value_compare _ _); split; (lia || congruence).
Qed.

Lemma desc_le (a b : Task.t) : desc a b <= 0 <-> value_le (key b) (key a).
Proof.
  unfold desc, key, TaskFilter.compareTasks, value_le. simpl.
  rewrite (value_compare_antisym
             (TaskFilter.sortValue fld categories tags b)
             (TaskFilter.sortValue fld categories tags a)).
  destruct (TaskFilter.value_compare _ _); simpl; split; (lia || congruence).
Qed.

Lemma sort_asc_sorted (tasks : list Task.t) :
  Forall (fun task => key task <> TaskFilter.VNaN) tasks ->
  StronglySorted (fun a b => value_le (key a) (key b)) (sortWith asc tasks).
Proof.
  apply sortWith_sorted_on.
  - apply asc_le.
  - intros; apply value_le_total.
  - intros x y z Hy; now apply value_le_trans.
Qed.

Lemma sort_desc_sorted (tasks : list Task.t) :
  Forall (fun task => key task <> TaskFilter.VNaN) tasks ->
  StronglySorted (fun a b => value_le (key b) (key a)) (sortWith desc tasks).
Proof.
  apply sortWith_sorted_on.
  - apply desc_le.
  - intros; apply value_le_total.
  - intros x y z Hy H1 H2; now apply (value_le_trans _ (key y)).
Qed.

Lemma sort_asc_rev_desc (tasks : list Task.t) :
  List.NoDup (map key tasks) ->
  Forall (fun task => key task <> TaskFilter.VNaN) tasks ->
  sortWith asc tasks = rev (sortWith desc tasks).
Proof.
  intros Hnd Hnum.
  apply (sorted_perm_unique (fun a b => value_le (key a) (key b))).
  - now apply sort_asc_sorted.
  - apply (StronglySorted_rev (fun a b => value_le (key b) (key a))).
    now apply sort_desc_sorted.
  - rewrite <- Permutation_rev, !sortWith_perm. reflexivity.
  - intros x y Hx Hy H1 H2.
    apply sortWith_In in Hx, Hy.
    rewrite List.Forall_forall in Hnum.
    apply (NoDup_map_inj key tasks); auto.
    apply value_le_antisym; auto; now apply Hnum.
Qed.
End SortDirections.

(** C8, as the code has it.  For every sort field, on a task list in which
    no two tasks have the same sort key for that field and no key is NaN
    (under 'dueDate', every due date parses), sorting ascending and sorting
    descending give orderings that are the reverse of each other; both are
    arrangements of the given tasks, and the ascending one has the keys in
    non-decreasing order. *)
Theorem sort_asc_desc_reversed (st : TaskFilter.t) (fld : string)
    (tasks : list Task.t) (categories : list Category) (tags : list Tag) :
  List.NoDup (map (TaskFilter.sortValue fld categories tags) tasks) ->
  Forall (fun task => TaskFilter.sortValue fld categories tags task <> TaskFilter.VNaN)
         tasks ->
  let with_direction dir :=
    TaskFilter.mk (TaskFilter.currentFilter st) (TaskFilter.currentCategoryFilter st)
                  (TaskFilter.currentTagFilter st) (TaskFilter.mkSortOptions fld dir)
                  (TaskFilter.completedTasksDays st) in
  let ascending := TaskFilter.sortTasks (with_direction "asc") tasks categories tags in
  let descending := TaskFilter.sortTasks (with_direction "desc") tasks categories tags in
  ascending = rev descending
  /\ Permutation ascending tasks
  /\ Permutation descending tasks
  /\ StronglySorted
       (fun a b => value_le (TaskFilter.sortValue fld categories tags a)
                            (TaskFilter.sortValue fld categories tags b))
       ascending.
Proof.
  intros Hnd Hnum with_direction ascending descending.
  unfold ascending, descending, TaskFilter.sortTasks. simpl.
  split; [now apply sort_asc_rev_desc|].
  split; [apply sortWith_perm|]. split; [apply sortWith_perm|].
  now apply sort_asc_sorted.
Qed.

(** ** Updating and creating tasks *)

Lemma findIndex_None {A} (p : A -> bool) (l : list A) :
  findIndex p l = None <-> forall x, In x l -> p x = false.
Proof.
  induction l as [|a l IH]; simpl.
  - split; [intros _ x [] | reflexivity].
  - destruct (p a) eqn:Hp.
    + split; [discriminate|]. intros H. specialize (H a (or_introl eq_refl)). congruence.
    + destruct (findIndex p l) eqn:Hf; simpl.
      * split; [discriminate|]. intros H.
        assert (Some n = None) by (apply IH; intros; apply H; now right). discriminate.
      * split; [|reflexivity]. intros _ x [<-|Hx]; [exact Hp|].
        now apply (proj1 IH).
Qed.

Lemma findIndex_Some {A} (p : A -> bool) (l : list A) (i : nat) :
  findIndex p l = Some i <->
  exists x, l !! i = Some x /\ p x = true /\
            forall j y, (j < i)%nat -> l !! j = Some y -> p y = false.
Proof.
  revert i. induction l as [|a l IH]; intros i; simpl.
  - split; [discriminate|]. intros (x & Hx & _). destruct i; discriminate.
  - destruct (p a) eqn:Hp.
    + split.
      * intros [= <-]. exists a. repeat split; auto. intros j y Hj. lia.
      * intros (x & Hx & Hpx & Hmin). destruct i as [|i]; [reflexivity|].
        specialize (Hmin 0%nat a ltac:(lia) eq_refl). congruence.
    + destruct i as [|i].
      * split.
        -- destruct (findIndex p l); discriminate.
        -- intros (x & [= <-] & Hpx & _). congruence.
      * specialize (IH i). split.
        -- destruct (findIndex p l) as [n|] eqn:Hf; [|discriminate].
           simpl. intros [= ->]. destruct (proj1 IH eq_refl) as (x & Hx & Hpx & Hmin).
           exists x. repeat split; auto.
           intros [|j] y Hj Hy; simpl in Hy; [congruence|].
           apply (Hmin j); [lia | exact Hy].
        -- intros (x & Hx & Hpx & Hmin).
           assert (Hi : findIndex p l = Some i).
           { apply IH. exists x. repeat split; auto.
             intros j y Hj Hy. apply (Hmin (S j)); [lia | exact Hy]. }
           now rewrite Hi.
Qed.

(** C10. [updateTask taskId taskData] stores under the first position
    holding [taskId] a task whose id is [taskId], whatever id [taskData]
    carries; every other position keeps its task; and when no task has
    that id it returns false and changes nothing. *)
Theorem updateTask_frame (st : TaskController.t) (taskId : string)
    (taskData : TaskData.t) :
  ((forall task, In task (TaskController.tasks st) -> Task.id task <> taskId) ->
   TaskController.updateTask st taskId taskData = (false, st))
  /\ (forall i old,
        TaskController.tasks st !! i = Some old ->
        Task.id old = taskId ->
        (forall j other, (j < i)%nat -> TaskController.tasks st !! j = Some other ->
                         Task.id other <> taskId) ->
        exists st' new,
          TaskController.updateTask st taskId taskData = (true, st')
          /\ TaskController.tasks st' !! i = Some new
          /\ new = TaskController.merge old taskData taskId
          /\ Task.id new = taskId
          /\ (forall j, j <> i ->
                TaskController.tasks st' !! j = TaskController.tasks st !! j)
          /\ length (TaskController.tasks st') = length (TaskController.tasks st)
          /\ TaskController.generated st' = TaskController.generated st).
Proof.
  split.
  - intros Hnone. unfold TaskController.updateTask.
    assert (Hf : findIndex (fun task => String.eqb (Task.id task) taskId)
                           (TaskController.tasks st) = None).
    { apply findIndex_None. intros x Hx. apply String.eqb_neq. now apply Hnone. }
    now rewrite Hf.
  - intros i old Hi Hid Hfirst. unfold TaskController.updateTask.
    assert (Hf : findIndex (fun task => String.eqb (Task.id task) taskId)
                           (TaskController.tasks st) = Some i).
    { apply findIndex_Some. exists old. repeat split; auto.
      - now apply String.eqb_eq.
      - intros j y Hj Hy. apply String.eqb_neq. eauto. }
    rewrite Hf, Hi. eexists _, _. split; [reflexivity|]. simpl.
    assert (Hlt : (i < length (TaskController.tasks st))%nat)
      by (eapply lookup_lt_Some; eauto).
    repeat split.
    + now apply list_lookup_insert_eq.
    + intros j Hj. now apply list_lookup_insert_ne.
    + apply length_insert.
Qed.

Lemma updateTask_tasks_In (st : TaskController.t) (taskId : string)
    (taskData : TaskData.t) (task : Task.t) :
  In task (TaskController.tasks (snd (TaskController.updateTask st taskId taskData))) ->
  In task (TaskController.tasks st)
  \/ exists old, In old (TaskController.tasks st)
                 /\ task = TaskController.merge old taskData taskId.
Proof.
  unfold TaskController.updateTask.
  destruct (findIndex _ _) as [i|]; [|now left].
  destruct (TaskController.tasks st !! i) as [old|] eqn:Hi; [|now left].
  simpl. intros Hin.
  apply list_elem_of_In, list_elem_of_lookup in Hin. destruct Hin as [j Hj].
  destruct (Nat.eq_dec j i) as [->|Hne].
  - rewrite list_lookup_insert_eq in Hj by (eapply lookup_lt_Some; eauto).
    injection Hj as <-. right. exists old. split; [|reflexivity].
    apply list_elem_of_In, list_elem_of_lookup. eauto.
  - rewrite list_lookup_insert_ne in Hj by auto. left.
    apply list_elem_of_In, list_elem_of_lookup. eauto.
Qed.

Lemma fold_left_invariant {A S} (f : S -> A -> S) (P : S -> Prop) (Q : A -> Prop)
    (l : list A) (s : S) :
  (forall s a, P s -> Q a -> P (f s a)) ->
  (forall a, In a l -> Q a) -> P s -> P (fold_left f l s).
Proof.
  intros Hstep. revert s. induction l as [|a l IH]; simpl; intros s HQ Hs; [exact Hs|].
  apply IH; auto.
Qed.

Lemma generateNextRecurringTask_within (env : TaskController.Env) (st : TaskController.t)
    (parentTask : Task.t) :
  Forall tags_within_limit (TaskController.tasks st) ->
  tags_within_limit parentTask ->
  Forall tags_within_limit
         (TaskController.tasks (TaskController.generateNextRecurringTask env st parentTask)).
Proof.
  intros Hall Hp. unfold TaskController.generateNextRecurringTask.
  destruct (DateUtils.calculateNextRecurrenceDate _ _); [|exact Hall].
  simpl. apply Forall_app. split; [exact Hall|].
  constructor; [exact Hp | constructor].
Qed.

Lemma generateRecurringAfterComplete_within (env : TaskController.Env)
    (st : TaskController.t) (completedTask : Task.t) :
  Forall tags_within_limit (TaskController.tasks st) ->
  tags_within_limit completedTask ->
  Forall tags_within_limit
         (TaskController.tasks
            (TaskController.generateRecurringAfterComplete env st completedTask)).
Proof.
  intros Hall Hc. unfold TaskController.generateRecurringAfterComplete.
  destruct (Task.isRecurring completedTask); [|exact Hall].
  destruct (Task.parentRecurringId completedTask) as [parentId|];
    [|now apply generateNextRecurringTask_within].
  destruct (String.eqb parentId ""); [now apply generateNextRecurringTask_within|].
  destruct (TaskController.getTaskById st parentId) as [parentTask|] eqn:E; [|exact Hall].
  apply generateNextRecurringTask_within; [exact Hall|].
  apply find_some in E. destruct E as [Hin _].
  rewrite List.Forall_forall in Hall. exact (Hall _ Hin).
Qed.

Lemma toggleTaskComplete_within (st : TaskController.t) (taskId : string) :
  Forall tags_within_limit (TaskController.tasks st) ->
  Forall tags_within_limit
         (TaskController.tasks (snd (TaskController.toggleTaskComplete st taskId))).
Proof.
  intros Hall. unfold TaskController.toggleTaskComplete.
  destruct (findIndex _ _) as [taskIndex|]; [|exact Hall].
  destruct (TaskController.tasks st !! taskIndex) as [task|] eqn:E; [|exact Hall].
  cbn [snd TaskController.tasks]. apply Forall_insert; [exact Hall|].
  exact (Forall_lookup_1 _ _ _ _ Hall E).
Qed.

Lemma click_within (env : TaskController.Env) (st : TaskController.t) (taskId : string) :
  Forall tags_within_limit (TaskController.tasks st) ->
  Forall tags_within_limit
         (TaskController.tasks (SettingsController.toggleTaskComplete env st taskId)).
Proof.
  intros Hall. unfold SettingsController.toggleTaskComplete.
  pose proof (toggleTaskComplete_within st taskId Hall) as Hall'.
  destruct (TaskController.toggleTaskComplete st taskId) as [[result|] st'];
    cbn [snd] in Hall'; [|exact Hall'].
  destruct (negb _ && _); [|exact Hall'].
  destruct (TaskController.getTaskById st' taskId) as [task|] eqn:E; [|exact Hall'].
  destruct (Task.isRecurring task); [|exact Hall'].
  apply generateRecurringAfterComplete_within; [exact Hall'|].
  apply find_some in E. destruct E as [Hin _].
  rewrite List.Forall_forall in Hall'. exact (Hall' _ Hin).
Qed.

Lemma deleteTask_within (st : TaskController.t) (taskId : string) :
  Forall tags_within_limit (TaskController.tasks st) ->
  Forall tags_within_limit
         (TaskController.tasks (snd (TaskController.deleteTask st taskId))).
Proof.
  intros Hall. unfold TaskController.deleteTask.
  destruct (findIndex _ _) as [taskIndex|]; [|exact Hall].
  cbn [snd TaskController.tasks]. now apply Forall_delete.
Qed.

(** C9, as the code has it.  [Task.addTag] keeps a task within three tags
    and refuses a fourth or a duplicate tag; [validateTask] reports a task
    with more than three tags as invalid; [addTask] and [updateTask] store
    the tags they are handed, so they keep every stored task within three
    tags when the supplied tags, if any, are at most three; generating
    recurring occurrences, in the pass over the stored tasks and after a
    task is completed, copies the tags of a stored task or of the completed
    task and so keeps the stored tasks within three tags; completing a task
    by a click and deleting a task keep them so too. *)
Theorem tag_limit_preserved :
  (forall task tagId,
      tags_within_limit task ->
      tags_within_limit (snd (Task.addTag task tagId)))
  /\ (forall task tagId,
        (length (Task.tags task) >= 3)%nat \/ In tagId (Task.tags task) ->
        Task.addTag task tagId = (false, task))
  /\ (forall tz now task,
        ValidationUtils.isValid (ValidationUtils.validateTask tz now task) = true ->
        tags_within_limit task)
  /\ (forall env st taskData,
        Forall tags_within_limit (TaskController.tasks st) ->
        (forall ts, TaskData.tags taskData = Some ts -> (length ts <= 3)%nat) ->
        Forall tags_within_limit
               (TaskController.tasks (snd (TaskController.addTask env st taskData))))
  /\ (forall st taskId taskData,
        Forall tags_within_limit (TaskController.tasks st) ->
        (forall ts, TaskData.tags taskData = Some ts -> (length ts <= 3)%nat) ->
        Forall tags_within_limit
               (TaskController.tasks (snd (TaskController.updateTask st taskId taskData))))
  /\ (forall env st,
        Forall tags_within_limit (TaskController.tasks st) ->
        Forall tags_within_limit
               (TaskController.tasks (TaskController.checkAndGenerateRecurringTasks env st)))
  /\ (forall env st completedTask,
        Forall tags_within_limit (TaskController.tasks st) ->
        tags_within_limit completedTask ->
        Forall tags_within_limit
               (TaskController.tasks
                  (TaskController.generateRecurringAfterComplete env st completedTask)))
  /\ (forall env st taskId,
        Forall tags_within_limit (TaskController.tasks st) ->
        Forall tags_within_limit
               (TaskController.tasks (SettingsController.toggleTaskComplete env st taskId)))
  /\ (forall st taskId,
        Forall tags_within_limit (TaskController.tasks st) ->
        Forall tags_within_limit
               (TaskController.tasks (snd (TaskController.toggleTaskComplete st taskId))))
  /\ (forall st taskId,
        Forall tags_within_limit (TaskController.tasks st) ->
        Forall tags_within_limit
               (TaskController.tasks (snd (TaskController.deleteTask st taskId)))).
Proof.
  repeat apply conj;
    [| | | | | | apply generateRecurringAfterComplete_within | apply click_within
     | apply toggleTaskComplete_within | apply deleteTask_within].
  - intros task tagId H. unfold Task.addTag, tags_within_limit in *.
    destruct (negb _ && _) eqn:E; simpl; [|exact H].
    apply andb_true_iff in E. destruct E as [_ E]. apply Z.ltb_lt in E.
    rewrite length_app. simpl. lia.
  - intros task tagId H. unfold Task.addTag.
    destruct (negb _ && _) eqn:E; [|reflexivity]. exfalso.
    apply andb_true_iff in E. destruct E as [E1 E2].
    apply Z.ltb_lt in E2. apply negb_true_iff in E1.
    destruct H as [H|H]; [lia|].
    unfold Task.hasTag in E1.
    assert (existsb (String.eqb tagId) (Task.tags task) = true).
    { apply existsb_exists. exists tagId. split; [exact H | apply String.eqb_refl]. }
    congruence.
  - intros tz now task. unfold ValidationUtils.validateTask, tags_within_limit.
    cbn [ValidationUtils.isValid].
    destruct (Z.ltb_spec 3 (Z.of_nat (length (Task.tags task)))) as [Hgt|Hle]; [|lia].
    destruct (Task.isRecurring task && _); rewrite !length_app; simpl;
      intros H; apply Nat.eqb_eq in H; lia.
  - intros env st taskData Hall Hts. unfold TaskController.addTask.
    destruct (String.eqb _ _); simpl; [exact Hall|].
    apply Forall_app. split; [exact Hall|]. constructor; [|constructor].
    unfold tags_within_limit. simpl.
    destruct (TaskData.tags taskData) as [ts|]; simpl; [now apply Hts | lia].
  - intros st taskId taskData Hall Hts.
    apply List.Forall_forall. intros task Hin.
    rewrite List.Forall_forall in Hall.
    apply updateTask_tasks_In in Hin. destruct Hin as [Hin|(old & Hold & ->)]; [auto|].
    unfold tags_within_limit, TaskController.merge. simpl.
    destruct (TaskData.tags taskData) as [ts|]; simpl; [now apply Hts|].
    now apply Hall.
  - intros env st Hall. unfold TaskController.checkAndGenerateRecurringTasks.
    apply (fold_left_invariant _
             (fun s => Forall tags_within_limit (TaskController.tasks s))
             tags_within_limit).
    + intros s a Hs Ha. unfold TaskController.checkTask.
      destruct (_ && _); [|exact Hs].
      destruct (_ || _); [|exact Hs].
      destruct (negb _); [|exact Hs].
      unfold TaskController.generateNextRecurringTask.
      destruct (DateUtils.calculateNextRecurrenceDate _ _); [|exact Hs].
      simpl. apply Forall_app. split; [exact Hs|].
      constructor; [exact Ha | constructor].
    + intros a Ha. rewrite List.Forall_forall in Hall. auto.
    + exact Hall.
Qed.

(** ** Reconciliation *)

Lemma list_eqb_eq {A} (eqb : A -> A -> bool) :
  (forall x y, eqb x y = true <-> x = y) ->
  forall l1 l2, list_eqb eqb l1 l2 = true <-> l1 = l2.
Proof.
  intros Heq. induction l1 as [|x r1 IH]; intros [|y r2]; simpl;
    try (split; [discriminate | congruence]); [tauto|].
  rewrite andb_true_iff, Heq, IH. split; [intros [-> ->]; reflexivity | intros [= -> ->]; auto].
Qed.

Lemma option_eqb_eq {A} (eqb : A -> A -> bool) :
  (forall x y, eqb x y = true <-> x = y) ->
  forall o1 o2, option_eqb eqb o1 o2 = true <-> o1 = o2.
Proof.
  intros Heq [x|] [y|]; simpl; try (split; [discriminate | congruence]); [|tauto].
  rewrite Heq. split; congruence.
Qed.

Lemma DateStr_eqb_eq (a b : DateStr) : DateStr_eqb a b = true <-> a = b.
Proof.
  destruct a, b. unfold DateStr_eqb. simpl.
  rewrite !andb_true_iff, !Z.eqb_eq. split; [intros [[-> ->] ->]; reflexivity|].
  intros [= -> -> ->]. auto.
Qed.

Lemma recurrenceData_differs_false (a b : option RecurrenceData) :
  RenderController.recurrenceData_differs a b = false <-> a = b.
Proof.
  unfold RenderController.recurrenceData_differs. rewrite negb_false_iff.
  apply option_eqb_eq. intros [x] [y]. simpl.
  rewrite (list_eqb_eq Z.eqb Z.eqb_eq). split; congruence.
Qed.

Lemma hasTaskChanged_false_iff (a b : Task.t) :
  RenderController.hasTaskChanged a b = false <-> tracked_fields_equal a b.
Proof.
  unfold RenderController.hasTaskChanged, RenderController.relevantProps,
    tracked_fields_equal.
  cbn [existsb String.eqb Ascii.eqb Bool.eqb RenderController.prop_differs].
  rewrite !orb_false_iff, !negb_false_iff, recurrenceData_differs_false.
  rewrite !String.eqb_eq, !Bool.eqb_true_iff.
  rewrite (option_eqb_eq DateStr_eqb DateStr_eqb_eq).
  rewrite (option_eqb_eq String.eqb String.eqb_eq).
  rewrite (list_eqb_eq String.eqb String.eqb_eq), sortStrings_eq_iff.
  tauto.
Qed.

Lemma hasTaskChanged_true_iff (a b : Task.t) :
  RenderController.hasTaskChanged a b = true <-> ~ tracked_fields_equal a b.
Proof.
  rewrite <- hasTaskChanged_false_iff.
  destruct (RenderController.hasTaskChanged a b); split; congruence.
Qed.

Lemma JsMap_get_In {V} (m : JsMap.t V) (k : string) (v : V) :
  JsMap.get m k = Some v -> In (k, v) m.
Proof.
  unfold JsMap.get. destruct (List.find _ m) as [[k' v']|] eqn:Hf; [|discriminate].
  simpl. intros [= <-]. apply find_some in Hf. destruct Hf as [Hin Hk].
  simpl in Hk. apply String.eqb_eq in Hk. now subst.
Qed.

Lemma JsMap_In_get {V} (m : JsMap.t V) (k : string) (v : V) :
  List.NoDup (JsMap.keys m) -> In (k, v) m -> JsMap.get m k = Some v.
Proof.
  unfold JsMap.get, JsMap.keys.
  induction m as [|[k' v'] m IH]; simpl; [tauto|].
  intros Hnd Hin. inversion Hnd as [|? ? Hnot Hnd']; subst.
  destruct (String.eqb_spec k' k) as [->|Hne].
  - destruct Hin as [[= ->]|Hin]; [reflexivity|].
    exfalso. apply Hnot. now apply (in_map fst) in Hin.
  - destruct Hin as [[= -> ->]|Hin]; [congruence|]. now apply IH.
Qed.

Lemma JsMap_has_keys {V} (m : JsMap.t V) (k : string) :
  JsMap.has m k = true <-> In k (JsMap.keys m).
Proof.
  unfold JsMap.has, JsMap.get, JsMap.keys.
  induction m as [|[k' v'] m IH]; simpl; [split; [discriminate | tauto]|].
  destruct (String.eqb_spec k' k) as [->|Hne]; simpl; [tauto|].
  rewrite IH. split; [tauto | intros [?|?]; [congruence | assumption]].
Qed.

Lemma JsMap_get_set {V} (m : JsMap.t V) (k k' : string) (v : V) :
  JsMap.get (JsMap.set m k v) k' = if String.eqb k k' then Some v else JsMap.get m k'.
Proof.
  unfold JsMap.get. induction m as [|[k0 v0] m IH]; simpl.
  - destruct (String.eqb k k'); reflexivity.
  - destruct (String.eqb_spec k0 k) as [->|Hne]; simpl.
    + destruct (String.eqb k k'); reflexivity.
    + destruct (String.eqb_spec k0 k') as [->|Hne'].
      * destruct (String.eqb_spec k k'); [congruence | reflexivity].
      * exact IH.
Qed.

Lemma JsMap_keys_set {V} (m : JsMap.t V) (k k' : string) (v : V) :
  In k' (JsMap.keys (JsMap.set m k v)) <-> k' = k \/ In k' (JsMap.keys m).
Proof.
  unfold JsMap.keys. induction m as [|[k0 v0] m IH]; simpl.
  - intuition.
  - destruct (String.eqb_spec k0 k) as [->|Hne]; simpl; [intuition|].
    rewrite IH. intuition.
Qed.

Lemma JsMap_set_NoDup {V} (m : JsMap.t V) (k : string) (v : V) :
  List.NoDup (JsMap.keys m) -> List.NoDup (JsMap.keys (JsMap.set m k v)).
Proof.
  induction m as [|[k0 v0] m IH]; simpl; intros Hnd.
  - repeat constructor. intros [].
  - inversion Hnd as [|? ? Hnot Hnd']; subst.
    destruct (String.eqb_spec k0 k) as [->|Hne]; simpl; [now constructor|].
    constructor; [|now apply IH].
    intros Hin. apply (JsMap_keys_set m k k0 v) in Hin. destruct Hin; [congruence|auto].
Qed.

(** The map built from the task list has one entry per id, keyed by the
    id of the task it holds, and that task is the last of the list with
    that id. *)
Lemma currentTasksOf_spec (tasks : list Task.t) :
  let cur := RenderController.currentTasksOf tasks in
  List.NoDup (JsMap.keys cur)
  /\ (forall k, In k (JsMap.keys cur) <-> In k (map Task.id tasks))
  /\ (forall k t, JsMap.get cur k = Some t ->
        Task.id t = k /\ In t tasks)
  /\ (List.NoDup (map Task.id tasks) ->
      forall t, In t tasks -> JsMap.get cur (Task.id t) = Some t).
Proof.
  unfold RenderController.currentTasksOf.
  assert (Hgen : forall m : JsMap.t Task.t,
    let cur := fold_left (fun m task => JsMap.set m (Task.id task) task) tasks m in
    (List.NoDup (JsMap.keys m) -> List.NoDup (JsMap.keys cur))
    /\ (forall k, In k (JsMap.keys cur) <-> In k (JsMap.keys m) \/ In k (map Task.id tasks))
    /\ (forall k t, JsMap.get cur k = Some t ->
          (Task.id t = k /\ In t tasks) \/ JsMap.get m k = Some t)
    /\ (List.NoDup (map Task.id tasks) ->
        forall t, In t tasks -> JsMap.get cur (Task.id t) = Some t)).
  { induction tasks as [|a tasks IH]; intros m; simpl.
    - repeat split; auto; tauto.
    - destruct (IH (JsMap.set m (Task.id a) a)) as (H1 & H2 & H3 & H4).
      repeat split.
      + intros Hnd. apply H1. now apply JsMap_set_NoDup.
      + intros Hk. apply H2 in Hk. rewrite JsMap_keys_set in Hk.
        intuition.
      + intros Hk. apply H2. rewrite JsMap_keys_set. intuition.
      + intros k t Hg. apply H3 in Hg. destruct Hg as [[Hid Hin]|Hg]; [left; auto|].
        rewrite JsMap_get_set in Hg.
        destruct (String.eqb_spec (Task.id a) k) as [<-|Hne]; [|now right].
        injection Hg as <-. left. auto.
      + intros Hnd t Hin. inversion Hnd as [|? ? Hnot Hnd']; subst.
        destruct Hin as [<-|Hin]; [|now apply H4].
        destruct (JsMap.get _ (Task.id a)) as [t'|] eqn:Hg.
        * apply H3 in Hg. destruct Hg as [[Hid Hin]|Hg].
          -- exfalso. apply Hnot. rewrite <- Hid. now apply in_map.
          -- rewrite JsMap_get_set, String.eqb_refl in Hg. congruence.
        * exfalso.
          assert (Hk : In (Task.id a)
                     (JsMap.keys (fold_left (fun m task => JsMap.set m (Task.id task) task)
                                            tasks (JsMap.set m (Task.id a) a)))).
          { apply H2. left. apply JsMap_keys_set. now left. }
          apply JsMap_has_keys in Hk. unfold JsMap.has in Hk. rewrite Hg in Hk.
          discriminate. }
  destruct (Hgen []) as (H1 & H2 & H3 & H4). simpl in *.
  repeat split.
  - apply H1. constructor.
  - intros Hk. apply H2 in Hk. tauto.
  - intros Hk. apply H2. now right.
  - apply H3 in H. destruct H as [[? ?]|H]; [assumption | discriminate].
  - apply H3 in H. destruct H as [[? ?]|H]; [assumption | discriminate].
  - exact H4.
Qed.

Lemma diff_flat_map (lastRendered currentTasks : JsMap.t Task.t) :
  RenderController.diff lastRendered currentTasks
  = RenderController.mkDiff
      (flat_map (added_of lastRendered) currentTasks)
      (flat_map (modified_of lastRendered) currentTasks)
      (flat_map (removed_of currentTasks) lastRendered).
Proof.
  unfold RenderController.diff.
  assert (H1 : forall l a0 m0,
    fold_left (fun '(added, modified) '(taskId, task) =>
                 match JsMap.get lastRendered taskId with
                 | None => ((added ++ [task])%list, modified)
                 | Some lastTask =>
                     if RenderController.hasTaskChanged task lastTask
                     then (added, (modified ++ [task])%list)
                     else (added, modified)
                 end) l (a0, m0)
    = ((a0 ++ flat_map (added_of lastRendered) l)%list,
       (m0 ++ flat_map (modified_of lastRendered) l)%list)).
  { induction l as [|[k t] l IH]; intros a0 m0; simpl.
    - now rewrite !app_nil_r.
    - unfold added_of at 1, modified_of at 1. simpl.
      destruct (JsMap.get lastRendered k) as [lastTask|].
      + destruct (RenderController.hasTaskChanged t lastTask);
          rewrite IH; simpl; now rewrite <- ?app_assoc.
      + rewrite IH. simpl. now rewrite <- app_assoc. }
  assert (H2 : forall cur l r0,
    fold_left (fun removed '(taskId, _) =>
                 if negb (JsMap.has cur taskId)
                 then (removed ++ [taskId])%list
                 else removed) l r0
    = (r0 ++ flat_map (removed_of cur) l)%list).
  { intros cur. induction l as [|[k t] l IH]; intros r0; simpl.
    - now rewrite app_nil_r.
    - unfold removed_of at 1. simpl.
      destruct (negb (JsMap.has cur k)); rewrite IH; simpl; now rewrite <- ?app_assoc. }
  rewrite H1, H2. reflexivity.
Qed.

Lemma no_member_nil {A} (l : list A) : (forall x, ~ In x l) -> l = [].
Proof.
  destruct l as [|a l]; [reflexivity|]. intros H. exfalso. apply (H a). now left.
Qed.

(** C3. For a snapshot map and a task list (task ids are unique keys: of
    several tasks with one id the map built from the list keeps the last),
    the diff has: as added tasks exactly the current tasks whose id the
    snapshot lacks; as removed ids exactly the snapshot's ids that the list
    lacks; as modified tasks exactly the current tasks whose snapshot
    version differs in a tracked field, tags being compared regardless of
    order (as sets, for tags without repetition).  When every current task
    agrees with its snapshot version and every snapshot id is in the list,
    all three are empty. *)
Theorem reconciliation_diff (lastRendered : JsMap.t Task.t) (tasks : list Task.t) :
  let currentTasks := RenderController.currentTasksOf tasks in
  let d := RenderController.diff lastRendered currentTasks in
  (forall t, In t (RenderController.addedTasks d) <->
             (JsMap.get currentTasks (Task.id t) = Some t
              /\ JsMap.get lastRendered (Task.id t) = None))
  /\ (forall k, In k (RenderController.removedTaskIds d) <->
                (In k (JsMap.keys lastRendered) /\ ~ In k (map Task.id tasks)))
  /\ (forall t, In t (RenderController.modifiedTasks d) <->
                (JsMap.get currentTasks (Task.id t) = Some t
                 /\ exists lastTask, JsMap.get lastRendered (Task.id t) = Some lastTask
                                     /\ ~ tracked_fields_equal t lastTask))
  /\ (forall t, JsMap.get currentTasks (Task.id t) = Some t -> In t tasks)
  /\ (List.NoDup (map Task.id tasks) ->
      forall t, In t tasks <-> JsMap.get currentTasks (Task.id t) = Some t)
  /\ (forall a b,
        List.NoDup (Task.tags a) -> List.NoDup (Task.tags b) ->
        (Permutation (Task.tags a) (Task.tags b)
         <-> forall x, In x (Task.tags a) <-> In x (Task.tags b)))
  /\ ((forall t, In t tasks ->
         exists lastTask, JsMap.get lastRendered (Task.id t) = Some lastTask
                          /\ tracked_fields_equal t lastTask) ->
      (forall k, In k (JsMap.keys lastRendered) -> In k (map Task.id tasks)) ->
      RenderController.addedTasks d = []
      /\ RenderController.modifiedTasks d = []
      /\ RenderController.removedTaskIds d = []).
Proof.
  intros currentTasks d.
  destruct (currentTasksOf_spec tasks) as (Hnd & Hkeys & Hget & Huniq).
  fold currentTasks in Hnd, Hkeys, Hget, Huniq.
  assert (Hentry : forall k t, In (k, t) currentTasks <->
                               (k = Task.id t /\ JsMap.get currentTasks (Task.id t) = Some t)).
  { intros k t. split.
    - intros Hin. apply JsMap_In_get in Hin; [|exact Hnd].
      destruct (Hget _ _ Hin) as [Hid _]. subst k. auto.
    - intros [-> Hg]. now apply JsMap_get_In. }
  assert (Hadded : forall t, In t (RenderController.addedTasks d) <->
             (JsMap.get currentTasks (Task.id t) = Some t
              /\ JsMap.get lastRendered (Task.id t) = None)).
  { intros t. subst d. rewrite diff_flat_map. simpl. rewrite in_flat_map. split.
    - intros ([k t'] & Hin & Hx). unfold added_of in Hx. simpl in Hx.
      destruct (JsMap.get lastRendered k) eqn:Hl; [destruct Hx|].
      destruct Hx as [<-|[]]. apply Hentry in Hin. destruct Hin as [-> Hg]. auto.
    - intros [Hg Hl]. exists (Task.id t, t). split; [now apply Hentry|].
      unfold added_of. simpl. rewrite Hl. now left. }
  assert (Hmodified : forall t, In t (RenderController.modifiedTasks d) <->
                (JsMap.get currentTasks (Task.id t) = Some t
                 /\ exists lastTask, JsMap.get lastRendered (Task.id t) = Some lastTask
                                     /\ ~ tracked_fields_equal t lastTask)).
  { intros t. subst d. rewrite diff_flat_map. simpl. rewrite in_flat_map. split.
    - intros ([k t'] & Hin & Hx). unfold modified_of in Hx. simpl in Hx.
      destruct (JsMap.get lastRendered k) as [lastTask|] eqn:Hl; [|destruct Hx].
      destruct (RenderController.hasTaskChanged t' lastTask) eqn:Hc; [|destruct Hx].
      destruct Hx as [<-|[]]. apply Hentry in Hin. destruct Hin as [-> Hg].
      split; [exact Hg|]. exists lastTask. split; [exact Hl|].
      now apply hasTaskChanged_true_iff.
    - intros [Hg (lastTask & Hl & Hne)]. exists (Task.id t, t).
      split; [now apply Hentry|].
      unfold modified_of. simpl. rewrite Hl.
      apply hasTaskChanged_true_iff in Hne. rewrite Hne. now left. }
  assert (Hremoved : forall k, In k (RenderController.removedTaskIds d) <->
                (In k (JsMap.keys lastRendered) /\ ~ In k (map Task.id tasks))).
  { intros k. subst d. rewrite diff_flat_map. simpl. rewrite in_flat_map. split.
    - intros ([k' t'] & Hin & Hx). unfold removed_of in Hx. simpl in Hx.
      destruct (JsMap.has currentTasks k') eqn:Hh; simpl in Hx; [destruct Hx|].
      destruct Hx as [<-|[]]. split.
      + unfold JsMap.keys. now apply (in_map fst) in Hin.
      + intros Hk. apply Hkeys, JsMap_has_keys in Hk. congruence.
    - intros [Hk Hnot]. unfold JsMap.keys in Hk. apply in_map_iff in Hk.
      destruct Hk as ([k' t'] & Hfst & Hin). simpl in Hfst. subst k'.
      exists (k, t'). split; [exact Hin|]. unfold removed_of. simpl.
      destruct (JsMap.has currentTasks k) eqn:Hh; simpl; [|now left].
      exfalso. apply Hnot, Hkeys, JsMap_has_keys. exact Hh. }
  split; [exact Hadded|]. split; [exact Hremoved|]. split; [exact Hmodified|].
  split; [intros t Hg; now apply (Hget _ _ Hg)|].
  split.
  { intros Hids t. split; [now apply Huniq | intros Hg; now apply (Hget _ _ Hg)]. }
  split.
  { intros a b Ha Hb. split.
    - intros Hp x. split; apply Permutation_in; [exact Hp | now symmetry].
    - intros Hset. now apply Permutation.NoDup_Permutation. }
  intros Hsame Hids. repeat split; apply no_member_nil.
  - intros t Hin. apply Hadded in Hin. destruct Hin as [Hg Hl].
    destruct (Hsame t (proj2 (Hget _ _ Hg))) as (lastTask & Hl' & _). congruence.
  - intros t Hin. apply Hmodified in Hin. destruct Hin as [Hg (lastTask & Hl & Hne)].
    destruct (Hsame t (proj2 (Hget _ _ Hg))) as (lastTask' & Hl' & Heq).
    apply Hne. congruence.
  - intros k Hin. apply Hremoved in Hin. destruct Hin as [Hk Hnot]. auto.
Qed.

(** ** The properties on the sample data *)

Lemma filterTasks_hides_completed_witness :
  TaskFilter.currentFilter TaskFilter.initial <> "completed"
  /\ In Samples.taskA
        (TaskFilter.filterTasks TaskFilter.initial Samples.tzBR Samples.noon_2025_01_11
                                [Samples.taskA; Samples.taskB] [] [] "")
  /\ Task.completed Samples.taskA = false.
Proof.
  assert (H1 : TaskFilter.currentFilter TaskFilter.initial <> "completed")
    by (simpl; discriminate).
  assert (H2 : In Samples.taskA
                  (TaskFilter.filterTasks TaskFilter.initial Samples.tzBR
                     Samples.noon_2025_01_11 [Samples.taskA; Samples.taskB] [] [] ""))
    by (vm_compute; left; reflexivity).
  split; [exact H1|]. split; [exact H2|].
  exact (filterTasks_hides_completed TaskFilter.initial Samples.tzBR Samples.noon_2025_01_11
           [Samples.taskA; Samples.taskB] [] [] "" H1 Samples.taskA H2).
Defined.

Lemma weekly_next_occurrence_witness :
  Task.dueDate Samples.weeklyTask = Some Samples.wednesday
  /\ Task.recurrenceType Samples.weeklyTask = Some "weekly"
  /\ JsDate.getDay Samples.tzBR (JsDate.fromFields Samples.tzBR 2025 0 1) = 3
  /\ DateUtils.calculateNextRecurrenceDate Samples.tzBR Samples.weeklyTask
     = Some (JsDate.plusDays (JsDate.fromFields Samples.tzBR 2025 0 1) 5).
Proof.
  split; [reflexivity|]. split; [reflexivity|]. split; [vm_compute; reflexivity|].
  pose proof (weekly_next_occurrence Samples.tzBR Samples.weeklyTask Samples.wednesday
                eq_refl eq_refl) as H.
  cbv zeta in H. destruct H as (_ & _ & _ & H).
  apply H.
  - vm_compute. reflexivity.
  - intros w. simpl. intuition lia.
Defined.

Lemma reconciliation_diff_witness :
  let d := RenderController.diff [("a", Samples.taskA)]
                                 (RenderController.currentTasksOf [Samples.taskA]) in
  RenderController.addedTasks d = []
  /\ RenderController.modifiedTasks d = []
  /\ RenderController.removedTaskIds d = [].
Proof.
  pose proof (reconciliation_diff [("a", Samples.taskA)] [Samples.taskA]) as H.
  cbv zeta in H. destruct H as (_ & _ & _ & _ & _ & _ & H).
  apply H.
  - intros t [<-|[]]. exists Samples.taskA. split; [reflexivity|].
    unfold tracked_fields_equal. repeat split; reflexivity.
  - intros k [<-|[]]. left. reflexivity.
Defined.

Lemma completed_filter_retention_witness :
  TaskFilter.currentFilter Samples.completedFilter = "completed"
  /\ ~ In (Samples.completedAgo "x" 40)
          (TaskFilter.applyStatusFilter Samples.completedFilter Samples.tzBR
             Samples.noon_2025_01_11
             [Samples.completedAgo "x" 40; Samples.completedAgo "y" 10])
  /\ In (Samples.completedAgo "y" 10)
        (TaskFilter.applyStatusFilter Samples.completedFilter Samples.tzBR
           Samples.noon_2025_01_11
           [Samples.completedAgo "x" 40; Samples.completedAgo "y" 10]).
Proof.
  split; [reflexivity|].
  pose proof (completed_filter_retention Samples.completedFilter Samples.tzBR
                Samples.noon_2025_01_11
                [Samples.completedAgo "x" 40; Samples.completedAgo "y" 10] eq_refl) as H.
  cbv zeta in H. destruct H as (_ & _ & H). specialize (H eq_refl).
  split.
  - apply (proj1 (H (Samples.completedAgo "x" 40) (or_introl eq_refl) eq_refl)).
    vm_compute. reflexivity.
  - apply (proj2 (H (Samples.completedAgo "y" 10) (or_intror (or_introl eq_refl)) eq_refl)).
    vm_compute. reflexivity.
Defined.



Lemma sort_asc_desc_reversed_witness :
  List.NoDup (map (TaskFilter.sortValue "title" [] [])
                  [Samples.taskC; Samples.taskA; Samples.taskB])
  /\ TaskFilter.sortTasks (Samples.sortedBy "title" "asc")
       [Samples.taskC; Samples.taskA; Samples.taskB] [] []
     = rev (TaskFilter.sortTasks (Samples.sortedBy "title" "desc")
              [Samples.taskC; Samples.taskA; Samples.taskB] [] []).
Proof.
  assert (H : List.NoDup (map (TaskFilter.sortValue "title" [] [])
                              [Samples.taskC; Samples.taskA; Samples.taskB])).
  { vm_compute. repeat constructor; simpl; intuition discriminate. }
  assert (Hnum : Forall (fun task => TaskFilter.sortValue "title" [] [] task
                                     <> TaskFilter.VNaN)
                        [Samples.taskC; Samples.taskA; Samples.taskB]).
  { repeat constructor; discriminate. }
  split; [exact H|].
  exact (proj1 (sort_asc_desc_reversed TaskFilter.initial "title"
                  [Samples.taskC; Samples.taskA; Samples.taskB] [] [] H Hnum)).
Defined.

(** C8, as stated, fails: a due date that does not parse has the key NaN,
    which the comparator finds neither smaller nor greater than any other
    key.  The two tasks below have different keys and come out in the given
    order in both directions. *)
Lemma sort_unparsed_dueDate_not_reversed :
  List.NoDup (map (TaskFilter.sortValue "dueDate" [] [])
                  [Samples.dueMonth13; Samples.dueJanuary])
  /\ TaskFilter.sortTasks (Samples.sortedBy "dueDate" "asc")
       [Samples.dueMonth13; Samples.dueJanuary] [] []
     = [Samples.dueMonth13; Samples.dueJanuary]
  /\ TaskFilter.sortTasks (Samples.sortedBy "dueDate" "desc")
       [Samples.dueMonth13; Samples.dueJanuary] [] []
     = [Samples.dueMonth13; Samples.dueJanuary]
  /\ TaskFilter.sortTasks (Samples.sortedBy "dueDate" "asc")
       [Samples.dueMonth13; Samples.dueJanuary] [] []
     <> rev (TaskFilter.sortTasks (Samples.sortedBy "dueDate" "desc")
               [Samples.dueMonth13; Samples.dueJanuary] [] []).
Proof.
  split; [|split; [|split]].
  - vm_compute. repeat constructor; simpl; intuition discriminate.
  - vm_compute. reflexivity.
  - vm_compute. reflexivity.
  - vm_compute. discriminate.
Qed.

(** C9, as stated, fails: a partial update that carries four tags is stored
    as it is. *)
Lemma updateTask_exceeds_tag_limit :
  Forall tags_within_limit (TaskController.tasks (Samples.store [Samples.threeTags]))
  /\ ~ Forall tags_within_limit
         (TaskController.tasks
            (snd (TaskController.updateTask (Samples.store [Samples.threeTags]) "a"
                    (Samples.withTags ["t1"; "t2"; "t3"; "t4"])))).
Proof.
  split.
  - constructor; [unfold tags_within_limit; simpl; lia | constructor].
  - intros H. inversion H as [|? ? Hhd _]; subst.
    unfold tags_within_limit in Hhd. simpl in Hhd. lia.
Qed.

Lemma tag_limit_preserved_witness :
  Forall tags_within_limit
         (TaskController.tasks
            (snd (TaskController.updateTask (Samples.store [Samples.threeTags]) "a"
                    (Samples.withTags ["t4"; "t5"])))).
Proof.
  destruct tag_limit_preserved as (_ & _ & _ & _ & H & _).
  apply H.
  - constructor; [unfold tags_within_limit; simpl; lia | constructor].
  - intros ts [= <-]. simpl. lia.
Defined.

Lemma updateTask_frame_witness :
  TaskController.updateTask (Samples.store [Samples.taskA; Samples.taskB]) "zz"
                            (Samples.withTags [])
  = (false, Samples.store [Samples.taskA; Samples.taskB])
  /\ exists st' new,
       TaskController.updateTask (Samples.store [Samples.taskA; Samples.taskB]) "b"
                                 (Samples.withTags ["t1"]) = (true, st')
       /\ TaskController.tasks st' !! 1%nat = Some new
       /\ Task.id new = "b"
       /\ TaskController.tasks st' !! 0%nat = Some Samples.taskA.
Proof.
  pose proof (updateTask_frame (Samples.store [Samples.taskA; Samples.taskB]) "zz"
                (Samples.withTags [])) as [H1 _].
  pose proof (updateTask_frame (Samples.store [Samples.taskA; Samples.taskB]) "b"
                (Samples.withTags ["t1"])) as [_ H2].
  split.
  - apply H1. simpl. intros task [<-|[<-|[]]]; discriminate.
  - destruct (H2 1%nat Samples.taskB eq_refl eq_refl) as (st' & new & Hu & Hn & _ & Hid & Ho & _).
    + intros [|j] other Hj; [|lia]. intros [= <-]. discriminate.
    + exists st', new. split; [exact Hu|]. split; [exact Hn|]. split; [exact Hid|].
      rewrite (Ho 0%nat) by lia. reflexivity.
Defined.

(** C5 fails on the code.  A completed daily task due yesterday gets an
    occurrence due today by the first pass; that occurrence is not in the
    future, so the second pass generates the same occurrence again. *)
Theorem recurring_generation_repeats :
  let st0 := Samples.store [Samples.dailyRoot] in
  let st1 := TaskController.checkAndGenerateRecurringTasks Samples.env st0 in
  let st2 := TaskController.checkAndGenerateRecurringTasks Samples.env st1 in
  let summary t := (Task.id t, Task.dueDate t, Task.parentRecurringId t) in
  map summary (TaskController.tasks st1)
  = [("r", Some (mkDateStr 2025 1 10), None);
     ("g0", Some (mkDateStr 2025 1 11), Some "r")]
  /\ map summary (TaskController.tasks st2)
     = [("r", Some (mkDateStr 2025 1 10), None);
        ("g0", Some (mkDateStr 2025 1 11), Some "r");
        ("g1", Some (mkDateStr 2025 1 11), Some "r")].
Proof.
  vm_compute. split; reflexivity.
Qed.

Lemma try_catch_total {A} (body : result A) (handler : string -> result A) :
  (forall m, exists a, handler m = Ok a) -> exists a, try_catch body handler = Ok a.
Proof.
  intros H. destruct body as [a|m]; simpl; eauto.
Qed.

(** A failure of the patch never leaves [applyIncrementalUpdates]: its own
    handler answers it. *)
Lemma applyIncrementalUpdates_total (br : RenderController.Browser)
    (children : list TaskRenderer.node) (added modified : list Task.t)
    (removed : list string) (categories : list Category) (tags : list Tag) :
  exists children',
    RenderController.applyIncrementalUpdates br children added modified removed
                                             categories tags = Ok children'.
Proof.
  unfold RenderController.applyIncrementalUpdates.
  apply try_catch_total. intros m. eauto.
Qed.

(** So the handler of [renderTasks] is not reached from the patch, and the
    cache is set to the current tasks, not cleared. *)
Lemma renderTasks_keeps_cache (br : RenderController.Browser) (st : RenderController.t)
    (children : list TaskRenderer.node) (task : Task.t) (tasks : list Task.t)
    (categories : list Category) (tags : list Tag) (emptyMessage : string) :
  RenderController.taskList st = Some children ->
  exists children',
    RenderController.renderTasks br st (task :: tasks) categories tags emptyMessage
    = Ok (RenderController.mk (RenderController.currentTasksOf (task :: tasks))
                              (Some children')).
Proof.
  intros Hl. unfold RenderController.renderTasks. rewrite Hl.
  destruct (applyIncrementalUpdates_total br children
              (RenderController.addedTasks
                 (RenderController.diff (RenderController.lastRenderedTasks st)
                    (RenderController.currentTasksOf (task :: tasks))))
              (RenderController.modifiedTasks
                 (RenderController.diff (RenderController.lastRenderedTasks st)
                    (RenderController.currentTasksOf (task :: tasks))))
              (RenderController.removedTaskIds
                 (RenderController.diff (RenderController.lastRenderedTasks st)
                    (RenderController.currentTasksOf (task :: tasks))))
              categories tags) as [children' Hc].
  rewrite Hc. simpl. eauto.
Qed.

(** C4 fails on the code.  With [taskA] and [taskQ] rendered, rendering
    the list [taskA] alone makes the removal of [taskQ] throw; the fallback
    inside [applyIncrementalUpdates] rebuilds the view from the added and
    modified tasks only (none here, so the empty state is shown although
    [taskA] is current), and the cache is set to the current tasks instead of
    being cleared. *)
Theorem patch_failure_fallback :
  RenderController.querySelector Samples.browser [] Samples.quotedId = Throw "SyntaxError"
  /\ RenderController.renderTasks Samples.browser Samples.rendered_A_Q [Samples.taskA] [] []
                                  "Nenhuma tarefa encontrada"
     = Ok (RenderController.mk
             [("a", Samples.taskA)]
             (Some [TaskRenderer.EmptyState "Nenhuma tarefa encontrada"])).
Proof.
  vm_compute. split; reflexivity.
Qed.

(** * Further properties of the date utilities *)

Ltac month_cases m H :=
  assert (H : m = 0 \/ m = 1 \/ m = 2 \/ m = 3 \/ m = 4 \/ m = 5 \/ m = 6 \/
              m = 7 \/ m = 8 \/ m = 9 \/ m = 10 \/ m = 11) by lia;
  destruct H as [H|[H|[H|[H|[H|[H|[H|[H|[H|[H|[H|H]]]]]]]]]]].

Lemma Day_plus (t n : Z) : JsDate.Day (t + n * JsDate.msPerDay) = JsDate.Day t + n.
Proof. unfold JsDate.Day. apply Z.div_add. unfold JsDate.msPerDay. lia. Qed.

Lemma TimeWithinDay_plus (t n : Z) :
  JsDate.TimeWithinDay (t + n * JsDate.msPerDay) = JsDate.TimeWithinDay t.
Proof. unfold JsDate.TimeWithinDay. apply Z.mod_add. unfold JsDate.msPerDay. lia. Qed.

Lemma Day_midnight (day : Z) : JsDate.Day (day * JsDate.msPerDay) = day.
Proof. unfold JsDate.Day. apply Z.div_mul. unfold JsDate.msPerDay. lia. Qed.

Lemma TimeWithinDay_midnight (day : Z) : JsDate.TimeWithinDay (day * JsDate.msPerDay) = 0.
Proof. unfold JsDate.TimeWithinDay. apply Z.mod_mul. unfold JsDate.msPerDay. lia. Qed.

Lemma time_decompose (t : Z) :
  t = JsDate.Day t * JsDate.msPerDay + JsDate.TimeWithinDay t.
Proof.
  unfold JsDate.Day, JsDate.TimeWithinDay.
  pose proof (Z.div_mod t JsDate.msPerDay). unfold JsDate.msPerDay in *. lia.
Qed.

Lemma getDay_range (tz d : Z) : 0 <= JsDate.getDay tz d <= 6.
Proof.
  unfold JsDate.getDay, JsDate.WeekDay.
  pose proof (Z.mod_pos_bound (JsDate.Day (JsDate.LocalTime tz d) + 4) 7). lia.
Qed.

Lemma getDay_plusDays (tz d n : Z) :
  JsDate.getDay tz (JsDate.plusDays d n) = (JsDate.getDay tz d + n) mod 7.
Proof.
  unfold JsDate.getDay, JsDate.WeekDay, JsDate.plusDays, JsDate.LocalTime.
  replace (d + n * JsDate.msPerDay + tz) with (d + tz + n * JsDate.msPerDay) by lia.
  rewrite Day_plus, Z.add_mod_idemp_l by lia. f_equal. lia.
Qed.

(** The year of a day is determined by the year's first and last day. *)
Lemma YearFromDay_unique (y d : Z) :
  JsDate.DayFromYear y <= d < JsDate.DayFromYear (y + 1) -> JsDate.YearFromDay d = y.
Proof.
  intros [Hlo Hhi].
  pose proof (YearFromDay_largest d y Hlo) as Hle.
  pose proof (YearFromDay_spec d) as [Hs _].
  destruct (Z.eq_dec (JsDate.YearFromDay d) y) as [E|Hne]; [exact E|].
  pose proof (DayFromYear_mono (y + 1) (JsDate.YearFromDay d) ltac:(lia)). lia.
Qed.

Lemma monthStart_next (leap : bool) (m : Z) :
  0 <= m <= 10 ->
  JsDate.monthStart leap (m + 1) = JsDate.monthStart leap m + DaysInMonth leap m.
Proof.
  intros Hm. month_cases m H; subst; try lia; destruct leap; reflexivity.
Qed.

Lemma monthStart_december (leap : bool) :
  JsDate.monthStart leap 11 + DaysInMonth leap 11 = if leap then 366 else 365.
Proof. destruct leap; reflexivity. Qed.

Lemma DaysInMonth_range (leap : bool) (m : Z) : 28 <= DaysInMonth leap m <= 31.
Proof.
  unfold DaysInMonth. destruct (m =? 1); [destruct leap; lia|].
  destruct (_ || _); lia.
Qed.

(** The fields of a day built from a year, a month and a day of that
    month are these three. *)
Lemma fields_of_MakeDay (y m d t : Z) :
  0 <= m <= 11 -> 1 <= d <= DaysInMonth (JsDate.isLeapYear y) m ->
  JsDate.Day t = JsDate.MakeDay y m d ->
  JsDate.YearFromTime t = y /\ JsDate.MonthFromTime t = m /\ JsDate.DateFromTime t = d.
Proof.
  intros Hm Hd Hday.
  unfold JsDate.MakeDay in Hday.
  rewrite Z.div_small, Z.mod_small, Z.add_0_r in Hday by lia.
  assert (Hy : JsDate.YearFromTime t = y).
  { unfold JsDate.YearFromTime. apply YearFromDay_unique. rewrite Hday.
    rewrite DaysInYear_step. unfold JsDate.DaysInYear.
    month_cases m H; subst m; destruct (JsDate.isLeapYear y);
      cbn in Hd |- *; lia. }
  assert (Hw : JsDate.DayWithinYear t = JsDate.monthStart (JsDate.isLeapYear y) m + d - 1).
  { unfold JsDate.DayWithinYear. rewrite Hy, Hday. lia. }
  assert (Hmonth : JsDate.MonthFromTime t = m).
  { unfold JsDate.MonthFromTime, JsDate.InLeapYear. rewrite Hw, Hy.
    month_cases m H; subst m; destruct (JsDate.isLeapYear y); cbn in Hd |- *;
      repeat (match goal with
              | |- context [if ?a <? ?b then _ else _] => destruct (Z.ltb_spec a b); try lia
              end); reflexivity. }
  split; [exact Hy|]. split; [exact Hmonth|].
  unfold JsDate.DateFromTime, JsDate.InLeapYear. rewrite Hw, Hmonth, Hy. lia.
Qed.

Lemma LocalTime_fromFields (tz y m d : Z) :
  ~ (0 <= y <= 99) ->
  JsDate.LocalTime tz (JsDate.fromFields tz y m d) = JsDate.MakeDay y m d * JsDate.msPerDay.
Proof.
  intros Hy. unfold JsDate.fromFields, JsDate.LocalTime, JsDate.UTC, JsDate.MakeDate.
  destruct (Z.leb_spec 0 y), (Z.leb_spec y 99); simpl; lia.
Qed.

(** X1. A calendar date of a year from 1000 to 9999 survives the trip
    through a local [Date]: [formatDateISO (createLocalDate s)] is [s]
    again.  (An earlier year comes back without its leading zeros.) *)
Theorem createLocalDate_formatDateISO (tz : Z) (s : DateStr) :
  calendar_date s ->
  exists d, DateUtils.createLocalDate tz (Some s) = Some d
            /\ DateUtils.formatDateISO tz d = s.
Proof.
  intros (Hy & Hm & Hd). eexists. split; [reflexivity|].
  unfold DateUtils.formatDateISO, JsDate.getFullYear, JsDate.getMonth, JsDate.getDate.
  rewrite LocalTime_fromFields by lia.
  destruct (fields_of_MakeDay (ds_year s) (ds_month s - 1) (ds_day s)
              (JsDate.MakeDay (ds_year s) (ds_month s - 1) (ds_day s) * JsDate.msPerDay))
    as (H1 & H2 & H3); [lia | exact Hd | apply Day_midnight |].
  rewrite H1, H2, H3. destruct s; simpl. f_equal. lia.
Qed.

(** X2. Formatting an instant of the year 100 or later and reading the
    string back gives the start of the instant's local day. *)
Theorem formatDateISO_createLocalDate (tz d : Z) :
  100 <= JsDate.getFullYear tz d ->
  DateUtils.createLocalDate tz (Some (DateUtils.formatDateISO tz d))
  = Some (DateUtils.getStartOfDay tz d).
Proof.
  intros Hy. unfold DateUtils.createLocalDate, DateUtils.formatDateISO. simpl.
  f_equal. unfold JsDate.fromFields.
  destruct (Z.leb_spec 0 (JsDate.getFullYear tz d)),
    (Z.leb_spec (JsDate.getFullYear tz d) 99); simpl; try lia;
    unfold DateUtils.getStartOfDay, JsDate.setHours, JsDate.getFullYear, JsDate.getMonth,
      JsDate.getDate;
    replace (JsDate.MonthFromTime (JsDate.LocalTime tz d) + 1 - 1)
      with (JsDate.MonthFromTime (JsDate.LocalTime tz d)) by lia;
    rewrite MakeDay_own_month; do 2 f_equal; lia.
Qed.

Lemma LocalTime_startOfToday (tz now : Z) :
  JsDate.LocalTime tz (DateUtils.startOfToday tz now)
  = JsDate.Day (JsDate.LocalTime tz now) * JsDate.msPerDay.
Proof.
  unfold DateUtils.startOfToday, JsDate.setHoursZero, JsDate.LocalTime, JsDate.UTC,
    JsDate.MakeDate. lia.
Qed.

Lemma LocalTime_createLocalDate (tz : Z) (s : DateStr) (d : Z) :
  DateUtils.createLocalDate tz (Some s) = Some d ->
  exists day, JsDate.LocalTime tz d = day * JsDate.msPerDay.
Proof.
  intros [= <-]. unfold JsDate.fromFields, JsDate.LocalTime, JsDate.UTC, JsDate.MakeDate.
  eexists. rewrite Z.add_0_r, Z.sub_add. reflexivity.
Qed.

(** Two local midnights with the same date string are the same instant. *)
Lemma midnight_dateString_eq (tz a b da db : Z) :
  JsDate.LocalTime tz a = da * JsDate.msPerDay ->
  JsDate.LocalTime tz b = db * JsDate.msPerDay ->
  (JsDate.dateString_eqb (JsDate.toDateString tz a) (JsDate.toDateString tz b) = true
   <-> a = b).
Proof.
  intros Ha Hb. split.
  - unfold JsDate.toDateString, JsDate.dateString_eqb, JsDate.getDay, JsDate.getMonth,
      JsDate.getDate, JsDate.getFullYear.
    rewrite !andb_true_iff, !Z.eqb_eq. intros [[[_ Hm] Hd] Hy].
    pose proof (MakeDay_own_month (JsDate.LocalTime tz a)
                  (JsDate.DateFromTime (JsDate.LocalTime tz a))) as Ea.
    pose proof (MakeDay_own_month (JsDate.LocalTime tz b)
                  (JsDate.DateFromTime (JsDate.LocalTime tz b))) as Eb.
    rewrite Hm, Hd, Hy, Eb in Ea.
    rewrite Ha, Hb, !Day_midnight in Ea.
    unfold JsDate.LocalTime in Ha, Hb. lia.
  - intros ->. unfold JsDate.dateString_eqb.
    destruct (JsDate.toDateString tz b) as [[[w m] d] y].
    now rewrite !Z.eqb_refl.
Qed.

Lemma isTaskDueToday_iff (tz now : Z) (task : Task.t) :
  DateUtils.isTaskDueToday tz now task = true
  <-> DateUtils.createLocalDate tz (Task.dueDate task) = Some (DateUtils.startOfToday tz now).
Proof.
  unfold DateUtils.isTaskDueToday.
  destruct (Task.dueDate task) as [s|]; [|simpl; split; discriminate].
  destruct (DateUtils.createLocalDate tz (Some s)) as [d|] eqn:E; [|discriminate].
  destruct (LocalTime_createLocalDate tz s d E) as [day Hd].
  rewrite (midnight_dateString_eq tz _ _ _ _ (LocalTime_startOfToday tz now) Hd).
  split; congruence.
Qed.

Lemma isTaskUpcoming_iff (tz now : Z) (task : Task.t) :
  DateUtils.isTaskUpcoming tz now task = true
  <-> exists d, DateUtils.createLocalDate tz (Task.dueDate task) = Some d
                /\ DateUtils.startOfToday tz now < d
                   <= JsDate.plusDays (DateUtils.startOfToday tz now) 7.
Proof.
  unfold DateUtils.isTaskUpcoming.
  destruct (DateUtils.createLocalDate tz (Task.dueDate task)) as [d|].
  - rewrite setDate_plusDays, andb_true_iff, Z.ltb_lt, Z.leb_le. split.
    + intros [? ?]. exists d. auto.
    + intros (d' & [= <-] & ? & ?). auto.
  - split; [discriminate | intros (d' & E & _); discriminate].
Qed.

Lemma isTaskOverdue_iff (tz now : Z) (task : Task.t) :
  DateUtils.isTaskOverdue tz now task = true
  <-> exists d, DateUtils.createLocalDate tz (Task.dueDate task) = Some d
                /\ d < DateUtils.startOfToday tz now /\ Task.completed task = false.
Proof.
  unfold DateUtils.isTaskOverdue.
  destruct (DateUtils.createLocalDate tz (Task.dueDate task)) as [d|].
  - destruct (Task.completed task).
    + split; [discriminate | intros (d' & _ & _ & E); discriminate].
    + rewrite Z.ltb_lt. split; [intros; exists d; auto | intros (d' & [= <-] & ? & _); auto].
  - split; [discriminate | intros (d' & E & _); discriminate].
Qed.

(** No task carries two of the urgency marks. *)
Lemma urgency_exclusive (tz now : Z) (task : Task.t) :
  (DateUtils.isTaskDueToday tz now task && DateUtils.isTaskUpcoming tz now task = false)
  /\ (DateUtils.isTaskDueToday tz now task && DateUtils.isTaskOverdue tz now task = false)
  /\ (DateUtils.isTaskUpcoming tz now task && DateUtils.isTaskOverdue tz now task = false).
Proof.
  repeat split; apply not_true_is_false; intros H; apply andb_true_iff in H;
    destruct H as [A B].
  - apply isTaskDueToday_iff in A. apply isTaskUpcoming_iff in B.
    destruct B as (d & E & ? & ?). rewrite A in E. injection E as <-. lia.
  - apply isTaskDueToday_iff in A. apply isTaskOverdue_iff in B.
    destruct B as (d & E & ? & ?). rewrite A in E. injection E as <-. lia.
  - apply isTaskUpcoming_iff in A. apply isTaskOverdue_iff in B.
    destruct A as (d & E & ? & ?), B as (d' & E' & ? & ?).
    rewrite E in E'. injection E' as <-. lia.
Qed.

(** X3. The three urgency marks read the due date against the local day:
    due today is the very start of today, upcoming is after it and at most
    seven days later, overdue is before it on a task that is not completed;
    no task carries two of the marks. *)
Theorem urgency_marks (tz now : Z) (task : Task.t) :
  let today := DateUtils.startOfToday tz now in
  let due := DateUtils.createLocalDate tz (Task.dueDate task) in
  (DateUtils.isTaskDueToday tz now task = true <-> due = Some today)
  /\ (DateUtils.isTaskUpcoming tz now task = true
      <-> exists d, due = Some d /\ today < d <= JsDate.plusDays today 7)
  /\ (DateUtils.isTaskOverdue tz now task = true
      <-> exists d, due = Some d /\ d < today /\ Task.completed task = false)
  /\ (DateUtils.isTaskDueToday tz now task && DateUtils.isTaskUpcoming tz now task = false)
  /\ (DateUtils.isTaskDueToday tz now task && DateUtils.isTaskOverdue tz now task = false)
  /\ (DateUtils.isTaskUpcoming tz now task && DateUtils.isTaskOverdue tz now task = false).
Proof.
  intros today due.
  split; [apply isTaskDueToday_iff|]. split; [apply isTaskUpcoming_iff|].
  split; [apply isTaskOverdue_iff|]. apply urgency_exclusive.
Qed.

(** How the weekly branch picks its weekday: the smallest selected weekday
    after the due date's, or else the smallest selected weekday at all. *)
Lemma weekly_next_cases (tz : Z) (task : Task.t) (due : DateStr) :
  Task.dueDate task = Some due ->
  Task.recurrenceType task = Some "weekly" ->
  DateUtils.selectedWeekdaysOf task <> [] ->
  let base := JsDate.fromFields tz (ds_year due) (ds_month due - 1) (ds_day due) in
  let W := DateUtils.selectedWeekdaysOf task in
  let c := JsDate.getDay tz base in
  exists w,
    In w W
    /\ ((c < w /\ (forall w', In w' W -> c < w' -> w <= w')
         /\ DateUtils.calculateNextRecurrenceDate tz task = Some (JsDate.plusDays base (w - c)))
        \/ ((forall w', In w' W -> w' <= c) /\ (forall w', In w' W -> w <= w')
            /\ DateUtils.calculateNextRecurrenceDate tz task
               = Some (JsDate.plusDays base (7 - c + w)))).
Proof.
  intros Hdue Hty Hne base W c.
  pose proof (weekdays_sorted W) as Hs.
  pose proof (sortWith_In (fun a b => a - b) W) as HIn.
  unfold DateUtils.calculateNextRecurrenceDate.
  rewrite Hdue, Hty.
  cbn -[DateUtils.addDays JsDate.fromFields JsDate.getDay sortWith].
  fold base. fold W. fold c.
  destruct W as [|w0 r] eqn:EW; [contradiction|]. rewrite <- EW in *.
  destruct (List.find _ _) as [w1|] eqn:Hf.
  - pose proof (find_sorted_min Z.le _ _ _ Hs Z.le_refl Hf) as Hmin.
    apply find_some in Hf. destruct Hf as [Hw1 Hc1].
    apply HIn in Hw1. apply Z.ltb_lt in Hc1.
    exists w1. split; [exact Hw1|]. left. split; [exact Hc1|]. split.
    + intros w' Hw' Hc'. apply Hmin; [now apply HIn | now apply Z.ltb_lt].
    + now rewrite addDays_plusDays.
  - assert (Hall : forall w', In w' W -> w' <= c).
    { intros w' Hw'. pose proof (find_none _ _ Hf w' (proj2 (HIn w') Hw')) as Hn.
      simpl in Hn. now apply Z.ltb_ge in Hn. }
    destruct (sortWith (fun a b => a - b) W) as [|s0 rest] eqn:ES.
    + exfalso. assert (In w0 W) by (rewrite EW; now left).
      apply HIn in H. destruct H.
    + exists s0. split; [apply HIn; now left|]. right. split; [exact Hall|]. split.
      * intros w' Hw'. apply HIn in Hw'. inversion Hs as [|? ? _ Hfa]; subst.
        rewrite List.Forall_forall in Hfa. destruct Hw' as [<-|Hw']; [lia | auto].
      * now rewrite addDays_plusDays.
Qed.

Lemma weekly_next_offset (tz : Z) (task : Task.t) (due : DateStr) :
  Task.dueDate task = Some due ->
  Task.recurrenceType task = Some "weekly" ->
  DateUtils.selectedWeekdaysOf task <> [] ->
  (forall w, In w (DateUtils.selectedWeekdaysOf task) -> 0 <= w <= 6) ->
  exists n,
    DateUtils.calculateNextRecurrenceDate tz task
    = Some (JsDate.plusDays
              (JsDate.fromFields tz (ds_year due) (ds_month due - 1) (ds_day due)) n)
    /\ 1 <= n <= 7.
Proof.
  intros Hdue Hty Hne Hrange.
  destruct (weekly_next_cases tz task due Hdue Hty Hne) as (w & Hw & Hcase).
  pose proof (getDay_range tz
                (JsDate.fromFields tz (ds_year due) (ds_month due - 1) (ds_day due))) as Hc.
  pose proof (Hrange w Hw) as Hwr.
  destruct Hcase as [(Hlt & _ & Hnext) | (Hall & _ & Hnext)].
  - eexists. split; [exact Hnext | lia].
  - pose proof (Hall w Hw). eexists. split; [exact Hnext | lia].
Qed.

(** X4. With weekdays 0..6 selected, the weekly next occurrence is the
    first day after the due date whose weekday is selected: it comes 1 to 7
    days later, falls on a selected weekday, and no day in between does. *)
Theorem weekly_next_is_nearest (tz : Z) (task : Task.t) (due : DateStr) :
  Task.dueDate task = Some due ->
  Task.recurrenceType task = Some "weekly" ->
  DateUtils.selectedWeekdaysOf task <> [] ->
  (forall w, In w (DateUtils.selectedWeekdaysOf task) -> 0 <= w <= 6) ->
  let base := JsDate.fromFields tz (ds_year due) (ds_month due - 1) (ds_day due) in
  exists n,
    DateUtils.calculateNextRecurrenceDate tz task = Some (JsDate.plusDays base n)
    /\ 1 <= n <= 7
    /\ In (JsDate.getDay tz (JsDate.plusDays base n)) (DateUtils.selectedWeekdaysOf task)
    /\ forall k, 1 <= k < n ->
         ~ In (JsDate.getDay tz (JsDate.plusDays base k)) (DateUtils.selectedWeekdaysOf task).
Proof.
  intros Hdue Hty Hne Hrange base.
  destruct (weekly_next_cases tz task due Hdue Hty Hne) as (w & Hw & Hcase).
  fold base in Hcase.
  pose proof (getDay_range tz base) as Hc.
  pose proof (Hrange w Hw) as Hwr.
  destruct Hcase as [(Hlt & Hmin & Hnext) | (Hall & Hmin & Hnext)].
  - exists (w - JsDate.getDay tz base). split; [exact Hnext|]. split; [lia|]. split.
    + rewrite getDay_plusDays.
      replace (JsDate.getDay tz base + (w - JsDate.getDay tz base)) with w by lia.
      rewrite Z.mod_small by lia. exact Hw.
    + intros k Hk Hin. rewrite getDay_plusDays, Z.mod_small in Hin by lia.
      specialize (Hmin _ Hin). lia.
  - pose proof (Hall w Hw) as Hwc.
    exists (7 - JsDate.getDay tz base + w). split; [exact Hnext|]. split; [lia|]. split.
    + rewrite getDay_plusDays.
      replace (JsDate.getDay tz base + (7 - JsDate.getDay tz base + w)) with (w + 1 * 7) by lia.
      rewrite Z.mod_add, Z.mod_small by lia. exact Hw.
    + intros k Hk Hin. rewrite getDay_plusDays in Hin.
      destruct (Z.le_gt_cases 7 (JsDate.getDay tz base + k)) as [Hge|Hlt].
      * replace (JsDate.getDay tz base + k)
          with (JsDate.getDay tz base + k - 7 + 1 * 7) in Hin by lia.
        rewrite Z.mod_add, Z.mod_small in Hin by lia.
        specialize (Hmin _ Hin). lia.
      * rewrite Z.mod_small in Hin by lia. specialize (Hall _ Hin). lia.
Qed.

Lemma MakeDay_next_month (y m d : Z) :
  0 <= m <= 11 ->
  JsDate.MakeDay y (m + 1) d = JsDate.MakeDay y m d + DaysInMonth (JsDate.isLeapYear y) m.
Proof.
  intros Hm. unfold JsDate.MakeDay.
  destruct (Z.eq_dec m 11) as [->|Hne].
  - change ((11 + 1) / 12) with 1. change ((11 + 1) mod 12) with 0.
    change (11 / 12) with 0. change (11 mod 12) with 11.
    change (JsDate.monthStart (JsDate.isLeapYear (y + 1)) 0) with 0.
    rewrite !Z.add_0_r, DaysInYear_step. unfold JsDate.DaysInYear.
    pose proof (monthStart_december (JsDate.isLeapYear y)) as Hdec.
    destruct (JsDate.isLeapYear y); lia.
  - rewrite !Z.div_small, !Z.mod_small, Z.add_0_r by lia.
    rewrite monthStart_next by lia. lia.
Qed.

Lemma setMonth_succ (tz d : Z) :
  JsDate.setMonth tz d (JsDate.getMonth tz d + 1)
  = JsDate.plusDays d (DaysInMonth (JsDate.isLeapYear (JsDate.getFullYear tz d))
                                   (JsDate.getMonth tz d)).
Proof.
  unfold JsDate.setMonth, JsDate.getMonth, JsDate.getFullYear, JsDate.plusDays.
  rewrite MakeDay_next_month by apply MonthFromTime_range.
  rewrite MakeDay_own_month.
  unfold JsDate.UTC, JsDate.MakeDate.
  pose proof (time_decompose (JsDate.LocalTime tz d)) as Hdec.
  unfold JsDate.LocalTime in *. lia.
Qed.

Lemma monthStart_leap (m : Z) :
  0 <= m <= 11 ->
  JsDate.monthStart true m = JsDate.monthStart false m + (if m <=? 1 then 0 else 1).
Proof.
  intros Hm. month_cases m H; subst; reflexivity.
Qed.

Lemma leap_years_apart (y : Z) :
  JsDate.isLeapYear y = true -> JsDate.isLeapYear (y + 1) = false.
Proof.
  unfold JsDate.isLeapYear. rewrite andb_true_iff, Z.eqb_eq. intros [H4 _].
  apply andb_false_iff. left. apply Z.eqb_neq. Z.div_mod_to_equations. lia.
Qed.

Lemma MakeDay_next_year (y m d : Z) :
  0 <= m <= 11 ->
  exists n, 365 <= n <= 366 /\ JsDate.MakeDay (y + 1) m d = JsDate.MakeDay y m d + n.
Proof.
  intros Hm. exists (JsDate.MakeDay (y + 1) m d - JsDate.MakeDay y m d).
  split; [|lia]. unfold JsDate.MakeDay.
  rewrite Z.div_small, Z.mod_small, !Z.add_0_r by lia.
  rewrite DaysInYear_step. unfold JsDate.DaysInYear.
  pose proof (leap_years_apart y) as Hleap.
  pose proof (monthStart_leap m Hm) as Hms.
  destruct (JsDate.isLeapYear y), (JsDate.isLeapYear (y + 1));
    try (specialize (Hleap eq_refl); discriminate);
    destruct (m <=? 1); lia.
Qed.

Lemma setFullYear_succ (tz d : Z) :
  exists n, 365 <= n <= 366
            /\ JsDate.setFullYear tz d (JsDate.getFullYear tz d + 1) = JsDate.plusDays d n.
Proof.
  unfold JsDate.setFullYear, JsDate.getFullYear, JsDate.plusDays.
  set (t := JsDate.LocalTime tz d).
  destruct (MakeDay_next_year (JsDate.YearFromTime t) (JsDate.MonthFromTime t)
              (JsDate.DateFromTime t) (MonthFromTime_range t)) as (n & Hn & E).
  exists n. split; [exact Hn|]. rewrite E.
  pose proof (MakeDay_own_month t (JsDate.DateFromTime t)) as Hown. rewrite Hown.
  unfold JsDate.UTC, JsDate.MakeDate. subst t.
  pose proof (time_decompose (JsDate.LocalTime tz d)) as Hdec.
  unfold JsDate.LocalTime in *. lia.
Qed.

(** The branches of [calculateNextRecurrenceDate], one by one. *)
Lemma next_of_type (tz : Z) (task : Task.t) (due : DateStr) (ty : string) :
  Task.dueDate task = Some due ->
  Task.recurrenceType task = Some ty ->
  let base := JsDate.fromFields tz (ds_year due) (ds_month due - 1) (ds_day due) in
  (ty = "daily" ->
   DateUtils.calculateNextRecurrenceDate tz task = Some (JsDate.plusDays base 1))
  /\ (ty = "weekly" -> DateUtils.selectedWeekdaysOf task = [] ->
      DateUtils.calculateNextRecurrenceDate tz task = Some (JsDate.plusDays base 7))
  /\ (ty = "monthly" ->
      DateUtils.calculateNextRecurrenceDate tz task
      = Some (JsDate.setMonth tz base (JsDate.getMonth tz base + 1)))
  /\ (ty = "yearly" ->
      DateUtils.calculateNextRecurrenceDate tz task
      = Some (JsDate.setFullYear tz base (JsDate.getFullYear tz base + 1)))
  /\ (ty <> "daily" -> ty <> "weekly" -> ty <> "monthly" -> ty <> "yearly" ->
      DateUtils.calculateNextRecurrenceDate tz task = None).
Proof.
  intros Hdue Hty base. unfold DateUtils.calculateNextRecurrenceDate.
  rewrite Hdue, Hty. repeat split.
  - intros ->. cbn -[DateUtils.addDays JsDate.fromFields].
    now rewrite addDays_plusDays.
  - intros -> HW. cbn -[DateUtils.addDays JsDate.fromFields JsDate.getDay sortWith].
    rewrite HW. now rewrite addDays_plusDays.
  - intros ->. reflexivity.
  - intros ->. reflexivity.
  - intros H1 H2 H3 H4. cbn -[DateUtils.addDays DateUtils.addMonths DateUtils.addYears
                              JsDate.fromFields JsDate.getDay sortWith String.eqb].
    destruct (String.eqb ty ""); [reflexivity|].
    apply String.eqb_neq in H1, H2, H3, H4.
    cbn -[DateUtils.addDays DateUtils.addMonths DateUtils.addYears
          JsDate.fromFields JsDate.getDay sortWith String.eqb].
    now rewrite H1, H2, H3, H4.
Qed.

(** X5. How far each recurrence type moves a due date: daily by one day,
    weekly (weekdays 0..6, or none selected) by 1 to 7 days, monthly by the
    length of the due date's own month, yearly by 365 or 366 days.  The next
    occurrence is always later than the due date. *)
Theorem next_recurrence_offset (tz : Z) (task : Task.t) (due : DateStr) (next : Z) :
  Task.dueDate task = Some due ->
  (forall w, In w (DateUtils.selectedWeekdaysOf task) -> 0 <= w <= 6) ->
  DateUtils.calculateNextRecurrenceDate tz task = Some next ->
  let base := JsDate.fromFields tz (ds_year due) (ds_month due - 1) (ds_day due) in
  exists n,
    next = JsDate.plusDays base n
    /\ base < next
    /\ (Task.recurrenceType task = Some "daily" -> n = 1)
    /\ (Task.recurrenceType task = Some "weekly" -> 1 <= n <= 7)
    /\ (Task.recurrenceType task = Some "monthly" ->
        n = DaysInMonth (JsDate.isLeapYear (JsDate.getFullYear tz base))
                        (JsDate.getMonth tz base))
    /\ (Task.recurrenceType task = Some "yearly" -> 365 <= n <= 366).
Proof.
  intros Hdue Hrange Hnext base.
  assert (Hpos : forall n, 1 <= n -> base < JsDate.plusDays base n).
  { intros n Hn. unfold JsDate.plusDays, JsDate.msPerDay. lia. }
  destruct (Task.recurrenceType task) as [ty|] eqn:Hty.
  2:{ unfold DateUtils.calculateNextRecurrenceDate in Hnext.
      rewrite Hdue, Hty in Hnext. discriminate. }
  destruct (next_of_type tz task due ty Hdue Hty) as (Hdaily & Hweekly & Hmonthly & Hyearly & Hother).
  fold base in Hdaily, Hweekly, Hmonthly, Hyearly.
  destruct (String.eqb_spec ty "daily") as [->|Hd].
  { rewrite (Hdaily eq_refl) in Hnext. injection Hnext as <-.
    exists 1. repeat split; try discriminate; auto. apply Hpos. lia. }
  destruct (String.eqb_spec ty "weekly") as [->|Hw].
  { destruct (DateUtils.selectedWeekdaysOf task) as [|w0 r] eqn:EW.
    - rewrite (Hweekly eq_refl eq_refl) in Hnext. injection Hnext as <-.
      exists 7. repeat split; try discriminate; try lia. apply Hpos. lia.
    - destruct (weekly_next_offset tz task due Hdue Hty) as (n & Hn & Hb);
        [rewrite EW; discriminate | rewrite EW; exact Hrange |].
      fold base in Hn. rewrite Hn in Hnext. injection Hnext as <-.
      exists n. repeat split; try discriminate; try lia. apply Hpos. lia. }
  destruct (String.eqb_spec ty "monthly") as [->|Hm].
  { rewrite (Hmonthly eq_refl), setMonth_succ in Hnext. injection Hnext as <-.
    eexists. split; [reflexivity|].
    pose proof (DaysInMonth_range (JsDate.isLeapYear (JsDate.getFullYear tz base))
                  (JsDate.getMonth tz base)).
    repeat split; try discriminate; auto. apply Hpos. lia. }
  destruct (String.eqb_spec ty "yearly") as [->|Hy].
  { destruct (setFullYear_succ tz base) as (n & Hn & E).
    rewrite (Hyearly eq_refl), E in Hnext. injection Hnext as <-.
    exists n. repeat split; try discriminate; try lia. apply Hpos. lia. }
  rewrite Hother in Hnext by assumption. discriminate.
Qed.

Lemma fields_same_day (t1 t2 : Z) :
  JsDate.Day t1 = JsDate.Day t2 ->
  JsDate.YearFromTime t1 = JsDate.YearFromTime t2
  /\ JsDate.MonthFromTime t1 = JsDate.MonthFromTime t2
  /\ JsDate.DateFromTime t1 = JsDate.DateFromTime t2
  /\ JsDate.WeekDay t1 = JsDate.WeekDay t2.
Proof.
  intros H.
  unfold JsDate.DateFromTime, JsDate.MonthFromTime, JsDate.InLeapYear, JsDate.DayWithinYear,
    JsDate.YearFromTime, JsDate.WeekDay.
  rewrite H. auto.
Qed.

Lemma dateString_eq_iff_day (tz a b : Z) :
  JsDate.dateString_eqb (JsDate.toDateString tz a) (JsDate.toDateString tz b) = true
  <-> JsDate.Day (JsDate.LocalTime tz a) = JsDate.Day (JsDate.LocalTime tz b).
Proof.
  unfold JsDate.toDateString, JsDate.dateString_eqb, JsDate.getDay, JsDate.getMonth,
    JsDate.getDate, JsDate.getFullYear.
  rewrite !andb_true_iff, !Z.eqb_eq. split.
  - intros [[[_ Hm] Hd] Hy].
    pose proof (MakeDay_own_month (JsDate.LocalTime tz a)
                  (JsDate.DateFromTime (JsDate.LocalTime tz a))) as Ea.
    pose proof (MakeDay_own_month (JsDate.LocalTime tz b)
                  (JsDate.DateFromTime (JsDate.LocalTime tz b))) as Eb.
    rewrite Hm, Hd, Hy, Eb in Ea. lia.
  - intros H. destruct (fields_same_day _ _ H) as (? & ? & ? & ?). auto.
Qed.

Lemma LocalTime_setHours (tz d h m s ms : Z) :
  JsDate.LocalTime tz (JsDate.setHours tz d h m s ms)
  = JsDate.Day (JsDate.LocalTime tz d) * JsDate.msPerDay + JsDate.MakeTime h m s ms.
Proof.
  unfold JsDate.setHours, JsDate.LocalTime, JsDate.UTC, JsDate.MakeDate. lia.
Qed.

(** X6. [isSameDay] holds exactly for two instants of one local calendar
    day, that is, with the same start of day; an absent date is the same
    day as nothing. *)
Theorem isSameDay_iff (tz : Z) (date1 date2 : option Z) :
  DateUtils.isSameDay tz date1 date2 = true
  <-> exists d1 d2, date1 = Some d1 /\ date2 = Some d2
                    /\ DateUtils.getStartOfDay tz d1 = DateUtils.getStartOfDay tz d2.
Proof.
  unfold DateUtils.isSameDay.
  destruct date1 as [d1|], date2 as [d2|];
    try (split; [discriminate | intros (? & ? & ? & ? & _); discriminate]).
  rewrite dateString_eq_iff_day.
  unfold DateUtils.getStartOfDay, JsDate.setHours, JsDate.UTC, JsDate.MakeDate.
  change (JsDate.MakeTime 0 0 0 0) with 0.
  split.
  - intros H. exists d1, d2. rewrite H. auto.
  - intros (x & y & [= <-] & [= <-] & H). unfold JsDate.msPerDay in H. lia.
Qed.


(** X8. [getDaysBetween] counts the elapsed time in days of 24 hours and
    rounds up: a partly elapsed day counts as a whole one, a whole number of
    days is counted exactly, the count is positive exactly when the second
    instant is after the first, it grows with the second instant, and it is
    0 when a date is missing. *)
Theorem getDaysBetween_rounds_up (d e : Z) :
  let n := DateUtils.getDaysBetween (Some d) (Some e) in
  (n - 1) * JsDate.msPerDay < e - d <= n * JsDate.msPerDay
  /\ (forall a, DateUtils.getDaysBetween (Some d) (Some (d + a * JsDate.msPerDay)) = a)
  /\ (0 < n <-> d < e)
  /\ (forall e', e <= e' -> n <= DateUtils.getDaysBetween (Some d) (Some e'))
  /\ DateUtils.getDaysBetween None (Some e) = 0
  /\ DateUtils.getDaysBetween (Some d) None = 0.
Proof.
  assert (Hround : forall x,
             (DateUtils.getDaysBetween (Some d) (Some x) - 1) * JsDate.msPerDay < x - d
             /\ x - d <= DateUtils.getDaysBetween (Some d) (Some x) * JsDate.msPerDay).
  { intros x. unfold DateUtils.getDaysBetween, DateUtils.ceil_div, JsDate.msPerDay.
    change (1000 * 3600 * 24) with 86400000. Z.div_mod_to_equations. lia. }
  intros n. subst n.
  split; [apply Hround|]. split; [|split; [|split; [|split; reflexivity]]].
  - intros a. pose proof (Hround (d + a * JsDate.msPerDay)) as H.
    unfold JsDate.msPerDay in *. nia.
  - pose proof (Hround e) as H. unfold JsDate.msPerDay in *. lia.
  - intros e' He. pose proof (Hround e) as H. pose proof (Hround e') as H'.
    unfold JsDate.msPerDay in *. nia.
Qed.

Lemma MakeDay_year_carry (y m d : Z) :
  0 <= m <= 11 -> JsDate.MakeDay y (m + 12) d = JsDate.MakeDay (y + 1) m d.
Proof.
  intros Hm. unfold JsDate.MakeDay.
  replace (m + 12) with (m + 1 * 12) by lia.
  rewrite Z.div_add, Z.mod_add by lia.
  rewrite Z.div_small, Z.mod_small by lia.
  replace (y + (0 + 1)) with (y + 1 + 0) by lia. reflexivity.
Qed.

(** X9. Twelve months are a year: [addMonths date 12] is
    [addYears date 1]. *)
Theorem addMonths_12_addYears (tz date : Z) :
  DateUtils.addMonths tz date 12 = DateUtils.addYears tz date 1.
Proof.
  unfold DateUtils.addMonths, DateUtils.addYears, JsDate.setMonth, JsDate.setFullYear,
    JsDate.getMonth, JsDate.getFullYear.
  now rewrite MakeDay_year_carry by apply MonthFromTime_range.
Qed.

Lemma createLocalDate_formatDateISO_witness :
  calendar_date Samples.wednesday
  /\ exists d, DateUtils.createLocalDate Samples.tzBR (Some Samples.wednesday) = Some d
               /\ DateUtils.formatDateISO Samples.tzBR d = Samples.wednesday.
Proof.
  assert (H : calendar_date Samples.wednesday).
  { unfold calendar_date.
    replace (DaysInMonth _ _) with 31 by (vm_compute; reflexivity).
    simpl. lia. }
  split; [exact H | exact (createLocalDate_formatDateISO Samples.tzBR Samples.wednesday H)].
Defined.

Lemma formatDateISO_createLocalDate_witness :
  100 <= JsDate.getFullYear Samples.tzBR Samples.noon_2025_01_11
  /\ DateUtils.createLocalDate Samples.tzBR
       (Some (DateUtils.formatDateISO Samples.tzBR Samples.noon_2025_01_11))
     = Some (DateUtils.getStartOfDay Samples.tzBR Samples.noon_2025_01_11).
Proof.
  assert (H : 100 <= JsDate.getFullYear Samples.tzBR Samples.noon_2025_01_11).
  { replace (JsDate.getFullYear Samples.tzBR Samples.noon_2025_01_11) with 2025
      by (vm_compute; reflexivity). lia. }
  split; [exact H | exact (formatDateISO_createLocalDate Samples.tzBR _ H)].
Defined.

Lemma weekly_next_is_nearest_witness :
  let base := JsDate.fromFields Samples.tzBR 2025 0 1 in
  exists n,
    DateUtils.calculateNextRecurrenceDate Samples.tzBR Samples.weeklyTask
    = Some (JsDate.plusDays base n)
    /\ 1 <= n <= 7
    /\ In (JsDate.getDay Samples.tzBR (JsDate.plusDays base n))
          (DateUtils.selectedWeekdaysOf Samples.weeklyTask)
    /\ forall k, 1 <= k < n ->
         ~ In (JsDate.getDay Samples.tzBR (JsDate.plusDays base k))
              (DateUtils.selectedWeekdaysOf Samples.weeklyTask).
Proof.
  apply (weekly_next_is_nearest Samples.tzBR Samples.weeklyTask Samples.wednesday).
  - reflexivity.
  - reflexivity.
  - vm_compute. discriminate.
  - intros w Hw.
    replace (DateUtils.selectedWeekdaysOf Samples.weeklyTask) with [1; 3] in Hw
      by (vm_compute; reflexivity).
    simpl in Hw. lia.
Defined.

Lemma next_recurrence_offset_witness :
  let base := JsDate.fromFields Samples.tzBR 2025 0 10 in
  exists n,
    JsDate.plusDays base 1 = JsDate.plusDays base n
    /\ base < JsDate.plusDays base 1
    /\ (Task.recurrenceType Samples.dailyRoot = Some "daily" -> n = 1)
    /\ (Task.recurrenceType Samples.dailyRoot = Some "weekly" -> 1 <= n <= 7)
    /\ (Task.recurrenceType Samples.dailyRoot = Some "monthly" ->
        n = DaysInMonth (JsDate.isLeapYear (JsDate.getFullYear Samples.tzBR base))
                        (JsDate.getMonth Samples.tzBR base))
    /\ (Task.recurrenceType Samples.dailyRoot = Some "yearly" -> 365 <= n <= 366).
Proof.
  apply (next_recurrence_offset Samples.tzBR Samples.dailyRoot (mkDateStr 2025 1 10)).
  - reflexivity.
  - intros w Hw.
    replace (DateUtils.selectedWeekdaysOf Samples.dailyRoot) with (@nil Z) in Hw
      by (vm_compute; reflexivity).
    destruct Hw.
  - vm_compute. reflexivity.
Defined.

(** * The view kept by the incremental renderer *)

Lemma tracked_fields_equal_refl (a : Task.t) : tracked_fields_equal a a.
Proof. unfold tracked_fields_equal. repeat split; reflexivity. Qed.

Lemma tracked_fields_equal_trans (a b c : Task.t) :
  tracked_fields_equal a b -> tracked_fields_equal b c -> tracked_fields_equal a c.
Proof.
  unfold tracked_fields_equal.
  intros (A1 & A2 & A3 & A4 & A5 & A6 & A7 & A8 & A9 & A10 & A11)
         (B1 & B2 & B3 & B4 & B5 & B6 & B7 & B8 & B9 & B10 & B11).
  repeat split; try congruence. now rewrite A6.
Qed.

Lemma shown_ids_app (l1 l2 : list TaskRenderer.node) :
  shown_ids (l1 ++ l2) = (shown_ids l1 ++ shown_ids l2)%list.
Proof.
  unfold shown_ids. apply omap_app.
Qed.

Lemma shown_ids_cons (n : TaskRenderer.node) (l : list TaskRenderer.node) :
  shown_ids (n :: l)
  = match TaskRenderer.data_task_id n with
    | Some k => k :: shown_ids l
    | None => shown_ids l
    end.
Proof. reflexivity. Qed.

Lemma shown_ids_In (k : string) (children : list TaskRenderer.node) :
  In k (shown_ids children)
  <-> exists n, In n children /\ TaskRenderer.data_task_id n = Some k.
Proof.
  induction children as [|n l IH].
  - split; [intros [] | intros (? & [] & _)].
  - rewrite shown_ids_cons.
    destruct (TaskRenderer.data_task_id n) as [k'|] eqn:E; simpl; rewrite ?IH; split.
    + intros [->|(m & Hm & Hk)]; eauto.
    + intros (m & [<-|Hm] & Hk); [left; congruence | right; eauto].
    + intros (m & Hm & Hk); eauto.
    + intros (m & [<-|Hm] & Hk); [congruence | eauto].
Qed.

Lemma shown_ids_filter (q : option string -> bool) (children : list TaskRenderer.node) :
  shown_ids (List.filter (fun n => q (TaskRenderer.data_task_id n)) children)
  = List.filter (fun k => q (Some k)) (shown_ids children).
Proof.
  induction children as [|n l IH]; [reflexivity|].
  rewrite shown_ids_cons. simpl List.filter.
  destruct (TaskRenderer.data_task_id n) as [k|] eqn:E; simpl List.filter.
  - destruct (q (Some k)); rewrite ?shown_ids_cons, ?E, IH; reflexivity.
  - destruct (q None); rewrite ?shown_ids_cons, ?E, IH; reflexivity.
Qed.

Lemma shown_ids_map_items (f : Task.t -> TaskRenderer.TaskHTML) (tasks : list Task.t) :
  (forall t, Task.id (TaskRenderer.html_task (f t)) = Task.id t) ->
  shown_ids (map (fun task => TaskRenderer.TaskItem (f task)) tasks) = map Task.id tasks.
Proof.
  intros Hf. induction tasks as [|t l IH]; [reflexivity|].
  simpl map. rewrite shown_ids_cons. simpl. now rewrite Hf, IH.
Qed.

Lemma filter_noop {A} (p : A -> bool) (l : list A) :
  (forall x, In x l -> p x = true) -> List.filter p l = l.
Proof.
  induction l as [|a l IH]; simpl; intros H; [reflexivity|].
  rewrite (H a (or_introl eq_refl)), IH; auto.
Qed.

Lemma filter_filter_and {A} (p q : A -> bool) (l : list A) :
  List.filter q (List.filter p l) = List.filter (fun x => p x && q x) l.
Proof.
  induction l as [|a l IH]; simpl; [reflexivity|].
  destruct (p a); simpl; [destruct (q a)|]; now rewrite IH.
Qed.

Lemma NoDup_filter_list {A} (p : A -> bool) (l : list A) :
  List.NoDup l -> List.NoDup (List.filter p l).
Proof.
  induction 1 as [|a l Hn _ IH]; simpl; [constructor|].
  destruct (p a); [constructor|]; auto.
  rewrite filter_In. tauto.
Qed.

(** Removing the first element with id [r] from a view without repeated
    ids removes every element with that id. *)
Lemma remove_first_filter (r : string) (children : list TaskRenderer.node) :
  List.NoDup (shown_ids children) ->
  match findIndex (fun n => same_string r (TaskRenderer.data_task_id n)) children with
  | Some i => delete i children
  | None => children
  end
  = List.filter (fun n => negb (same_string r (TaskRenderer.data_task_id n))) children.
Proof.
  induction children as [|n l IH]; intros Hnd; simpl; [reflexivity|].
  destruct (same_string r (TaskRenderer.data_task_id n)) eqn:Hs; simpl.
  - symmetry. apply filter_noop. intros x Hx.
    destruct (same_string r (TaskRenderer.data_task_id x)) eqn:Hx'; [exfalso | reflexivity].
    destruct (TaskRenderer.data_task_id n) as [k|] eqn:Ek; [|discriminate].
    destruct (TaskRenderer.data_task_id x) as [k'|] eqn:Ek'; [|discriminate].
    simpl in Hs, Hx'. apply String.eqb_eq in Hs, Hx'. subst k k'.
    rewrite shown_ids_cons, Ek in Hnd.
    apply NoDup_cons_iff in Hnd as [Hnotin _]. apply Hnotin.
    apply (shown_ids_In r l). eauto.
  - assert (Hnd' : List.NoDup (shown_ids l)).
    { rewrite shown_ids_cons in Hnd.
      destruct (TaskRenderer.data_task_id n); [now apply NoDup_cons_iff in Hnd|exact Hnd]. }
    specialize (IH Hnd').
    destruct (findIndex _ l) as [i|]; simpl; now rewrite <- IH.
Qed.

Lemma forEachM_cons {A S} (f : S -> A -> result S) (x : A) (r : list A) (s : S) :
  RenderController.forEachM f (x :: r) s
  = rbind (f s x) (fun s' => RenderController.forEachM f r s').
Proof. reflexivity. Qed.

Lemma remove_phase (br : RenderController.Browser) (rs : list string) :
  (forall r, In r rs -> RenderController.invalidSelector br r = false) ->
  forall children, List.NoDup (shown_ids children) ->
  RenderController.forEachM
    (fun children taskId =>
       let! taskElement := RenderController.querySelector br children taskId in
       match taskElement with
       | Some i => Ok (delete i children)
       | None => Ok children
       end) rs children
  = Ok (List.filter
          (fun n => negb (existsb (fun r => same_string r (TaskRenderer.data_task_id n)) rs))
          children).
Proof.
  induction rs as [|r rs IH]; intros Hbr children Hnd.
  - simpl. now rewrite filter_noop.
  - rewrite forEachM_cons. unfold RenderController.querySelector at 1.
    rewrite (Hbr r (or_introl eq_refl)). cbn [rbind].
    pose proof (remove_first_filter r children Hnd) as Hstep.
    assert (Hnd1 : List.NoDup (shown_ids (List.filter
                     (fun n => negb (same_string r (TaskRenderer.data_task_id n)))
                     children))).
    { rewrite (shown_ids_filter (fun o => negb (same_string r o))).
      now apply NoDup_filter_list. }
    assert (Hrest : forall r', In r' rs -> RenderController.invalidSelector br r' = false).
    { intros; apply Hbr; now right. }
    assert (Hgoal : RenderController.forEachM
              (fun children taskId =>
                 let! taskElement := RenderController.querySelector br children taskId in
                 match taskElement with
                 | Some i => Ok (delete i children)
                 | None => Ok children
                 end) rs
              (List.filter (fun n => negb (same_string r (TaskRenderer.data_task_id n)))
                           children)
            = Ok (List.filter
                    (fun n => negb (existsb (fun r => same_string r (TaskRenderer.data_task_id n))
                                            (r :: rs)))
                    children)).
    { rewrite (IH Hrest _ Hnd1), filter_filter_and. f_equal. apply filter_ext. intros n.
      simpl. now rewrite negb_orb. }
    rewrite <- Hgoal, <- Hstep.
    destruct (findIndex _ children) as [i|]; reflexivity.
Qed.

Lemma Forall2_compose {A} (R1 R2 R3 : A -> A -> Prop) (l1 l2 l3 : list A) :
  (forall a b c, R1 a b -> R2 b c -> R3 a c) ->
  Forall2 R1 l1 l2 -> Forall2 R2 l2 l3 -> Forall2 R3 l1 l3.
Proof.
  intros H H12. revert l3. induction H12 as [|a b l1 l2 Hab _ IH]; intros l3 H23.
  - inversion H23. constructor.
  - inversion H23; subst. constructor; eauto.
Qed.

Lemma replaced_by_ids (f : Task.t -> TaskRenderer.node) (ms : list Task.t)
    (l l2 : list TaskRenderer.node) :
  (forall t, TaskRenderer.data_task_id (f t) = Some (Task.id t)) ->
  Forall2 (replaced_by f ms) l l2 -> shown_ids l2 = shown_ids l.
Proof.
  intros Hf. induction 1 as [|n n2 l l2 Hn _ IH]; [reflexivity|].
  rewrite !shown_ids_cons, IH.
  destruct Hn as [[-> _]|(t & _ & -> & ->)]; [reflexivity | now rewrite Hf].
Qed.

Lemma replaced_by_nil (f : Task.t -> TaskRenderer.node) (l : list TaskRenderer.node) :
  Forall2 (replaced_by f []) l l.
Proof.
  induction l; constructor; auto. left. split; [reflexivity | intros t []].
Qed.

(** Replacing the first element with the id of [t] in a view without
    repeated ids replaces the only one. *)
Lemma replace_first (f : Task.t -> TaskRenderer.node) (t : Task.t)
    (children : list TaskRenderer.node) :
  List.NoDup (shown_ids children) ->
  Forall2 (replaced_by f [t]) children
    (match findIndex (fun n => same_string (Task.id t) (TaskRenderer.data_task_id n))
                     children with
     | Some i => <[i := f t]> children
     | None => children
     end).
Proof.
  induction children as [|n l IH]; intros Hnd; [constructor|].
  assert (Hnd' : List.NoDup (shown_ids l)).
  { rewrite shown_ids_cons in Hnd.
    destruct (TaskRenderer.data_task_id n); [now apply NoDup_cons_iff in Hnd | exact Hnd]. }
  simpl findIndex.
  destruct (same_string (Task.id t) (TaskRenderer.data_task_id n)) eqn:Hs.
  - destruct (TaskRenderer.data_task_id n) as [k|] eqn:Ek; [|discriminate].
    simpl in Hs. apply String.eqb_eq in Hs. subst k.
    rewrite shown_ids_cons, Ek in Hnd. apply NoDup_cons_iff in Hnd as [Hnotin _].
    simpl. constructor.
    + right. exists t. split; [now left | split; [reflexivity | exact Ek]].
    + clear IH. induction l as [|x l IHl]; constructor.
      * left. split; [reflexivity|]. intros t' [<-|[]] Hx. apply Hnotin.
        apply shown_ids_In. exists x. split; [now left | exact Hx].
      * apply IHl.
        -- intros Hin. apply Hnotin. apply shown_ids_In in Hin as (y & Hy & Hk).
           apply shown_ids_In. exists y. split; [now right | exact Hk].
        -- rewrite shown_ids_cons in Hnd'.
           destruct (TaskRenderer.data_task_id x);
             [now apply NoDup_cons_iff in Hnd' | exact Hnd'].
  - specialize (IH Hnd').
    assert (Hhead : replaced_by f [t] n n).
    { left. split; [reflexivity|]. intros t' [<-|[]] Hx. rewrite Hx in Hs. simpl in Hs.
      now rewrite String.eqb_refl in Hs. }
    destruct (findIndex _ l) as [i|]; simpl; constructor; auto.
Qed.

Lemma replaced_by_step (f : Task.t -> TaskRenderer.node) (t : Task.t) (ms : list Task.t)
    (a b c : TaskRenderer.node) :
  (forall t, TaskRenderer.data_task_id (f t) = Some (Task.id t)) ->
  replaced_by f [t] a b -> replaced_by f ms b c -> replaced_by f (t :: ms) a c.
Proof.
  intros Hf [[-> Ha]|(t1 & [<-|[]] & -> & Ha)] [[-> Hb]|(t2 & Ht2 & -> & Hb)].
  - left. split; [reflexivity|]. intros t' [<-|Ht']; [apply Ha; now left | now apply Hb].
  - right. exists t2. split; [now right | split; [reflexivity | exact Hb]].
  - right. exists t. split; [now left | split; [reflexivity | exact Ha]].
  - right. exists t2. split; [now right | split; [reflexivity|]].
    rewrite Hf in Hb. now rewrite Ha, Hb.
Qed.

Lemma replace_phase (br : RenderController.Browser) (categories : list Category)
    (tags : list Tag) (ms : list Task.t) :
  (forall t, In t ms -> RenderController.invalidSelector br (Task.id t) = false) ->
  forall children, List.NoDup (shown_ids children) ->
  exists children2,
    RenderController.forEachM
      (fun children task =>
         let! taskElement := RenderController.querySelector br children (Task.id task) in
         match taskElement with
         | Some i =>
             let newElement :=
               TaskRenderer.TaskItem (TaskRenderer.createTaskHTML task categories tags) in
             Ok (<[i := newElement]> children)
         | None => Ok children
         end) ms children
    = Ok children2
    /\ Forall2 (replaced_by
                  (fun task => TaskRenderer.TaskItem
                                 (TaskRenderer.createTaskHTML task categories tags)) ms)
               children children2.
Proof.
  set (f := fun task => TaskRenderer.TaskItem (TaskRenderer.createTaskHTML task categories tags)).
  assert (Hf : forall t, TaskRenderer.data_task_id (f t) = Some (Task.id t)) by reflexivity.
  induction ms as [|t ms IH]; intros Hbr children Hnd.
  - exists children. split; [reflexivity | apply replaced_by_nil].
  - rewrite forEachM_cons. unfold RenderController.querySelector at 1.
    rewrite (Hbr t (or_introl eq_refl)). cbn [rbind].
    pose proof (replace_first f t children Hnd) as Hstep.
    assert (Hrest : forall t', In t' ms ->
                      RenderController.invalidSelector br (Task.id t') = false).
    { intros; apply Hbr; now right. }
    destruct (findIndex _ children) as [i|].
    + assert (Hnd1 : List.NoDup (shown_ids (<[i := f t]> children))).
      { now rewrite (replaced_by_ids f [t] _ _ Hf Hstep). }
      destruct (IH Hrest _ Hnd1) as (children2 & Hrun & Hrel).
      exists children2. split; [exact Hrun|].
      eapply Forall2_compose; [|exact Hstep|exact Hrel].
      intros a b c. apply replaced_by_step. exact Hf.
    + destruct (IH Hrest _ Hnd) as (children2 & Hrun & Hrel).
      exists children2. split; [exact Hrun|].
      eapply Forall2_compose; [|exact Hstep|exact Hrel].
      intros a b c. apply replaced_by_step. exact Hf.
Qed.

Lemma removed_In (cur cache : JsMap.t Task.t) (r : string) :
  In r (flat_map (removed_of cur) cache)
  <-> In r (JsMap.keys cache) /\ JsMap.has cur r = false.
Proof.
  rewrite in_flat_map. unfold removed_of, JsMap.keys. rewrite in_map_iff. split.
  - intros ([k t] & He & Hr). simpl in Hr.
    destruct (JsMap.has cur k) eqn:Hh; simpl in Hr; [destruct Hr|].
    destruct Hr as [<-|[]]. split; [exists (k, t); auto | exact Hh].
  - intros (([k t] & <- & He) & Hh). exists (k, t). split; [exact He|].
    simpl in *. rewrite Hh. now left.
Qed.

Lemma modified_In (cache cur : JsMap.t Task.t) (t : Task.t) :
  In t (flat_map (modified_of cache) cur)
  <-> exists k last, In (k, t) cur /\ JsMap.get cache k = Some last
                     /\ RenderController.hasTaskChanged t last = true.
Proof.
  rewrite in_flat_map. unfold modified_of. split.
  - intros ([k t'] & He & Ht). simpl in Ht.
    destruct (JsMap.get cache k) as [last|] eqn:Hg; [|destruct Ht].
    destruct (RenderController.hasTaskChanged t' last) eqn:Hc; [|destruct Ht].
    destruct Ht as [<-|[]]. eauto.
  - intros (k & last & He & Hg & Hc). exists (k, t). split; [exact He|].
    simpl. rewrite Hg, Hc. now left.
Qed.

Lemma added_In (cache cur : JsMap.t Task.t) (t : Task.t) :
  In t (flat_map (added_of cache) cur)
  <-> exists k, In (k, t) cur /\ JsMap.get cache k = None.
Proof.
  rewrite in_flat_map. unfold added_of. split.
  - intros ([k t'] & He & Ht). simpl in Ht.
    destruct (JsMap.get cache k) as [last|] eqn:Hg; [destruct Ht|].
    destruct Ht as [<-|[]]. eauto.
  - intros (k & He & Hg). exists (k, t). split; [exact He|].
    simpl. rewrite Hg. now left.
Qed.

Lemma added_ids (cache cur : JsMap.t Task.t) :
  (forall k t, In (k, t) cur -> Task.id t = k) ->
  map Task.id (flat_map (added_of cache) cur)
  = List.filter (fun k => negb (JsMap.has cache k)) (JsMap.keys cur).
Proof.
  induction cur as [|[k t] cur IH]; intros Hid; [reflexivity|].
  simpl. rewrite map_app, IH by (intros; apply Hid; now right).
  unfold added_of at 1, JsMap.has. simpl.
  destruct (JsMap.get cache k); simpl; [reflexivity|].
  now rewrite (Hid k t (or_introl eq_refl)).
Qed.

Lemma currentTasksOf_entry (tasks : list Task.t) (k : string) (t : Task.t) :
  In (k, t) (RenderController.currentTasksOf tasks) ->
  JsMap.get (RenderController.currentTasksOf tasks) k = Some t
  /\ Task.id t = k /\ In t tasks.
Proof.
  intros He. destruct (currentTasksOf_spec tasks) as (Hnd & _ & Hget & _).
  pose proof (JsMap_In_get _ k t Hnd He) as Hg.
  split; [exact Hg | exact (Hget k t Hg)].
Qed.

Lemma JsMap_has_get {V} (m : JsMap.t V) (k : string) :
  JsMap.has m k = true <-> exists v, JsMap.get m k = Some v.
Proof.
  unfold JsMap.has. destruct (JsMap.get m k); simpl; split; eauto; try discriminate.
  intros (? & ?). discriminate.
Qed.

Lemma replaced_by_nil_eq (f : Task.t -> TaskRenderer.node) (l l2 : list TaskRenderer.node) :
  Forall2 (replaced_by f []) l l2 -> l2 = l.
Proof.
  induction 1 as [|a b l l2 [[-> _]|(t & [] & _)] _ IH]; [reflexivity | now rewrite IH].
Qed.

Lemma no_marker_existsb (l : list TaskRenderer.node) :
  Forall no_empty_marker l ->
  existsb (TaskRenderer.html_includes "Nenhuma tarefa encontrada") l = false.
Proof.
  induction 1 as [|n l Hn _ IH]; [reflexivity|].
  simpl existsb. unfold no_empty_marker in Hn. now rewrite Hn, IH.
Qed.

Section ViewSync.
Variable br : RenderController.Browser.
Variable categories : list Category.
Variable tags : list Tag.

Let item (task : Task.t) : TaskRenderer.node :=
  TaskRenderer.TaskItem (TaskRenderer.createTaskHTML task categories tags).

Lemma apply_updates_in_sync (cache : JsMap.t Task.t) (children : list TaskRenderer.node)
    (tasks : list Task.t) :
  tasks <> [] ->
  view_ready cache children ->
  (forall k, In k (JsMap.keys cache) -> RenderController.invalidSelector br k = false) ->
  (forall t, In t tasks -> RenderController.invalidSelector br (Task.id t) = false) ->
  (forall t, In t tasks -> no_empty_marker (item t)) ->
  let cur := RenderController.currentTasksOf tasks in
  let d := RenderController.diff cache cur in
  exists children',
    RenderController.applyIncrementalUpdates br children
      (RenderController.addedTasks d) (RenderController.modifiedTasks d)
      (RenderController.removedTaskIds d) categories tags = Ok children'
    /\ view_synced cur children'
    /\ Forall no_empty_marker children'
    /\ shown_ids children'
       = (List.filter (JsMap.has cur) (shown_ids children)
          ++ List.filter (fun k => negb (JsMap.has cache k)) (JsMap.keys cur))%list.
Proof.
  intros Hne Hready Hbr1 Hbr2 Hmark cur d.
  subst d. rewrite diff_flat_map.
  cbn [RenderController.addedTasks RenderController.modifiedTasks
       RenderController.removedTaskIds].
  set (added := flat_map (added_of cache) cur).
  set (modified := flat_map (modified_of cache) cur).
  set (removed := flat_map (removed_of cur) cache).
  destruct (currentTasksOf_spec tasks) as (HcurND & Hkeys & Hget & _).
  fold cur in HcurND, Hkeys, Hget.
  assert (Hentry : forall k t, In (k, t) cur ->
                     JsMap.get cur k = Some t /\ Task.id t = k /\ In t tasks).
  { intros k t. apply currentTasksOf_entry. }
  assert (Hnd : List.NoDup (shown_ids children)).
  { destruct Hready as [[(H & _) _] | (_ & m & -> & _)]; [exact H | constructor]. }
  assert (Hrem_valid : forall r, In r removed -> RenderController.invalidSelector br r = false).
  { intros r Hr. apply removed_In in Hr as [Hr _]. now apply Hbr1. }
  assert (Hmod_tasks : forall t, In t modified -> In t tasks).
  { intros t Ht. apply modified_In in Ht as (k & last & He & _). now apply Hentry in He. }
  assert (Hadd_tasks : forall t, In t added -> In t tasks).
  { intros t Ht. apply added_In in Ht as (k & He & _). now apply Hentry in He. }
  assert (Hmod_valid : forall t, In t modified ->
                         RenderController.invalidSelector br (Task.id t) = false).
  { intros t Ht. apply Hbr2. now apply Hmod_tasks. }
  unfold RenderController.applyIncrementalUpdates.
  rewrite (remove_phase br removed Hrem_valid children Hnd). cbn [rbind].
  set (keep := fun o : option string => negb (existsb (fun r => same_string r o) removed)).
  set (children1 := List.filter _ children).
  assert (Hids1 : shown_ids children1 = List.filter (fun k => keep (Some k)) (shown_ids children)).
  { apply (shown_ids_filter keep). }
  assert (Hnd1 : List.NoDup (shown_ids children1)).
  { rewrite Hids1. now apply NoDup_filter_list. }
  destruct (replace_phase br categories tags modified Hmod_valid children1 Hnd1)
    as (children2 & Hrun & Hrel).
  cbv zeta in Hrun. rewrite Hrun. cbn [rbind].
  fold item in Hrel |- *.
  assert (Hids2 : shown_ids children2 = shown_ids children1).
  { apply (replaced_by_ids item modified); [reflexivity | exact Hrel]. }
  assert (Hadded_ids : shown_ids (map item added)
                       = List.filter (fun k => negb (JsMap.has cache k)) (JsMap.keys cur)).
  { unfold item. rewrite shown_ids_map_items by reflexivity.
    apply added_ids. intros k t He. now apply Hentry in He. }
  assert (Hadded_sync : Forall (fun n => exists h last,
              n = TaskRenderer.TaskItem h
              /\ JsMap.get cur (Task.id (TaskRenderer.html_task h)) = Some last
              /\ tracked_fields_equal last (TaskRenderer.html_task h)) (map item added)).
  { apply List.Forall_forall. intros n Hn. apply in_map_iff in Hn as (t & <- & Ht).
    apply added_In in Ht as (k & He & _). apply Hentry in He as (Hg & <- & _).
    exists (TaskRenderer.createTaskHTML t categories tags), t.
    split; [reflexivity | split; [exact Hg | apply tracked_fields_equal_refl]]. }
  assert (Hadded_mark : Forall no_empty_marker (map item added)).
  { apply List.Forall_forall. intros n Hn. apply in_map_iff in Hn as (t & <- & Ht).
    apply Hmark. now apply Hadd_tasks. }
  destruct Hready as [[(_ & Hperm & Hnodes) Hnomark] | (-> & m & -> & Hm)].
  - (* the view was in sync with the cache *)
    assert (Hkeep : forall k, In k (shown_ids children) -> keep (Some k) = JsMap.has cur k).
    { intros k Hk. unfold keep.
      destruct (JsMap.has cur k) eqn:Hh.
      - apply negb_true_iff. apply not_true_is_false. intros Hex.
        apply existsb_exists in Hex as (r & Hr & Hrk). simpl in Hrk.
        apply String.eqb_eq in Hrk. subst r.
        apply removed_In in Hr as [_ Hr]. congruence.
      - apply negb_false_iff. apply existsb_exists. exists k. split.
        + apply removed_In. split; [|exact Hh].
          eapply Permutation_in; [exact Hperm | exact Hk].
        + simpl. apply String.eqb_refl. }
    assert (Hids1' : shown_ids children1 = List.filter (JsMap.has cur) (shown_ids children)).
    { rewrite Hids1. apply filter_ext_in. exact Hkeep. }
    assert (Hnodes2 : Forall (fun n => exists h last,
                n = TaskRenderer.TaskItem h
                /\ JsMap.get cur (Task.id (TaskRenderer.html_task h)) = Some last
                /\ tracked_fields_equal last (TaskRenderer.html_task h)) children2
              /\ Forall no_empty_marker children2).
    { assert (Hsub : forall n, In n children1 ->
                In n children /\ keep (TaskRenderer.data_task_id n) = true).
      { intros n Hn. unfold children1 in Hn. apply filter_In in Hn. exact Hn. }
      clear Hrun Hids2 Hids1 Hids1' Hnd1.
      induction Hrel as [|n n2 l l2 Hn _ IH]; [split; constructor|].
      destruct IH as [IH1 IH2]; [intros; apply Hsub; now right|].
      destruct (Hsub n (or_introl eq_refl)) as [Hin Hk].
      destruct Hn as [[-> Hnot]|(t & Ht & -> & _)].
      - rewrite List.Forall_forall in Hnodes, Hnomark.
        destruct (Hnodes n Hin) as (h & last & -> & Hlast & Heq).
        split; [|constructor; auto].
        constructor; [|exact IH1].
        simpl in Hk, Hnot.
        assert (Hshown : In (Task.id (TaskRenderer.html_task h)) (shown_ids children)).
        { apply shown_ids_In. eexists. split; [exact Hin | reflexivity]. }
        rewrite (Hkeep _ Hshown) in Hk.
        apply JsMap_has_get in Hk as (c & Hc).
        exists h, c. split; [reflexivity | split; [exact Hc|]].
        apply tracked_fields_equal_trans with last; [|exact Heq].
        apply hasTaskChanged_false_iff. apply not_true_is_false. intros Hch.
        destruct (Hget _ _ Hc) as [Hid _].
        apply (Hnot c); [|now rewrite Hid].
        apply modified_In. exists (Task.id (TaskRenderer.html_task h)), last.
        split; [now apply JsMap_get_In | auto].
      - split; [constructor; [|exact IH1] | constructor; [|exact IH2]].
        + pose proof Ht as Ht'. apply modified_In in Ht' as (k & last & He & _).
          apply Hentry in He as (Hg & <- & _).
          exists (TaskRenderer.createTaskHTML t categories tags), t.
          split; [reflexivity | split; [exact Hg | apply tracked_fields_equal_refl]].
        + apply Hmark. now apply Hmod_tasks. }
    destruct Hnodes2 as [Hnodes2 Hnomark2].
    exists (children2 ++ map item added)%list. split.
    { destruct added as [|a added'] eqn:Ea.
      - simpl. now rewrite app_nil_r.
      - rewrite (no_marker_existsb _ Hnomark2). reflexivity. }
    assert (Hshown' : shown_ids (children2 ++ map item added)
                      = (List.filter (JsMap.has cur) (shown_ids children)
                         ++ List.filter (fun k => negb (JsMap.has cache k)) (JsMap.keys cur))%list).
    { now rewrite shown_ids_app, Hids2, Hids1', Hadded_ids. }
    assert (HndAll : List.NoDup (shown_ids (children2 ++ map item added))).
    { rewrite Hshown'.
      apply List.NoDup_app; [now apply NoDup_filter_list | now apply NoDup_filter_list |].
      intros k Hk1 Hk2. apply filter_In in Hk1 as [Hk1 _].
      apply filter_In in Hk2 as [_ Hk2].
      apply negb_true_iff in Hk2.
      assert (Hc : JsMap.has cache k = true).
      { apply JsMap_has_keys. eapply Permutation_in; [exact Hperm | exact Hk1]. }
      congruence. }
    split; [|split; [apply List.Forall_app; auto | exact Hshown']].
    split; [exact HndAll|]. split; [|apply List.Forall_app; auto].
    apply Permutation.NoDup_Permutation; [exact HndAll | exact HcurND |].
    intros k. rewrite Hshown', in_app_iff, !filter_In. split.
    + intros [[_ Hh]|[Hk _]]; [now apply JsMap_has_keys | exact Hk].
    + intros Hk. destruct (JsMap.has cache k) eqn:Hc.
      * left. split; [|now apply JsMap_has_keys].
        eapply Permutation_in; [symmetry; exact Hperm | now apply JsMap_has_keys].
      * right. auto.
  - (* the empty-state message over an empty cache *)
    assert (Hmod : modified = []).
    { apply no_member_nil. intros t Ht. apply modified_In in Ht as (k & last & _ & Hg & _).
      discriminate. }
    rewrite Hmod in Hrel. apply replaced_by_nil_eq in Hrel.
    assert (Hc1 : children1 = [TaskRenderer.EmptyState m]) by reflexivity.
    rewrite Hc1 in Hrel. subst children2.
    assert (Hadded_ne : added <> []).
    { destruct tasks as [|t0 tasks0]; [congruence|].
      assert (H0 : In (Task.id t0) (JsMap.keys cur)) by (apply Hkeys; now left).
      unfold JsMap.keys in H0. apply in_map_iff in H0 as ([k t] & _ & He).
      intros Hnil. assert (Hin : In t added) by (apply added_In; exists k; auto).
      rewrite Hnil in Hin. destruct Hin. }
    exists (map item added). split.
    { destruct added as [|a added']; [congruence|].
      simpl existsb. rewrite Hm. reflexivity. }
    assert (Hshown' : shown_ids (map item added) = JsMap.keys cur).
    { rewrite Hadded_ids. apply filter_noop. reflexivity. }
    split; [|split; [exact Hadded_mark|]].
    + split; [now rewrite Hshown'|]. split; [now rewrite Hshown' | exact Hadded_sync].
    + rewrite Hshown'. simpl. symmetry. apply filter_noop. reflexivity.
Qed.
End ViewSync.


(** X11. Rendering again the tasks already shown, in any order and with
    any change to fields that are not tracked, leaves the list element as
    it is: a new order of the tasks is not carried over to the view. *)
Theorem renderTasks_same_tasks_keeps_view (br : RenderController.Browser)
    (st : RenderController.t) (tasks : list Task.t) (categories : list Category)
    (tags : list Tag) (emptyMessage : string) (children : list TaskRenderer.node) :
  RenderController.taskList st = Some children ->
  tasks <> [] ->
  (forall t, In t tasks ->
     exists last, JsMap.get (RenderController.lastRenderedTasks st) (Task.id t) = Some last
                  /\ tracked_fields_equal t last) ->
  (forall k, In k (JsMap.keys (RenderController.lastRenderedTasks st)) ->
             In k (map Task.id tasks)) ->
  RenderController.renderTasks br st tasks categories tags emptyMessage
  = Ok (RenderController.mk (RenderController.currentTasksOf tasks) (Some children)).
Proof.
  intros Htl Hne Hsame Hkeys.
  set (cache := RenderController.lastRenderedTasks st) in *.
  set (cur := RenderController.currentTasksOf tasks).
  destruct (currentTasksOf_spec tasks) as (_ & Hcur & _).
  fold cur in Hcur.
  assert (Hadded : flat_map (added_of cache) cur = []).
  { apply no_member_nil. intros t Ht. apply added_In in Ht as (k & He & Hg).
    apply currentTasksOf_entry in He as (_ & <- & Hin).
    destruct (Hsame t Hin) as (last & Hl & _). congruence. }
  assert (Hmodified : flat_map (modified_of cache) cur = []).
  { apply no_member_nil. intros t Ht. apply modified_In in Ht as (k & last & He & Hg & Hc).
    apply currentTasksOf_entry in He as (_ & <- & Hin).
    destruct (Hsame t Hin) as (last' & Hl & Heq).
    apply hasTaskChanged_false_iff in Heq. congruence. }
  assert (Hremoved : flat_map (removed_of cur) cache = []).
  { apply no_member_nil. intros r Hr. apply removed_In in Hr as (Hk & Hh).
    assert (JsMap.has cur r = true) by (apply JsMap_has_keys, Hcur, Hkeys, Hk).
    congruence. }
  assert (Hd : RenderController.diff cache cur = RenderController.mkDiff [] [] []).
  { now rewrite diff_flat_map, Hadded, Hmodified, Hremoved. }
  clear Hadded Hmodified Hremoved Hcur Hsame Hkeys. subst cache cur.
  unfold RenderController.renderTasks. rewrite Htl.
  destruct tasks as [|t0 tasks0]; [congruence|].
  cbv zeta. rewrite Hd. reflexivity.
Qed.

Lemma JsMap_set_fresh {V} (m : JsMap.t V) (k : string) (v : V) :
  ~ In k (JsMap.keys m) -> JsMap.set m k v = (m ++ [(k, v)])%list.
Proof.
  induction m as [|[k' v'] m IH]; simpl; intros Hk; [reflexivity|].
  destruct (String.eqb_spec k' k) as [->|Hne]; [exfalso; apply Hk; now left|].
  rewrite IH; [reflexivity | intros H; apply Hk; now right].
Qed.

Lemma currentTasksOf_NoDup (tasks : list Task.t) :
  List.NoDup (map Task.id tasks) ->
  RenderController.currentTasksOf tasks = map (fun t => (Task.id t, t)) tasks.
Proof.
  unfold RenderController.currentTasksOf.
  assert (H : forall m : JsMap.t Task.t,
             List.NoDup (map Task.id tasks) ->
             (forall t, In t tasks -> ~ In (Task.id t) (JsMap.keys m)) ->
             fold_left (fun m task => JsMap.set m (Task.id task) task) tasks m
             = (m ++ map (fun t => (Task.id t, t)) tasks)%list).
  { induction tasks as [|t l IH]; intros m Hnd Hfresh; simpl.
    - now rewrite app_nil_r.
    - simpl in Hnd. apply NoDup_cons_iff in Hnd as [Hnotin Hnd].
      rewrite JsMap_set_fresh by (apply Hfresh; now left).
      rewrite IH; [now rewrite <- app_assoc | exact Hnd |].
      intros t' Ht'. unfold JsMap.keys. rewrite map_app, in_app_iff. simpl.
      intros [Hin|[Heq|[]]].
      + apply (Hfresh t'); [now right | exact Hin].
      + apply Hnotin. rewrite Heq. now apply in_map.
  }
  intros Hnd. rewrite H; [reflexivity | exact Hnd | intros t _ []].
Qed.

(** X12. After [clearCache], rendering a list of tasks with distinct ids
    shows what a full render of the list shows. *)
Theorem clearCache_then_full_render (br : RenderController.Browser) (st : RenderController.t)
    (tasks : list Task.t) (categories : list Category) (tags : list Tag)
    (emptyMessage : string) :
  List.NoDup (map Task.id tasks) ->
  exists cache,
    RenderController.renderTasks br (RenderController.clearCache st) tasks categories tags
                                 emptyMessage
    = Ok (RenderController.mk cache
            (TaskRenderer.renderTasks (RenderController.taskList st) tasks categories tags
                                      emptyMessage))
    /\ (RenderController.taskList st <> None ->
        cache = RenderController.currentTasksOf tasks).
Proof.
  intros Hnd. unfold RenderController.renderTasks, RenderController.clearCache.
  destruct (RenderController.taskList st) as [children|]; simpl.
  2:{ exists []. split; [reflexivity | congruence]. }
  assert (Hadded : flat_map (added_of []) (RenderController.currentTasksOf tasks) = tasks).
  { rewrite (currentTasksOf_NoDup tasks Hnd). clear. induction tasks as [|t l IH];
      [reflexivity | simpl; now rewrite IH]. }
  assert (Hmodified : flat_map (modified_of []) (RenderController.currentTasksOf tasks) = []).
  { apply no_member_nil. intros t Ht. apply modified_In in Ht as (k & last & _ & Hg & _).
    discriminate. }
  assert (Hd : RenderController.diff [] (RenderController.currentTasksOf tasks)
               = RenderController.mkDiff tasks [] []).
  { now rewrite diff_flat_map, Hadded, Hmodified. }
  clear Hadded Hmodified.
  destruct tasks as [|t0 tasks0].
  { exists []. split; reflexivity. }
  exists (RenderController.currentTasksOf (t0 :: tasks0)).
  split; [|reflexivity].
  cbv zeta. rewrite Hd. reflexivity.
Qed.


Lemma renderTasks_same_tasks_keeps_view_witness :
  RenderController.renderTasks Samples.browser Samples.rendered_A_C
    [Samples.taskC; Samples.taskA] [] [] RenderController.defaultEmptyMessage
  = Ok (RenderController.mk
          (RenderController.currentTasksOf [Samples.taskC; Samples.taskA])
          (RenderController.taskList Samples.rendered_A_C)).
Proof.
  apply (renderTasks_same_tasks_keeps_view Samples.browser Samples.rendered_A_C
           [Samples.taskC; Samples.taskA] [] [] RenderController.defaultEmptyMessage).
  - reflexivity.
  - discriminate.
  - intros t [<-|[<-|[]]]; eexists; (split; [vm_compute; reflexivity|]);
      apply tracked_fields_equal_refl.
  - intros k Hk. vm_compute in Hk. destruct Hk as [<-|[<-|[]]]; vm_compute; tauto.
Defined.

Lemma clearCache_then_full_render_witness :
  exists cache,
    RenderController.renderTasks Samples.browser
      (RenderController.clearCache Samples.rendered_A_C)
      [Samples.taskC; Samples.taskA] [] [] RenderController.defaultEmptyMessage
    = Ok (RenderController.mk cache
            (TaskRenderer.renderTasks (RenderController.taskList Samples.rendered_A_C)
               [Samples.taskC; Samples.taskA] [] [] RenderController.defaultEmptyMessage))
    /\ (RenderController.taskList Samples.rendered_A_C <> None ->
        cache = RenderController.currentTasksOf [Samples.taskC; Samples.taskA]).
Proof.
  apply (clearCache_then_full_render Samples.browser Samples.rendered_A_C
           [Samples.taskC; Samples.taskA] [] [] RenderController.defaultEmptyMessage).
  simpl. constructor; [intros [H|[]]; discriminate|].
  constructor; [intros []|constructor].
Defined.

(** * Further properties of the task filter *)

Lemma filter_single {A} (p : A -> bool) (x : A) :
  List.filter p [x] = [x] <-> p x = true.
Proof.
  simpl. destruct (p x); split; congruence.
Qed.

Lemma filter_In_single {A} (p : A -> bool) (l : list A) (x : A) :
  In x (List.filter p l) <-> In x l /\ List.filter p [x] = [x].
Proof. rewrite filter_In, filter_single. reflexivity. Qed.

Lemma applyStatusFilter_is_filter (st : TaskFilter.t) (tz now : Z) :
  exists p, forall tasks, TaskFilter.applyStatusFilter st tz now tasks = List.filter p tasks.
Proof.
  unfold TaskFilter.applyStatusFilter.
  destruct (String.eqb (TaskFilter.currentFilter st) "completed"); simpl.
  { destruct (0 <? TaskFilter.completedTasksDays st); eexists; intros tasks;
      rewrite ?filter_filter_and; reflexivity. }
  destruct (String.eqb (TaskFilter.currentFilter st) "recurring");
    [eexists; intros tasks; rewrite ?filter_filter_and; reflexivity|].
  destruct (String.eqb (TaskFilter.currentFilter st) "today");
    [eexists; intros tasks; rewrite ?filter_filter_and; reflexivity|].
  destruct (String.eqb (TaskFilter.currentFilter st) "upcoming");
    [eexists; intros tasks; rewrite ?filter_filter_and; reflexivity|].
  destruct (String.eqb (TaskFilter.currentFilter st) "overdue");
    [eexists; intros tasks; rewrite ?filter_filter_and; reflexivity|].
  eexists; intros tasks; reflexivity.
Qed.

Lemma applyPriorityFilter_is_filter (st : TaskFilter.t) :
  exists p, forall tasks, TaskFilter.applyPriorityFilter st tasks = List.filter p tasks.
Proof.
  unfold TaskFilter.applyPriorityFilter. destruct (existsb _ _).
  - eexists; intros tasks; reflexivity.
  - exists (fun _ => true). intros tasks. symmetry. now apply filter_noop.
Qed.

Lemma fold_filter_In_iff {A} (fs : list (A -> bool)) (l : list A) (x : A) :
  In x (fold_left (fun acc flt => List.filter flt acc) fs l)
  <-> In x l /\ forall f, In f fs -> f x = true.
Proof.
  revert l. induction fs as [|f fs IH]; simpl; intros l.
  - split; [intros H; split; [exact H | intros f []] | tauto].
  - rewrite IH, filter_In. split.
    + intros [[Hl Hf] Hfs]. split; [exact Hl|]. intros g [<-|Hg]; auto.
    + intros [Hl Hfs]. split; [split|]; auto.
Qed.

(** X13. The filters combine by conjunction and judge each task on its
    own: a task is shown exactly when it is in the list, passes the status
    filter and the priority filter, is of the selected category, carries
    the selected tag and matches the search term, whatever other tasks the
    list holds. *)
Theorem filterTasks_shows_iff (st : TaskFilter.t) (tz now : Z) (tasks : list Task.t)
    (categories : list Category) (tags : list Tag) (searchTerm : string) (t : Task.t) :
  In t (TaskFilter.filterTasks st tz now tasks categories tags searchTerm)
  <-> In t tasks
      /\ TaskFilter.applyStatusFilter st tz now [t] = [t]
      /\ TaskFilter.applyPriorityFilter st [t] = [t]
      /\ (truthy (TaskFilter.currentCategoryFilter st) = true ->
          Some (Task.category t) = TaskFilter.currentCategoryFilter st)
      /\ (truthy (TaskFilter.currentTagFilter st) = true ->
          exists tg, In tg (Task.tags t) /\ Some tg = TaskFilter.currentTagFilter st)
      /\ (searchTerm <> "" ->
          TaskFilter.matchesSearchTerm t searchTerm categories tags = true).
Proof.
  unfold TaskFilter.filterTasks, TaskFilter.sortTasks.
  rewrite sortWith_In, fold_filter_In_iff.
  destruct (applyStatusFilter_is_filter st tz now) as [ps Hps].
  destruct (applyPriorityFilter_is_filter st) as [pp Hpp].
  rewrite !Hps, !Hpp, !filter_single, !filter_In.
  assert (Hsame : forall s o, same_string s o = true <-> Some s = o).
  { intros s [s'|]; simpl; [rewrite String.eqb_eq|]; split; congruence. }
  split.
  - intros [[[Hin Hs] Hp] Hfs]. repeat split; auto.
    + intros Hc. apply Hsame. rewrite Hc in Hfs.
      apply (Hfs (fun task => same_string (Task.category task)
                                (TaskFilter.currentCategoryFilter st))).
      simpl. now left.
    + intros Hc. rewrite Hc in Hfs.
      assert (H : existsb (fun tg => same_string tg (TaskFilter.currentTagFilter st))
                          (Task.tags t) = true).
      { apply (Hfs (fun task => existsb (fun tg => same_string tg
                                           (TaskFilter.currentTagFilter st))
                                        (Task.tags task))).
        apply in_or_app. right. apply in_or_app. left. now left. }
      apply existsb_exists in H as (tg & Htg & Heq). exists tg. split; [exact Htg|].
      now apply Hsame.
    + intros Hne. apply String.eqb_neq in Hne. rewrite Hne in Hfs.
      apply (Hfs (fun task => TaskFilter.matchesSearchTerm task searchTerm categories tags)).
      apply in_or_app. right. apply in_or_app. right. now left.
  - intros (Hin & Hs & Hp & Hc & Ht & Hm). split; [auto|].
    intros f Hf. apply in_app_or in Hf as [Hf|Hf]; [|apply in_app_or in Hf as [Hf|Hf]].
    + destruct (truthy (TaskFilter.currentCategoryFilter st)); [|destruct Hf].
      destruct Hf as [<-|[]]. apply Hsame. now apply Hc.
    + destruct (truthy (TaskFilter.currentTagFilter st)); [|destruct Hf].
      destruct Hf as [<-|[]]. destruct (Ht eq_refl) as (tg & Htg & Heq).
      apply existsb_exists. exists tg. split; [exact Htg | now apply Hsame].
    + destruct (String.eqb_spec searchTerm ""); simpl in Hf; [destruct Hf|].
      destruct Hf as [<-|[]]. now apply Hm.
Qed.

Lemma filterTasks_filtered_In (st : TaskFilter.t) (tz now : Z) (tasks : list Task.t)
    (fs : list (Task.t -> bool)) (t : Task.t) :
  In t (fold_left (fun acc flt => List.filter flt acc) fs
          (TaskFilter.applyPriorityFilter st (TaskFilter.applyStatusFilter st tz now tasks))) ->
  In t tasks.
Proof.
  rewrite fold_filter_In_iff.
  destruct (applyStatusFilter_is_filter st tz now) as [ps Hps].
  destruct (applyPriorityFilter_is_filter st) as [pp Hpp].
  rewrite Hps, Hpp, !filter_In. tauto.
Qed.

(** X14. When no task has the sort key NaN (under the field 'dueDate',
    every due date parses), the shown tasks come in the chosen order: by
    non-decreasing sort key when the direction is 'asc', by non-increasing
    key otherwise. *)
Theorem filterTasks_sorted (st : TaskFilter.t) (tz now : Z) (tasks : list Task.t)
    (categories : list Category) (tags : list Tag) (searchTerm : string) :
  Forall (fun task =>
            TaskFilter.sortValue (TaskFilter.field (TaskFilter.sortOptions st))
                                 categories tags task <> TaskFilter.VNaN) tasks ->
  let key := TaskFilter.sortValue (TaskFilter.field (TaskFilter.sortOptions st))
                                  categories tags in
  StronglySorted
    (fun a b => if String.eqb (TaskFilter.direction (TaskFilter.sortOptions st)) "asc"
                then value_le (key a) (key b)
                else value_le (key b) (key a))
    (TaskFilter.filterTasks st tz now tasks categories tags searchTerm).
Proof.
  intros Hnum key. unfold TaskFilter.filterTasks, TaskFilter.sortTasks.
  apply (sortWith_sorted_on _ _ (fun task => key task <> TaskFilter.VNaN)).
  - intros a b. unfold TaskFilter.compareTasks, value_le. fold (key a) (key b).
    rewrite (value_compare_antisym (key b) (key a)).
    destruct (String.eqb _ "asc"), (TaskFilter.value_compare (key a) (key b));
      simpl; split; (lia || congruence).
  - intros a b. destruct (String.eqb _ "asc"); apply value_le_total.
  - intros a b c Hb. destruct (String.eqb _ "asc"); intros H1 H2.
    + now apply (value_le_trans _ (key b)).
    + now apply (value_le_trans _ (key b)).
  - apply List.Forall_forall. intros t Ht.
    apply filterTasks_filtered_In in Ht.
    rewrite List.Forall_forall in Hnum. now apply Hnum.
Qed.

(** X15. A status or priority filter and a category or tag filter are
    never active together: whatever calls are made on a new [TaskFilter],
    either the current filter is 'all' or no category and no tag is
    selected. *)
Theorem status_excludes_selection (actions : list FilterAction) :
  let st := fold_left applyFilterAction actions TaskFilter.initial in
  TaskFilter.currentFilter st = "all"
  \/ (TaskFilter.currentCategoryFilter st = None /\ TaskFilter.currentTagFilter st = None).
Proof.
  simpl.
  assert (H : forall st,
             TaskFilter.currentFilter st = "all"
             \/ (TaskFilter.currentCategoryFilter st = None
                 /\ TaskFilter.currentTagFilter st = None) ->
             TaskFilter.currentFilter (fold_left applyFilterAction actions st) = "all"
             \/ (TaskFilter.currentCategoryFilter (fold_left applyFilterAction actions st) = None
                 /\ TaskFilter.currentTagFilter (fold_left applyFilterAction actions st) = None)).
  { induction actions as [|a actions IH]; intros st Hst; [exact Hst|].
    simpl. apply IH. destruct a; simpl; auto. }
  apply H. now left.
Qed.

(** X16. Saving and restoring the filter state gives the same filter
    exactly when no field holds a value that reads as absent: an empty
    current filter, an empty category or tag id, or a retention window of
    0 days (which is restored as 30). *)
Theorem setState_getState (st0 st : TaskFilter.t) :
  TaskFilter.setState st0 (TaskFilter.getState st) = st
  <-> TaskFilter.currentFilter st <> ""
      /\ TaskFilter.currentCategoryFilter st <> Some ""
      /\ TaskFilter.currentTagFilter st <> Some ""
      /\ TaskFilter.completedTasksDays st <> 0.
Proof.
  destruct st as [f c t [fld dir] days].
  unfold TaskFilter.setState, TaskFilter.getState, TaskFilter.mergeSortOptions,
    TaskFilter.nullable_or_null. simpl.
  split.
  - intros H. injection H as Hf Hc Ht Hd.
    repeat split.
    + intros ->. simpl in Hf. discriminate.
    + intros ->. simpl in Hc. discriminate.
    + intros ->. simpl in Ht. discriminate.
    + intros ->. simpl in Hd. discriminate.
  - intros (Hf & Hc & Ht & Hd).
    apply String.eqb_neq in Hf. rewrite Hf.
    apply Z.eqb_neq in Hd. rewrite Hd.
    f_equal.
    + destruct c as [s|]; [|reflexivity].
      destruct (String.eqb_spec s ""); [subst; contradiction | reflexivity].
    + destruct t as [s|]; [|reflexivity].
      destruct (String.eqb_spec s ""); [subst; contradiction | reflexivity].
Qed.

Lemma filter_length_split {A} (p : A -> bool) (l : list A) :
  (length (List.filter p l) + length (List.filter (fun x => negb (p x)) l) = length l)%nat.
Proof.
  induction l as [|a l IH]; simpl; [reflexivity|].
  destruct (p a); simpl; lia.
Qed.

Lemma filter_length_le {A} (p : A -> bool) (l : list A) :
  (length (List.filter p l) <= length l)%nat.
Proof.
  induction l as [|a l IH]; simpl; [lia|]. destruct (p a); simpl; lia.
Qed.

Lemma filter_length_implies {A} (p q : A -> bool) (l : list A) :
  (forall x, In x l -> p x = true -> q x = true) ->
  (length (List.filter p l) <= length (List.filter q l))%nat.
Proof.
  induction l as [|a l IH]; simpl; intros H; [lia|].
  assert (IH' := IH (fun x Hx => H x (or_intror Hx))).
  destruct (p a) eqn:Hp.
  - rewrite (H a (or_introl eq_refl) Hp). simpl. lia.
  - destruct (q a); simpl; lia.
Qed.

Lemma filter_length_exclusive {A} (p q r : A -> bool) (l : list A) :
  (forall x, In x l -> p x && q x = false /\ p x && r x = false /\ q x && r x = false) ->
  (length (List.filter p l) + length (List.filter q l) + length (List.filter r l)
   <= length l)%nat.
Proof.
  induction l as [|a l IH]; simpl; intros H; [lia|].
  assert (IH' := IH (fun x Hx => H x (or_intror Hx))).
  destruct (H a (or_introl eq_refl)) as (H1 & H2 & H3).
  destruct (p a), (q a), (r a); simpl in *; try congruence; lia.
Qed.

(** X17. The counters of [getFilterStats] fit together: every task is
    completed or pending, an overdue task is pending, and no task is
    counted under two of overdue, due today and upcoming. *)
Theorem getFilterStats_consistent (tz now : Z) (tasks : list Task.t) :
  let stats := TaskFilter.getFilterStats tz now tasks in
  (TaskFilter.completed stats + TaskFilter.pending stats = TaskFilter.total stats)%nat
  /\ (TaskFilter.overdue stats <= TaskFilter.pending stats)%nat
  /\ (TaskFilter.overdue stats + TaskFilter.dueToday stats + TaskFilter.upcoming stats
      <= TaskFilter.total stats)%nat
  /\ (TaskFilter.recurring stats <= TaskFilter.total stats)%nat.
Proof.
  simpl. split; [apply filter_length_split|]. split; [|split].
  - apply filter_length_implies. intros x _ Hx.
    apply isTaskOverdue_iff in Hx as (d & _ & _ & ->). reflexivity.
  - apply filter_length_exclusive. intros x _.
    destruct (urgency_exclusive tz now x) as (H1 & H2 & H3).
    rewrite (andb_comm (DateUtils.isTaskOverdue tz now x)
                       (DateUtils.isTaskDueToday tz now x)).
    rewrite (andb_comm (DateUtils.isTaskOverdue tz now x)
                       (DateUtils.isTaskUpcoming tz now x)).
    auto.
  - apply filter_length_le.
Qed.

(** X18. A click on a category keeps the filter controller and its
    [TaskFilter] in agreement and toggles the category: the clicked one is
    selected, unless it was selected already, in which case none is; the
    current filter goes back to 'all' and the tag selection stays.
    Calling [setCategoryFilter] with the selected category instead leaves
    the two out of step. *)
Theorem filterByCategory_toggles (fc : FilterController.t) (categoryId : string) :
  filters_agree fc ->
  let fc' := SettingsController.filterByCategory fc categoryId in
  filters_agree fc'
  /\ FilterController.currentCategoryFilter fc'
     = (if same_string categoryId (FilterController.currentCategoryFilter fc)
        then None else Some categoryId)
  /\ FilterController.currentFilter fc' = "all"
  /\ FilterController.currentTagFilter fc' = FilterController.currentTagFilter fc
  /\ (FilterController.currentCategoryFilter fc = Some categoryId ->
      ~ filters_agree (FilterController.setCategoryFilter fc (Some categoryId))).
Proof.
  destruct fc as [[tf_filter tf_cat tf_tag tf_sort tf_days] f c t s].
  unfold filters_agree, SettingsController.filterByCategory. simpl.
  intros (-> & -> & ->).
  destruct tf_cat as [c|]; simpl.
  - destruct (String.eqb_spec categoryId c) as [->|Hne]; simpl.
    + repeat split; auto. intros _ (_ & H & _). simpl in H.
      rewrite String.eqb_refl in H. discriminate.
    + assert (Hcc : String.eqb c categoryId = false) by (apply String.eqb_neq; congruence).
      rewrite Hcc. repeat split; auto. congruence.
  - repeat split; auto. discriminate.
Qed.

Lemma filterTasks_sorted_witness :
  StronglySorted
    (fun a b => value_le (TaskFilter.sortValue "dueDate" [] [] a)
                         (TaskFilter.sortValue "dueDate" [] [] b))
    (TaskFilter.filterTasks (Samples.sortedBy "dueDate" "asc") Samples.tzBR
       Samples.noon_2025_01_11 [Samples.dueJanuary; Samples.taskA] [] [] "").
Proof.
  apply (filterTasks_sorted (Samples.sortedBy "dueDate" "asc") Samples.tzBR
           Samples.noon_2025_01_11 [Samples.dueJanuary; Samples.taskA] [] [] "").
  constructor; [vm_compute; discriminate|].
  constructor; [vm_compute; discriminate | constructor].
Defined.

Lemma filterByCategory_toggles_witness :
  let fc' := SettingsController.filterByCategory FilterController.initial "work" in
  filters_agree fc'
  /\ FilterController.currentCategoryFilter fc'
     = (if same_string "work" (FilterController.currentCategoryFilter FilterController.initial)
        then None else Some "work")
  /\ FilterController.currentFilter fc' = "all"
  /\ FilterController.currentTagFilter fc'
     = FilterController.currentTagFilter FilterController.initial
  /\ (FilterController.currentCategoryFilter FilterController.initial = Some "work" ->
      ~ filters_agree (FilterController.setCategoryFilter FilterController.initial
                         (Some "work"))).
Proof.
  apply (filterByCategory_toggles FilterController.initial "work").
  unfold filters_agree. simpl. repeat split; reflexivity.
Defined.

(** * Further properties of the task controller *)

Lemma findIndex_split {A} (p : A -> bool) (l : list A) :
  match findIndex p l with
  | None => forall x, In x l -> p x = false
  | Some i =>
      exists before x after,
        l = (before ++ x :: after)%list /\ length before = i /\ p x = true
        /\ forall y, In y before -> p y = false
  end.
Proof.
  induction l as [|a l IH]; simpl; [intros x []|].
  destruct (p a) eqn:Hp.
  - exists [], a, l. repeat split; auto. intros y [].
  - destruct (findIndex p l) as [i|]; simpl.
    + destruct IH as (before & x & after & -> & <- & Hx & Hb).
      exists (a :: before), x, after. repeat split; auto.
      intros y [<-|Hy]; auto.
    + intros x [<-|Hx]; auto.
Qed.

Lemma delete_at_middle {A} (before after : list A) (x : A) :
  delete (length before) (before ++ x :: after)%list = (before ++ after)%list.
Proof. induction before as [|b before IH]; simpl; [reflexivity | now rewrite IH]. Qed.

Lemma insert_at_middle {A} (before after : list A) (x y : A) :
  <[length before := y]> (before ++ x :: after)%list = (before ++ y :: after)%list.
Proof. induction before as [|b before IH]; simpl; [reflexivity | now rewrite IH]. Qed.

Lemma lookup_at_middle {A} (before after : list A) (x : A) :
  (before ++ x :: after)%list !! length before = Some x.
Proof. induction before as [|b before IH]; simpl; [reflexivity | exact IH]. Qed.

Lemma findIndex_at_middle {A} (p : A -> bool) (before after : list A) (x : A) :
  (forall y, In y before -> p y = false) -> p x = true ->
  findIndex p (before ++ x :: after)%list = Some (length before).
Proof.
  intros Hb Hx. induction before as [|b before IH]; simpl.
  - now rewrite Hx.
  - rewrite (Hb b (or_introl eq_refl)), IH; [reflexivity|].
    intros y Hy. apply Hb. now right.
Qed.

Lemma deleteTask_cases (st : TaskController.t) (taskId : string) :
  (TaskController.deleteTask st taskId = (false, st)
   /\ forall t, In t (TaskController.tasks st) -> Task.id t <> taskId)
  \/ (exists before task after,
        TaskController.tasks st = (before ++ task :: after)%list
        /\ Task.id task = taskId
        /\ (forall t, In t before -> Task.id t <> taskId)
        /\ TaskController.deleteTask st taskId
           = (true, TaskController.mk (before ++ after) (TaskController.generated st))).
Proof.
  unfold TaskController.deleteTask.
  pose proof (findIndex_split (fun task => String.eqb (Task.id task) taskId)
                (TaskController.tasks st)) as H.
  destruct (findIndex _ (TaskController.tasks st)) as [i|].
  - right. destruct H as (before & x & after & Hl & <- & Hx & Hb).
    exists before, x, after. split; [exact Hl|]. split; [now apply String.eqb_eq|].
    split; [intros t Ht; apply String.eqb_neq; auto|].
    now rewrite Hl, delete_at_middle.
  - left. split; [reflexivity|]. intros t Ht. apply String.eqb_neq. auto.
Qed.

(** X19. [deleteTask] removes the first task with the given id and
    nothing else; when no task has the id it reports failure and leaves
    the store as it is.  In a store without repeated ids the id is
    unknown afterwards, and every other lookup answers as before. *)
Theorem deleteTask_removes_first (st : TaskController.t) (taskId : string) :
  let st' := snd (TaskController.deleteTask st taskId) in
  ((fst (TaskController.deleteTask st taskId) = false /\ st' = st
    /\ forall t, In t (TaskController.tasks st) -> Task.id t <> taskId)
   \/ (exists before task after,
         TaskController.tasks st = (before ++ task :: after)%list
         /\ Task.id task = taskId
         /\ (forall t, In t before -> Task.id t <> taskId)
         /\ fst (TaskController.deleteTask st taskId) = true
         /\ st' = TaskController.mk (before ++ after) (TaskController.generated st)))
  /\ (forall other, other <> taskId ->
        TaskController.getTaskById st' other = TaskController.getTaskById st other)
  /\ (List.NoDup (map Task.id (TaskController.tasks st)) ->
      TaskController.getTaskById st' taskId = None).
Proof.
  intros st'. subst st'.
  destruct (deleteTask_cases st taskId)
    as [[Hrun Hnone] | (before & task & after & Hl & Hid & Hb & Hrun)]; rewrite Hrun; simpl.
  - split; [left; auto|]. split; [reflexivity|]. intros _.
    unfold TaskController.getTaskById.
    destruct (List.find _ _) as [t|] eqn:E; [|reflexivity].
    apply find_some in E as [Hin Heq]. apply String.eqb_eq in Heq.
    exfalso. now apply (Hnone t).
  - split; [right; exists before, task, after; auto|]. split.
    + intros other Hother. unfold TaskController.getTaskById. rewrite Hl. simpl.
      clear Hl Hrun Hb. induction before as [|b before IH]; simpl.
      * rewrite Hid. apply String.eqb_neq in Hother.
        rewrite String.eqb_sym in Hother. now rewrite Hother.
      * destruct (String.eqb (Task.id b) other); [reflexivity | exact IH].
    + intros Hnd. unfold TaskController.getTaskById. simpl.
      destruct (List.find _ _) as [t|] eqn:E; [|reflexivity].
      apply find_some in E as [Hin Heq]. apply String.eqb_eq in Heq.
      exfalso. rewrite Hl, map_app in Hnd. simpl in Hnd.
      apply NoDup_remove_2 in Hnd. apply Hnd.
      rewrite <- map_app, Hid, <- Heq. now apply in_map.
Qed.

Lemma with_completed_twice (task : Task.t) :
  TaskController.with_completed
    (TaskController.with_completed task (negb (Task.completed task)))
    (negb (Task.completed
             (TaskController.with_completed task (negb (Task.completed task)))))
  = task.
Proof.
  destruct task. simpl. now rewrite negb_involutive.
Qed.

Lemma toggleTaskComplete_cases (st : TaskController.t) (taskId : string) :
  (TaskController.toggleTaskComplete st taskId = (None, st)
   /\ forall t, In t (TaskController.tasks st) -> Task.id t <> taskId)
  \/ (exists before task after,
        TaskController.tasks st = (before ++ task :: after)%list
        /\ Task.id task = taskId
        /\ (forall t, In t before -> Task.id t <> taskId)
        /\ TaskController.toggleTaskComplete st taskId
           = (Some (TaskController.mkToggleResult true (Task.completed task)
                      (negb (Task.completed task))),
              TaskController.mk
                (before
                 ++ TaskController.with_completed task (negb (Task.completed task))
                 :: after)
                (TaskController.generated st))).
Proof.
  unfold TaskController.toggleTaskComplete.
  pose proof (findIndex_split (fun task => String.eqb (Task.id task) taskId)
                (TaskController.tasks st)) as H.
  destruct (findIndex _ (TaskController.tasks st)) as [i|].
  - right. destruct H as (before & x & after & Hl & <- & Hx & Hb).
    exists before, x, after. split; [exact Hl|]. split; [now apply String.eqb_eq|].
    split; [intros t Ht; apply String.eqb_neq; auto|].
    rewrite Hl, lookup_at_middle, insert_at_middle. reflexivity.
  - left. split; [reflexivity|]. intros t Ht. apply String.eqb_neq. auto.
Qed.

(** X20. [toggleTaskComplete] flips the [completed] flag of the first
    task with the given id and changes nothing else, in particular not
    [completedAt]; toggling the same id twice gives the store back. *)
Theorem toggleTaskComplete_flips (st : TaskController.t) (taskId : string) :
  let st' := snd (TaskController.toggleTaskComplete st taskId) in
  ((fst (TaskController.toggleTaskComplete st taskId) = None /\ st' = st
    /\ forall t, In t (TaskController.tasks st) -> Task.id t <> taskId)
   \/ (exists before task after,
         TaskController.tasks st = (before ++ task :: after)%list
         /\ Task.id task = taskId
         /\ (forall t, In t before -> Task.id t <> taskId)
         /\ fst (TaskController.toggleTaskComplete st taskId)
            = Some (TaskController.mkToggleResult true (Task.completed task)
                      (negb (Task.completed task)))
         /\ TaskController.tasks st'
            = (before
               ++ Task.mk (Task.id task) (Task.title task) (Task.description task)
                    (Task.category task) (Task.tags task) (Task.priority task)
                    (Task.dueDate task) (Task.dueTime task) (negb (Task.completed task))
                    (Task.createdAt task) (Task.completedAt task) (Task.isRecurring task)
                    (Task.recurrenceType task) (Task.recurrenceData task)
                    (Task.parentRecurringId task)
               :: after)%list))
  /\ snd (TaskController.toggleTaskComplete st' taskId) = st.
Proof.
  intros st'. subst st'.
  destruct (toggleTaskComplete_cases st taskId)
    as [[Hrun Hnone] | (before & task & after & Hl & Hid & Hb & Hrun)].
  - rewrite Hrun. simpl. split; [left; auto|]. now rewrite Hrun.
  - rewrite Hrun. simpl. split.
    + right. exists before, task, after. auto.
    + set (task' := TaskController.with_completed task (negb (Task.completed task))).
      destruct (toggleTaskComplete_cases
                  (TaskController.mk (before ++ task' :: after) (TaskController.generated st))
                  taskId)
        as [[_ Hnone] | (before2 & task2 & after2 & Hl2 & Hid2 & Hb2 & Hrun2)].
      * exfalso. apply (Hnone task'); [simpl; apply in_elt | exact Hid].
      * simpl in Hl2.
        assert (Hsplit : before2 = before /\ task2 = task' /\ after2 = after).
        { clear Hrun Hrun2 Hl. revert before2 Hl2 Hb2.
          induction before as [|b before IH]; intros before2 Hl2 Hb2.
          - destruct before2 as [|b2 before2]; simpl in Hl2.
            + injection Hl2 as <- <-. auto.
            + injection Hl2 as <- _. exfalso. apply (Hb2 task'); [now left | exact Hid].
          - destruct before2 as [|b2 before2]; simpl in Hl2.
            + injection Hl2 as <- _. exfalso. apply (Hb b); [now left | exact Hid2].
            + injection Hl2 as <- Hl2.
              destruct (IH (fun t Ht => Hb t (or_intror Ht)) before2 Hl2
                          (fun t Ht => Hb2 t (or_intror Ht))) as (-> & -> & ->).
              auto. }
        destruct Hsplit as (-> & -> & ->).
        rewrite Hrun2. simpl. unfold task'. rewrite with_completed_twice.
        destruct st as [tasks gen]. simpl in *. now rewrite Hl.
Qed.

Lemma find_at_middle {A} (p : A -> bool) (before after : list A) (x : A) :
  (forall y, In y before -> p y = false) -> p x = true ->
  List.find p (before ++ x :: after)%list = Some x.
Proof.
  intros Hb Hx. induction before as [|b before IH]; simpl.
  - now rewrite Hx.
  - rewrite (Hb b (or_introl eq_refl)). apply IH. intros y Hy. apply Hb. now right.
Qed.

Lemma generateNextRecurringTask_cases (env : TaskController.Env) (st : TaskController.t)
    (parentTask : Task.t) :
  (TaskController.generateNextRecurringTask env st parentTask = st
   /\ DateUtils.calculateNextRecurrenceDate (TaskController.tz env) parentTask = None)
  \/ (exists child,
        occurrence_of env parentTask child
        /\ Task.id child = TaskController.generateTaskId env (TaskController.generated st)
        /\ TaskController.generateNextRecurringTask env st parentTask
           = TaskController.mk (TaskController.tasks st ++ [child])
                               (S (TaskController.generated st))).
Proof.
  unfold TaskController.generateNextRecurringTask.
  destruct (DateUtils.calculateNextRecurrenceDate _ parentTask) as [nextDate|] eqn:E.
  - right. eexists. split; [|split; [|reflexivity]]; [|reflexivity].
    exists nextDate. simpl. repeat split; auto.
  - left. auto.
Qed.

Lemma generateRecurringAfterComplete_appends (env : TaskController.Env)
    (st : TaskController.t) (completedTask : Task.t) :
  TaskController.generateRecurringAfterComplete env st completedTask = st
  \/ exists child,
       Task.id child = TaskController.generateTaskId env (TaskController.generated st)
       /\ TaskController.generateRecurringAfterComplete env st completedTask
          = TaskController.mk (TaskController.tasks st ++ [child])
                              (S (TaskController.generated st)).
Proof.
  unfold TaskController.generateRecurringAfterComplete.
  assert (H : forall parent,
             TaskController.generateNextRecurringTask env st parent = st
             \/ exists child,
                  Task.id child
                  = TaskController.generateTaskId env (TaskController.generated st)
                  /\ TaskController.generateNextRecurringTask env st parent
                     = TaskController.mk (TaskController.tasks st ++ [child])
                                         (S (TaskController.generated st))).
  { intros parent.
    destruct (generateNextRecurringTask_cases env st parent)
      as [[H _]|(child & _ & Hid & H)]; [now left | right; eauto]. }
  destruct (Task.isRecurring completedTask); [|now left].
  destruct (Task.parentRecurringId completedTask) as [parentId|]; [|apply H].
  destruct (String.eqb parentId ""); [apply H|].
  destruct (TaskController.getTaskById st parentId); [apply H | now left].
Qed.

(** X21. Completing a task by a click does not stamp it: for a task that
    was never completed before, the 'completed' view with a positive
    retention window shows it exactly when it was created within the
    window, however recently it was completed. *)
Theorem completed_by_click_judged_by_creation (env : TaskController.Env)
    (st : TaskController.t) (flt : TaskFilter.t) (before after : list Task.t)
    (task : Task.t) :
  TaskController.tasks st = (before ++ task :: after)%list ->
  (forall t, In t before -> Task.id t <> Task.id task) ->
  Task.completed task = false ->
  Task.completedAt task = None ->
  TaskFilter.currentFilter flt = "completed" ->
  0 < TaskFilter.completedTasksDays flt ->
  let st' := SettingsController.toggleTaskComplete env st (Task.id task) in
  let done := TaskController.with_completed task true in
  In done (TaskController.tasks st')
  /\ (In done (TaskFilter.applyStatusFilter flt (TaskController.tz env)
                 (TaskController.now env) (TaskController.tasks st'))
      <-> JsDate.plusDays (TaskController.now env) (- TaskFilter.completedTasksDays flt)
          <= Task.createdAt task).
Proof.
  intros Hl Hb Hopen Hnever Hflt Hdays st' done.
  assert (Hp : forall y, In y before ->
                 (fun t => String.eqb (Task.id t) (Task.id task)) y = false).
  { intros y Hy. apply String.eqb_neq. now apply Hb. }
  assert (Hin : In done (TaskController.tasks st')).
  { subst st'. unfold SettingsController.toggleTaskComplete,
      TaskController.toggleTaskComplete.
    rewrite Hl, (findIndex_at_middle _ before after task Hp (String.eqb_refl _)).
    rewrite lookup_at_middle, insert_at_middle. rewrite Hopen. simpl.
    unfold TaskController.getTaskById. simpl.
    rewrite (find_at_middle (fun t => String.eqb (Task.id t) (Task.id task)) before after
               (TaskController.with_completed task true) Hp (String.eqb_refl _)).
    simpl.
    set (st1 := TaskController.mk _ _).
    assert (Hin1 : In done (TaskController.tasks st1)) by (simpl; apply in_elt).
    destruct (Task.isRecurring task); [|exact Hin1].
    destruct (generateRecurringAfterComplete_appends env st1
                (TaskController.with_completed task true)) as [->|(child & _ & ->)];
      [exact Hin1|].
    simpl. apply in_or_app. left. apply in_elt. }
  split; [exact Hin|].
  unfold TaskFilter.applyStatusFilter. rewrite Hflt.
  cbn [String.eqb Ascii.eqb Bool.eqb negb].
  apply Z.ltb_lt in Hdays. rewrite Hdays.
  rewrite !filter_In, cutoffDate_plusDays, Z.leb_le.
  unfold done. simpl. rewrite Hnever. simpl. tauto.
Qed.

Lemma checkTask_cases (env : TaskController.Env) (today : Z) (st : TaskController.t)
    (task : Task.t) :
  TaskController.checkTask env today st task = st
  \/ (recurring_root task = true
      /\ exists child,
           occurrence_of env task child
           /\ Task.id child = TaskController.generateTaskId env (TaskController.generated st)
           /\ TaskController.checkTask env today st task
              = TaskController.mk (TaskController.tasks st ++ [child])
                                  (S (TaskController.generated st))).
Proof.
  unfold TaskController.checkTask, recurring_root.
  destruct (Task.isRecurring task && negb (truthy (Task.parentRecurringId task)));
    [|now left].
  destruct (_ || _); [|now left].
  destruct (negb _); [|now left].
  destruct (generateNextRecurringTask_cases env st task) as [[H _]|H]; [now left|].
  right. split; [reflexivity | exact H].
Qed.

Lemma generation_fold (env : TaskController.Env) (today : Z) (l : list Task.t) :
  forall acc,
  exists new,
    TaskController.tasks (fold_left (TaskController.checkTask env today) l acc)
    = (TaskController.tasks acc ++ new)%list
    /\ TaskController.generated (fold_left (TaskController.checkTask env today) l acc)
       = (TaskController.generated acc + length new)%nat
    /\ map Task.id new
       = map (TaskController.generateTaskId env)
             (seq (TaskController.generated acc) (length new))
    /\ Forall (fun child => exists root, In root l /\ recurring_root root = true
                                         /\ occurrence_of env root child) new
    /\ (length new <= length (List.filter recurring_root l))%nat.
Proof.
  induction l as [|a l IH]; intros acc; simpl.
  - exists []. rewrite app_nil_r. repeat split; auto; simpl; lia.
  - destruct (checkTask_cases env today acc a) as [->|(Hroot & child & Hocc & Hid & ->)].
    + destruct (IH acc) as (new & H1 & H2 & H3 & H4 & H5).
      exists new. repeat split; auto.
      * eapply List.Forall_impl; [|exact H4]. intros c (root & Hin & Hr). exists root.
        split; [now right | exact Hr].
      * destruct (recurring_root a); simpl; lia.
    + destruct (IH (TaskController.mk (TaskController.tasks acc ++ [child])
                                      (S (TaskController.generated acc))))
        as (new & H1 & H2 & H3 & H4 & H5).
      simpl in H1, H2, H3.
      exists (child :: new). rewrite Hroot. simpl. repeat split.
      * rewrite H1, <- app_assoc. reflexivity.
      * rewrite H2. lia.
      * now rewrite Hid, H3.
      * constructor; [exists a; split; [now left | auto]|].
        eapply List.Forall_impl; [|exact H4]. intros c (root & Hin & Hr). exists root.
        split; [now right | exact Hr].
      * lia.
Qed.

(** X22. A generation pass only appends: the tasks of the store stay as
    they are and in place, and each appended task is the next occurrence
    of a recurring root of the store, with the next id of the generator;
    at most one occurrence is appended per root. *)
Theorem generation_pass_appends_occurrences (env : TaskController.Env)
    (st : TaskController.t) :
  let st' := TaskController.checkAndGenerateRecurringTasks env st in
  exists new,
    TaskController.tasks st' = (TaskController.tasks st ++ new)%list
    /\ TaskController.generated st' = (TaskController.generated st + length new)%nat
    /\ map Task.id new
       = map (TaskController.generateTaskId env)
             (seq (TaskController.generated st) (length new))
    /\ Forall (fun child =>
                 exists root, In root (TaskController.tasks st)
                              /\ recurring_root root = true
                              /\ occurrence_of env root child) new
    /\ (length new <= length (List.filter recurring_root (TaskController.tasks st)))%nat.
Proof.
  apply generation_fold.
Qed.

Lemma settled_noop (env : TaskController.Env) (today : Z) (st : TaskController.t)
    (task : Task.t) :
  settled env today (TaskController.tasks st) task ->
  TaskController.checkTask env today st task = st.
Proof.
  unfold settled, recurring_root, TaskController.checkTask.
  intros [H|[H|[H|H]]].
  - now rewrite H.
  - destruct (Task.isRecurring task && _); [|reflexivity]. now rewrite H.
  - destruct (Task.isRecurring task && _); [|reflexivity].
    destruct (_ || _); [|reflexivity].
    destruct (negb _); [|reflexivity].
    unfold TaskController.generateNextRecurringTask. now rewrite H.
  - destruct (Task.isRecurring task && _); [|reflexivity].
    destruct (_ || _); [|reflexivity]. now rewrite H.
Qed.

Lemma settled_mono (env : TaskController.Env) (today : Z) (tasks more : list Task.t)
    (task : Task.t) :
  settled env today tasks task -> settled env today (tasks ++ more) task.
Proof.
  unfold settled. intros [H|[H|[H|H]]]; auto.
  right. right. right. rewrite existsb_app, H. reflexivity.
Qed.

Lemma fold_left_noop {A S} (f : S -> A -> S) (l : list A) (s : S) :
  (forall a, In a l -> f s a = s) -> fold_left f l s = s.
Proof.
  induction l as [|a l IH]; simpl; intros H; [reflexivity|].
  rewrite (H a (or_introl eq_refl)). apply IH. intros b Hb. apply H. now right.
Qed.

Section GenerationPass.
Variable env : TaskController.Env.

Let today := DateUtils.startOfToday (TaskController.tz env) (TaskController.now env).

(** Every occurrence that can be generated from [task] is due after
    today. *)
Let future (task : Task.t) : Prop :=
  forall nextDate,
    DateUtils.calculateNextRecurrenceDate (TaskController.tz env) task = Some nextDate ->
    today < TaskController.dateNumber
              (DateUtils.createLocalDate (TaskController.tz env)
                 (Some (DateUtils.formatDateISO (TaskController.tz env) nextDate))).

Lemma occurrence_settled (root child : Task.t) (tasks : list Task.t) :
  future root -> occurrence_of env root child -> settled env today tasks child.
Proof.
  intros Hfut (nextDate & Hnext & Hdue & Hparent & Hopen & _).
  unfold settled, recurring_root.
  destruct (Task.isRecurring child && negb (truthy (Task.parentRecurringId child))) eqn:Hr;
    [|now left].
  right. left. rewrite Hopen, Hdue. cbn [andb negb orb].
  apply Z.ltb_ge. specialize (Hfut _ Hnext). lia.
Qed.

Lemma generation_settles (l : list Task.t) :
  (forall root, In root l -> recurring_root root = true -> future root) ->
  forall acc root, In root l ->
    settled env today
      (TaskController.tasks (fold_left (TaskController.checkTask env today) l acc)) root.
Proof.
  induction l as [|a l IH]; intros Hfut acc root Hin; [destruct Hin|].
  simpl fold_left.
  destruct Hin as [<-|Hin]; [|apply IH; auto; intros r Hr; apply Hfut; now right].
  destruct (generation_fold env today l (TaskController.checkTask env today acc a))
    as (new & -> & _).
  apply settled_mono.
  unfold settled.
  destruct (recurring_root a) eqn:Hroot; [|now left].
  destruct (_ || _) eqn:Hdue; [|now (right; left)].
  destruct (DateUtils.calculateNextRecurrenceDate (TaskController.tz env) a)
    as [nextDate|] eqn:Hnext; [|now (right; right; left)].
  right. right. right.
  unfold TaskController.checkTask. unfold recurring_root in Hroot. rewrite Hroot, Hdue.
  destruct (existsb _ (TaskController.tasks acc)) eqn:Hex; cbn [negb]; [exact Hex|].
  unfold TaskController.generateNextRecurringTask. rewrite Hnext.
  cbn [TaskController.tasks].
  rewrite existsb_app, Hex.
  cbn [existsb orb Task.parentRecurringId Task.dueDate same_string].
  rewrite String.eqb_refl, orb_false_r. cbn [andb]. apply Z.ltb_lt.
  apply (Hfut a (or_introl eq_refl)); [exact Hroot | exact Hnext].
Qed.

(** X23. A generation pass is idempotent whenever every occurrence it can
    generate is due after today: a second pass in a row then changes
    nothing. *)
Theorem generation_pass_idempotent_when_future (st : TaskController.t) :
  (forall root nextDate,
     In root (TaskController.tasks st) ->
     recurring_root root = true ->
     DateUtils.calculateNextRecurrenceDate (TaskController.tz env) root = Some nextDate ->
     DateUtils.startOfToday (TaskController.tz env) (TaskController.now env)
     < TaskController.dateNumber
         (DateUtils.createLocalDate (TaskController.tz env)
            (Some (DateUtils.formatDateISO (TaskController.tz env) nextDate)))) ->
  let st1 := TaskController.checkAndGenerateRecurringTasks env st in
  TaskController.checkAndGenerateRecurringTasks env st1 = st1.
Proof.
  intros Hfut st1.
  assert (Hfut' : forall root, In root (TaskController.tasks st) ->
                    recurring_root root = true -> future root).
  { intros root Hin Hroot nextDate Hnext. now apply (Hfut root nextDate). }
  unfold TaskController.checkAndGenerateRecurringTasks at 1. fold today.
  apply fold_left_noop. intros task Htask. apply settled_noop.
  destruct (generation_fold env today (TaskController.tasks st) st)
    as (new & Htasks & _ & _ & Hnew & _).
  fold today in st1.
  change (fold_left (TaskController.checkTask env today) (TaskController.tasks st) st)
    with st1 in Htasks.
  rewrite Htasks in Htask. apply in_app_or in Htask as [Hold|Hgen].
  - apply (generation_settles (TaskController.tasks st) Hfut' st task Hold).
  - rewrite List.Forall_forall in Hnew.
    destruct (Hnew task Hgen) as (root & Hin & Hroot & Hocc).
    apply (occurrence_settled root task); [now apply Hfut' | exact Hocc].
Qed.
End GenerationPass.

Section TaskIds.
Variable env : TaskController.Env.
Hypothesis generateTaskId_inj :
  forall m n, TaskController.generateTaskId env m = TaskController.generateTaskId env n ->
              m = n.

Lemma ids_generated_append (st : TaskController.t) (task : Task.t) :
  ids_generated env st ->
  Task.id task = TaskController.generateTaskId env (TaskController.generated st) ->
  ids_generated env (TaskController.mk (TaskController.tasks st ++ [task])
                                       (S (TaskController.generated st))).
Proof using generateTaskId_inj.
  intros [Hnd Hgen] Hid. split; simpl.
  - rewrite map_app. simpl. apply List.NoDup_app; [exact Hnd | repeat constructor; auto |].
    intros k Hk [<-|[]]. apply in_map_iff in Hk as (t & Ht & Hin).
    destruct (Hgen t Hin) as (n & Hn & Hidt).
    rewrite Hid, Hidt in Ht. apply generateTaskId_inj in Ht. lia.
  - intros t Ht. apply in_app_or in Ht as [Ht|[<-|[]]].
    + destruct (Hgen t Ht) as (n & Hn & Hidt). exists n. split; [lia | exact Hidt].
    + exists (TaskController.generated st). split; [lia | exact Hid].
Qed.

Lemma ids_generated_same_ids (st : TaskController.t) (tasks' : list Task.t) (n : nat) :
  ids_generated env st ->
  map Task.id tasks' = map Task.id (TaskController.tasks st) ->
  (TaskController.generated st <= n)%nat ->
  ids_generated env (TaskController.mk tasks' n).
Proof.
  intros [Hnd Hgen] Hids Hn. split; simpl.
  - now rewrite Hids.
  - intros t Ht. apply (in_map Task.id) in Ht. rewrite Hids in Ht.
    apply in_map_iff in Ht as (t0 & Hid0 & Hin0).
    destruct (Hgen t0 Hin0) as (m & Hm & Hidm). exists m. split; [lia | congruence].
Qed.

Lemma ids_generated_remove (st : TaskController.t) (before after : list Task.t)
    (task : Task.t) :
  ids_generated env st ->
  TaskController.tasks st = (before ++ task :: after)%list ->
  ids_generated env (TaskController.mk (before ++ after) (TaskController.generated st)).
Proof.
  intros [Hnd Hgen] Hl. rewrite Hl in Hnd, Hgen. split; simpl.
  - rewrite map_app in *. simpl in Hnd. now apply NoDup_remove_1 in Hnd.
  - intros t Ht. apply Hgen. apply in_app_or in Ht as [Ht|Ht]; apply in_or_app;
      [now left | right; now right].
Qed.

Lemma ids_generated_after_complete (st : TaskController.t) (completedTask : Task.t) :
  ids_generated env st ->
  ids_generated env (TaskController.generateRecurringAfterComplete env st completedTask).
Proof using generateTaskId_inj.
  intros H.
  destruct (generateRecurringAfterComplete_appends env st completedTask)
    as [->|(child & Hid & ->)]; [exact H | now apply ids_generated_append].
Qed.

Lemma ids_generated_step (st : TaskController.t) (a : TaskAction) :
  ids_generated env st -> ids_generated env (applyTaskAction env st a).
Proof using generateTaskId_inj.
  intros H. destruct a as [taskData|taskId taskData|taskId|taskId| |completedTask]; simpl.
  - unfold TaskController.addTask.
    destruct (String.eqb _ ""); simpl.
    + apply (ids_generated_same_ids st); [exact H | reflexivity | lia].
    + now apply ids_generated_append.
  - unfold TaskController.updateTask.
    pose proof (findIndex_split (fun task => String.eqb (Task.id task) taskId)
                  (TaskController.tasks st)) as Hs.
    destruct (findIndex _ (TaskController.tasks st)) as [i|]; [|exact H].
    destruct Hs as (before & x & after & Hl & <- & Hx & _).
    rewrite Hl, lookup_at_middle, insert_at_middle. simpl.
    apply (ids_generated_same_ids st); [exact H | | lia].
    rewrite Hl, !map_app. simpl. apply String.eqb_eq in Hx. now rewrite Hx.
  - destruct (deleteTask_cases st taskId)
      as [[-> _]|(before & task & after & Hl & _ & _ & ->)]; [exact H|].
    simpl. now apply (ids_generated_remove st before after task).
  - unfold SettingsController.toggleTaskComplete.
    destruct (toggleTaskComplete_cases st taskId)
      as [[-> _]|(before & task & after & Hl & _ & _ & ->)]; [exact H|].
    set (st1 := TaskController.mk _ (TaskController.generated st)).
    assert (H1 : ids_generated env st1).
    { apply (ids_generated_same_ids st); [exact H | | lia].
      rewrite Hl, !map_app. reflexivity. }
    cbn [TaskController.wasCompleted TaskController.isNowCompleted].
    destruct (negb (Task.completed task) && negb (Task.completed task)); [|exact H1].
    destruct (TaskController.getTaskById st1 taskId) as [t|]; [|exact H1].
    destruct (Task.isRecurring t); [|exact H1].
    now apply ids_generated_after_complete.
  - unfold TaskController.checkAndGenerateRecurringTasks.
    apply (fold_left_invariant _ (ids_generated env) (fun _ => True)); auto.
    intros s task Hs _.
    destruct (checkTask_cases env (DateUtils.startOfToday (TaskController.tz env)
                                  (TaskController.now env)) s task) as [->|(_ & child & _ & Hid & ->)];
      [exact Hs | now apply ids_generated_append].
  - now apply ids_generated_after_complete.
Qed.

(** X24. Task ids stay unique.  When the id generator never repeats an
    id, every store reached from the empty one by adding, updating,
    deleting and completing tasks and by generating occurrences holds
    pairwise distinct ids, all handed out by the generator. *)
Theorem task_ids_stay_unique (actions : list TaskAction) :
  ids_generated env (fold_left (applyTaskAction env) actions (TaskController.mk [] 0)).
Proof using generateTaskId_inj.
  apply (fold_left_invariant _ (ids_generated env) (fun _ => True)); auto.
  - intros s a Hs _. now apply ids_generated_step.
  - split; simpl; [constructor | intros t []].
Qed.
End TaskIds.

Lemma unary_inj (m n : nat) : Samples.unary m = Samples.unary n -> m = n.
Proof.
  revert n. induction m as [|m IH]; intros [|n] H; simpl in H;
    try discriminate; [reflexivity|].
  injection H as H. f_equal. now apply IH.
Qed.

Lemma completed_by_click_judged_by_creation_witness :
  let st' := SettingsController.toggleTaskComplete Samples.env
               (Samples.store [Samples.taskA; Samples.taskC]) (Task.id Samples.taskC) in
  let done := TaskController.with_completed Samples.taskC true in
  In done (TaskController.tasks st')
  /\ (In done (TaskFilter.applyStatusFilter Samples.completedFilter
                 (TaskController.tz Samples.env) (TaskController.now Samples.env)
                 (TaskController.tasks st'))
      <-> JsDate.plusDays (TaskController.now Samples.env)
            (- TaskFilter.completedTasksDays Samples.completedFilter)
          <= Task.createdAt Samples.taskC).
Proof.
  apply (completed_by_click_judged_by_creation Samples.env
           (Samples.store [Samples.taskA; Samples.taskC]) Samples.completedFilter
           [Samples.taskA] [] Samples.taskC).
  - reflexivity.
  - intros t [<-|[]]. simpl. discriminate.
  - reflexivity.
  - reflexivity.
  - reflexivity.
  - reflexivity.
Defined.

Lemma generation_pass_idempotent_when_future_witness :
  let st1 := TaskController.checkAndGenerateRecurringTasks Samples.env
               (Samples.store [Samples.dailyToday]) in
  TaskController.checkAndGenerateRecurringTasks Samples.env st1 = st1.
Proof.
  apply (generation_pass_idempotent_when_future Samples.env
           (Samples.store [Samples.dailyToday])).
  intros root nextDate [<-|[]] _ Hnext.
  vm_compute in Hnext. injection Hnext as <-. vm_compute. reflexivity.
Defined.

Lemma task_ids_stay_unique_witness :
  ids_generated Samples.unaryEnv
    (fold_left (applyTaskAction Samples.unaryEnv)
       [AddTask (Samples.titled "Alpha"); AddTask (Samples.titled "Beta");
        ToggleTaskComplete "t"; DeleteTask "xt"; CheckAndGenerateRecurringTasks]
       (TaskController.mk [] 0)).
Proof.
  apply (task_ids_stay_unique Samples.unaryEnv unary_inj).
Defined.

(** * Properties of the task model's methods *)

(** X25. [markAsCompleted] keeps the completion time coherent with the
    flag, whatever the task looked like before: an open task has no
    completion time and a completed one has one.  Marking a task again
    the same way changes nothing, so the time of the first completion is
    kept.  Toggling twice gives the flag back but not the time: a task
    that was completed comes back completed at the time of the second
    toggle. *)
Theorem markAsCompleted_stamps (now now' : Z) (task : Task.t) (completed : bool) :
  let task' := TaskMethods.markAsCompleted now task completed in
  (Task.completed task' = false <-> Task.completedAt task' = None)
  /\ TaskMethods.markAsCompleted now' task' completed = task'
  /\ (let again := TaskMethods.toggleCompleted now' (TaskMethods.toggleCompleted now task) in
      Task.completed again = Task.completed task
      /\ Task.completedAt again = (if Task.completed task then Some now' else None)).
Proof.
  destruct task as [i ti de ca tg pr dd dt c cr ca' ir rt rd pa].
  unfold TaskMethods.toggleCompleted, TaskMethods.markAsCompleted. simpl.
  destruct completed, c, ca'; simpl; repeat split; try reflexivity; discriminate.
Qed.

Lemma with_tags_twice (task : Task.t) (l : list string) :
  Task.with_tags (Task.with_tags task l) (Task.tags task) = task.
Proof. destruct task. reflexivity. Qed.

(** X26. A tag that [addTag] has added is taken off again by
    [removeTag], which gives the task back as it was. *)
Theorem addTag_then_removeTag (task : Task.t) (tagId : string) :
  fst (Task.addTag task tagId) = true ->
  TaskMethods.removeTag (snd (Task.addTag task tagId)) tagId = (true, task).
Proof.
  unfold Task.addTag.
  destruct (negb (Task.hasTag task tagId)) eqn:Hhas; simpl; [|discriminate].
  destruct (Z.of_nat (length (Task.tags task)) <? 3); simpl; [|discriminate].
  intros _. apply negb_true_iff in Hhas. unfold Task.hasTag in Hhas.
  unfold TaskMethods.removeTag.
  assert (Hp : forall y, In y (Task.tags task) -> String.eqb tagId y = false).
  { intros y Hy. destruct (String.eqb tagId y) eqn:E; [|reflexivity].
    assert (existsb (String.eqb tagId) (Task.tags task) = true)
      by (apply existsb_exists; eauto).
    congruence. }
  change (Task.tags (Task.with_tags task (Task.tags task ++ [tagId])%list))
    with (Task.tags task ++ [tagId])%list.
  rewrite (findIndex_at_middle (String.eqb tagId) (Task.tags task) [] tagId Hp
             (String.eqb_refl _)).
  rewrite delete_at_middle, app_nil_r, with_tags_twice. reflexivity.
Qed.

(** X27. A task with an id goes through [toJSON] and [fromJSON] unchanged
    exactly when none of its category, priority, recurrence type and
    parent id is an empty string, which the constructor takes for absent;
    [clone] copies the same tasks faithfully. *)
Theorem fromJSON_toJSON (generatedId : string) (now : Z) (task : Task.t) :
  Task.id task <> "" ->
  (TaskMethods.fromJSON generatedId now (TaskMethods.toJSON task) = task
   <-> Task.category task <> "" /\ Task.priority task <> ""
       /\ Task.recurrenceType task <> Some "" /\ Task.parentRecurringId task <> Some "")
  /\ TaskMethods.clone generatedId now task
     = TaskMethods.fromJSON generatedId now (TaskMethods.toJSON task).
Proof.
  intros Hid. split; [|reflexivity].
  destruct task as [i ti de ca tg pr dd dt c cr ca' ir rt rd pa].
  unfold TaskMethods.fromJSON, TaskMethods.new, TaskMethods.toJSON,
    TaskController.str_or, TaskController.str_or_null. simpl in *.
  apply String.eqb_neq in Hid. rewrite Hid.
  assert (Hs : forall s, (if String.eqb s "" then "" else s) = s).
  { intros s. destruct (String.eqb_spec s ""); congruence. }
  rewrite !Hs. split.
  - intros H. injection H as Hca Hpr Hrt Hpa. repeat split.
    + intros ->. discriminate.
    + intros ->. discriminate.
    + intros ->. discriminate.
    + intros ->. discriminate.
  - intros (Hca & Hpr & Hrt & Hpa).
    apply String.eqb_neq in Hca, Hpr. rewrite Hca, Hpr.
    assert (Ho : forall o : option string,
               o <> Some "" ->
               match o with
               | Some s => if String.eqb s "" then None else Some s
               | None => None
               end = o).
    { intros [s|] H; [|reflexivity]. destruct (String.eqb_spec s ""); congruence. }
    now rewrite (Ho rt Hrt), (Ho pa Hpa).
Qed.

Lemma parsedDueDate_valid (s : DateStr) :
  ValidationUtils.parsesAsDate s = true ->
  TaskMethods.parsedDueDate s
  = Some (JsDate.MakeDay (ds_year s) (ds_month s - 1) (ds_day s) * JsDate.msPerDay).
Proof.
  intros H. unfold TaskMethods.parsedDueDate, JsDate.parseISODate, JsDate.MakeDate.
  rewrite H. f_equal. lia.
Qed.

Lemma createLocalDate_value (tz : Z) (s : DateStr) :
  ~ (0 <= ds_year s <= 99) ->
  DateUtils.createLocalDate tz (Some s)
  = Some (JsDate.MakeDay (ds_year s) (ds_month s - 1) (ds_day s) * JsDate.msPerDay - tz).
Proof.
  intros Hy. unfold DateUtils.createLocalDate. f_equal.
  pose proof (LocalTime_fromFields tz (ds_year s) (ds_month s - 1) (ds_day s) Hy) as H.
  unfold JsDate.LocalTime in H. lia.
Qed.

Lemma startOfToday_value (tz now : Z) :
  DateUtils.startOfToday tz now
  = JsDate.Day (JsDate.LocalTime tz now) * JsDate.msPerDay - tz.
Proof.
  pose proof (LocalTime_startOfToday tz now) as H. unfold JsDate.LocalTime in H at 1. lia.
Qed.

Lemma setHours_midnight_value (tz now : Z) :
  JsDate.setHours tz now 0 0 0 0
  = JsDate.Day (JsDate.LocalTime tz now) * JsDate.msPerDay - tz.
Proof.
  pose proof (LocalTime_setHours tz now 0 0 0 0) as H.
  change (JsDate.MakeTime 0 0 0 0) with 0 in H. unfold JsDate.LocalTime in H at 1. lia.
Qed.

Lemma Day_LocalTime_plusDays (tz now n : Z) :
  JsDate.Day (JsDate.LocalTime tz (JsDate.plusDays now n))
  = JsDate.Day (JsDate.LocalTime tz now) + n.
Proof.
  unfold JsDate.LocalTime, JsDate.plusDays.
  replace (now + n * JsDate.msPerDay + tz) with (now + tz + n * JsDate.msPerDay) by lia.
  apply Day_plus.
Qed.

Lemma bool_eq_iff (a b : bool) : (a = true <-> b = true) -> a = b.
Proof. destruct a, b; intros [H1 H2]; auto; (now rewrite H1) || (now rewrite H2). Qed.

(** X28. The marks of the [Task] class read the due date as UTC midnight,
    those of the task list as local midnight.  With a negative offset from
    UTC (the Americas) the class's overdue and due-today marks are the
    list's marks of tomorrow; with a positive offset its upcoming mark is
    the list's mark of yesterday; with no offset the two agree. *)
Theorem Task_marks_by_offset (tz now : Z) (task : Task.t) (s : DateStr) :
  Task.dueDate task = Some s ->
  ValidationUtils.parsesAsDate s = true ->
  ~ (0 <= ds_year s <= 99) ->
  - JsDate.msPerDay < tz < JsDate.msPerDay ->
  let ahead := if tz <? 0 then JsDate.plusDays now 1 else now in
  let behind := if 0 <? tz then JsDate.plusDays now (-1) else now in
  TaskMethods.isOverdue tz now task = DateUtils.isTaskOverdue tz ahead task
  /\ TaskMethods.isDueToday tz now task = DateUtils.isTaskDueToday tz ahead task
  /\ TaskMethods.isUpcoming tz now task = DateUtils.isTaskUpcoming tz behind task.
Proof.
  intros Hdue Hparse Hyear Htz ahead behind.
  set (D := JsDate.MakeDay (ds_year s) (ds_month s - 1) (ds_day s)).
  set (L := JsDate.Day (JsDate.LocalTime tz now)).
  assert (HLa : JsDate.Day (JsDate.LocalTime tz ahead) = if tz <? 0 then L + 1 else L).
  { unfold ahead. destruct (tz <? 0); [apply Day_LocalTime_plusDays | reflexivity]. }
  assert (HLb : JsDate.Day (JsDate.LocalTime tz behind) = if 0 <? tz then L + -1 else L).
  { unfold behind. destruct (0 <? tz); [apply Day_LocalTime_plusDays | reflexivity]. }
  split; [|split]; apply bool_eq_iff.
  - rewrite isTaskOverdue_iff, Hdue, createLocalDate_value, startOfToday_value, HLa
      by exact Hyear.
    unfold TaskMethods.isOverdue. rewrite Hdue, parsedDueDate_valid by exact Hparse.
    rewrite setHours_midnight_value. fold D L.
    destruct (Task.completed task).
    + split; [discriminate | intros (d & _ & _ & E); discriminate].
    + rewrite Z.ltb_lt. unfold JsDate.msPerDay in *.
      destruct (Z.ltb_spec tz 0) as [Hneg|Hpos]; split.
      * intros Hd. eexists. split; [reflexivity|]. split; [lia | reflexivity].
      * intros (d & [= <-] & Hd & _). lia.
      * intros Hd. eexists. split; [reflexivity|]. split; [lia | reflexivity].
      * intros (d & [= <-] & Hd & _). lia.
  - rewrite isTaskDueToday_iff, Hdue, createLocalDate_value, startOfToday_value, HLa
      by exact Hyear.
    unfold TaskMethods.isDueToday. rewrite Hdue, parsedDueDate_valid by exact Hparse.
    rewrite dateString_eq_iff_day, setHours_midnight_value. fold D L.
    unfold JsDate.LocalTime. rewrite Z.sub_add, Day_midnight.
    unfold JsDate.Day, JsDate.msPerDay in *.
    destruct (Z.ltb_spec tz 0) as [Hneg|Hpos]; split.
    + intros Hd. f_equal. Z.div_mod_to_equations. lia.
    + intros [= Hd]. Z.div_mod_to_equations. lia.
    + intros Hd. f_equal. Z.div_mod_to_equations. lia.
    + intros [= Hd]. Z.div_mod_to_equations. lia.
  - rewrite isTaskUpcoming_iff, Hdue, createLocalDate_value, startOfToday_value, HLb
      by exact Hyear.
    unfold TaskMethods.isUpcoming. rewrite Hdue, parsedDueDate_valid by exact Hparse.
    rewrite setDate_plusDays, setHours_midnight_value. fold D L.
    rewrite andb_true_iff, Z.ltb_lt, Z.leb_le.
    unfold JsDate.plusDays, JsDate.msPerDay in *.
    destruct (Z.ltb_spec 0 tz) as [Hpos|Hneg]; split.
    + intros Hd. eexists. split; [reflexivity | lia].
    + intros (d & [= <-] & Hd). lia.
    + intros Hd. eexists. split; [reflexivity | lia].
    + intros (d & [= <-] & Hd). lia.
Qed.

Lemma trimStart_length (s : string) :
  (String.length (trimStart s) <= String.length s)%nat.
Proof.
  induction s as [|c s IH]; simpl; [lia|]. destruct (is_space c); simpl; lia.
Qed.

Lemma reverse_string_length (s : string) :
  String.length (reverse_string s) = String.length s.
Proof.
  unfold reverse_string.
  assert (H : forall l, String.length (string_of_list_ascii l) = length l).
  { induction l; simpl; congruence. }
  assert (H' : forall s, length (list_ascii_of_string s) = String.length s).
  { induction s0; simpl; congruence. }
  now rewrite H, length_rev, H'.
Qed.

Lemma trim_length (s : string) : str_length (trim s) <= str_length s.
Proof.
  unfold str_length, trim.
  rewrite reverse_string_length.
  pose proof (trimStart_length (reverse_string (trimStart s))).
  rewrite reverse_string_length in H.
  pose proof (trimStart_length s). lia.
Qed.

Lemma push_if_nil {A} (c : bool) (l : list A) (x : A) :
  (if c then (l ++ [x])%list else l) = [] -> c = false /\ l = [].
Proof.
  destruct c; [|auto]. intros H. apply app_eq_nil in H as [_ H]. discriminate.
Qed.

Lemma validateRequired_ok (value fieldName : string) :
  String.eqb value "" = false -> String.eqb (trim value) "" = false ->
  ValidationUtils.validateRequired value fieldName = ValidationUtils.ok.
Proof.
  intros H1 H2. unfold ValidationUtils.validateRequired. now rewrite H1, H2.
Qed.

Lemma validateLength_ok (value : string) (minLength maxLength : Z) (fieldName : string) :
  minLength <= str_length (trim value) -> str_length value <= maxLength ->
  ValidationUtils.validateLength value minLength maxLength fieldName = ValidationUtils.ok.
Proof.
  intros H1 H2. unfold ValidationUtils.validateLength.
  destruct (String.eqb value ""); [reflexivity|].
  pose proof (trim_length value).
  destruct (Z.ltb_spec (str_length (trim value)) minLength); [lia|].
  destruct (Z.ltb_spec maxLength (str_length (trim value))); [lia | reflexivity].
Qed.

(** X29. Whatever the model's own [validate] accepts, the form's
    [validateTask] accepts as well, provided the due date, if any, parses
    and the due time, if any, reads HH:MM, the two things [validate] does
    not look at. *)
Theorem validate_implies_validateTask (tz now : Z) (task : Task.t) :
  ValidationUtils.isValid (TaskMethods.validate task) = true ->
  (forall s, Task.dueDate task = Some s -> ValidationUtils.parsesAsDate s = true) ->
  (Task.dueTime task <> "" -> ValidationUtils.matchesTime (Task.dueTime task) = true) ->
  ValidationUtils.validateTask tz now task = ValidationUtils.mkResult true [].
Proof.
  intros Hvalid Hdate Htime.
  unfold TaskMethods.validate in Hvalid. cbv zeta in Hvalid.
  cbn [ValidationUtils.isValid] in Hvalid.
  apply Nat.eqb_eq, length_zero_iff_nil in Hvalid.
  apply push_if_nil in Hvalid as [Hrec Hvalid].
  apply push_if_nil in Hvalid as [Hprio Hvalid].
  apply push_if_nil in Hvalid as [Htags Hvalid].
  apply push_if_nil in Hvalid as [Hdesc Hvalid].
  apply push_if_nil in Hvalid as [Hlen Hvalid].
  apply push_if_nil in Hvalid as [Htitle _].
  apply orb_false_iff in Htitle as [Ht1 Ht2].
  rewrite Ht1 in Hlen. cbn [negb andb] in Hlen. apply Z.ltb_ge in Hlen.
  assert (Hreq : ValidationUtils.validateRequired (Task.title task) "Título da tarefa"
                 = ValidationUtils.ok) by now apply validateRequired_ok.
  assert (Hlen1 : ValidationUtils.validateLength (Task.title task) 1 100 "Título da tarefa"
                  = ValidationUtils.ok).
  { apply validateLength_ok; [|exact Hlen].
    unfold str_length. destruct (trim (Task.title task)); [discriminate|].
    simpl String.length. lia. }
  assert (Hlen2 : String.eqb (Task.description task) "" = false ->
                  ValidationUtils.validateLength (Task.description task) 0 500 "Descrição"
                  = ValidationUtils.ok).
  { intros Hde. rewrite Hde in Hdesc. cbn [negb andb] in Hdesc. apply Z.ltb_ge in Hdesc.
    apply validateLength_ok; [unfold str_length; lia | exact Hdesc]. }
  assert (Hdt : ValidationUtils.validateDate tz now (Task.dueDate task) true
                = ValidationUtils.ok).
  { unfold ValidationUtils.validateDate.
    destruct (Task.dueDate task) as [s|]; [|reflexivity]. now rewrite (Hdate s eq_refl). }
  assert (Htm : ValidationUtils.validateTime (Task.dueTime task) = ValidationUtils.ok).
  { unfold ValidationUtils.validateTime.
    destruct (String.eqb_spec (Task.dueTime task) "") as [E|E]; [reflexivity|].
    now rewrite (Htime E). }
  unfold ValidationUtils.validateTask. cbv zeta.
  rewrite Hreq, Hlen1, Hdt, Htm, Htags, Hrec.
  destruct (String.eqb (Task.description task) "") eqn:Hde; cbn [negb].
  - reflexivity.
  - rewrite (Hlen2 eq_refl). reflexivity.
Qed.

Lemma addTag_then_removeTag_witness :
  TaskMethods.removeTag (snd (Task.addTag Samples.taskA "t1")) "t1" = (true, Samples.taskA).
Proof.
  apply (addTag_then_removeTag Samples.taskA "t1"). reflexivity.
Defined.

Lemma fromJSON_toJSON_witness :
  (TaskMethods.fromJSON "fresh" 0 (TaskMethods.toJSON Samples.taskA) = Samples.taskA
   <-> Task.category Samples.taskA <> "" /\ Task.priority Samples.taskA <> ""
       /\ Task.recurrenceType Samples.taskA <> Some ""
       /\ Task.parentRecurringId Samples.taskA <> Some "")
  /\ TaskMethods.clone "fresh" 0 Samples.taskA
     = TaskMethods.fromJSON "fresh" 0 (TaskMethods.toJSON Samples.taskA).
Proof.
  apply (fromJSON_toJSON "fresh" 0 Samples.taskA). simpl. discriminate.
Defined.

Lemma Task_marks_by_offset_witness :
  let ahead := if Samples.tzBR <? 0 then JsDate.plusDays Samples.noon_2025_01_11 1
               else Samples.noon_2025_01_11 in
  let behind := if 0 <? Samples.tzBR then JsDate.plusDays Samples.noon_2025_01_11 (-1)
                else Samples.noon_2025_01_11 in
  TaskMethods.isOverdue Samples.tzBR Samples.noon_2025_01_11 Samples.dailyToday
  = DateUtils.isTaskOverdue Samples.tzBR ahead Samples.dailyToday
  /\ TaskMethods.isDueToday Samples.tzBR Samples.noon_2025_01_11 Samples.dailyToday
     = DateUtils.isTaskDueToday Samples.tzBR ahead Samples.dailyToday
  /\ TaskMethods.isUpcoming Samples.tzBR Samples.noon_2025_01_11 Samples.dailyToday
     = DateUtils.isTaskUpcoming Samples.tzBR behind Samples.dailyToday.
Proof.
  apply (Task_marks_by_offset Samples.tzBR Samples.noon_2025_01_11 Samples.dailyToday
           (mkDateStr 2025 1 11)).
  - reflexivity.
  - vm_compute. reflexivity.
  - simpl. lia.
  - unfold Samples.tzBR, JsDate.msPerDay. lia.
Defined.

Lemma validate_implies_validateTask_witness :
  ValidationUtils.validateTask Samples.tzBR Samples.noon_2025_01_11 Samples.taskA
  = ValidationUtils.mkResult true [].
Proof.
  apply (validate_implies_validateTask Samples.tzBR Samples.noon_2025_01_11 Samples.taskA).
  - vm_compute. reflexivity.
  - intros s H. discriminate H.
  - intros H. exfalso. apply H. reflexivity.
Defined.

(** * The category list *)

Lemma NoDup_insert_middle {A} (l1 l2 : list A) (a : A) :
  List.NoDup (l1 ++ l2) -> ~ In a (l1 ++ l2) -> List.NoDup (l1 ++ a :: l2).
Proof.
  intros Hnd Hnot.
  apply (Permutation.Permutation_NoDup (l := a :: l1 ++ l2)).
  - apply Permutation_middle.
  - now constructor.
Qed.

Section Categories.
Variable generateCategoryId : nat -> string.
Hypothesis generateCategoryId_inj :
  forall m n, generateCategoryId m = generateCategoryId n -> m = n.

Lemma addCategory_ok (st : CategoryController.t) (name color : string) :
  categories_ok generateCategoryId st ->
  categories_ok generateCategoryId
    (snd (CategoryController.addCategory generateCategoryId st name color)).
Proof using generateCategoryId_inj.
  intros (Hlen & Hnames & Hids & Hgen).
  assert (Hbump : categories_ok generateCategoryId
                    (CategoryController.mk (CategoryController.categories st)
                                           (S (CategoryController.generated st)))).
  { repeat split; auto. simpl. intros cat Hcat. destruct (Hgen cat Hcat) as (n & Hn & E).
    exists n. split; [lia | exact E]. }
  unfold CategoryController.addCategory.
  destruct (Z.leb_spec 5 (Z.of_nat (length (CategoryController.categories st))));
    [repeat split; auto|].
  cbn [cat_name CategoryController.categories CategoryController.generated].
  destruct (String.eqb (trim name) ""); [exact Hbump|].
  destruct (List.find _ (CategoryController.categories st)) eqn:Hfind; [exact Hbump|].
  simpl. repeat split; simpl.
  - rewrite length_app. simpl. lia.
  - rewrite map_app. simpl. apply List.NoDup_app; [exact Hnames | repeat constructor; auto|].
    intros k Hk [<-|[]]. apply in_map_iff in Hk as (cat & Hk & Hcat).
    pose proof (find_none _ _ Hfind cat Hcat) as Hne. simpl in Hne.
    rewrite Hk, String.eqb_refl in Hne. discriminate.
  - rewrite map_app. simpl. apply List.NoDup_app; [exact Hids | repeat constructor; auto|].
    intros k Hk [<-|[]]. apply in_map_iff in Hk as (cat & Hk & Hcat).
    destruct (Hgen cat Hcat) as (n & Hn & E). rewrite E in Hk.
    apply generateCategoryId_inj in Hk. lia.
  - intros cat Hcat. apply in_app_or in Hcat as [Hcat|[<-|[]]].
    + destruct (Hgen cat Hcat) as (n & Hn & E). exists n. split; [lia | exact E].
    + exists (CategoryController.generated st). split; [lia | reflexivity].
Qed.

Lemma updateCategory_ok (st : CategoryController.t) (categoryId : string)
    (categoryData : CategoryController.CategoryData) :
  CategoryController.data_name categoryData <> Some "" ->
  categories_ok generateCategoryId st ->
  categories_ok generateCategoryId
    (snd (CategoryController.updateCategory st categoryId categoryData)).
Proof.
  intros Hname Hok. pose proof Hok as (Hlen & Hnames & Hids & Hgen).
  unfold CategoryController.updateCategory.
  pose proof (findIndex_split (fun cat => String.eqb (cat_id cat) categoryId)
                (CategoryController.categories st)) as Hs.
  destruct (findIndex _ (CategoryController.categories st)) as [i|]; [|exact Hok].
  destruct Hs as (before & x & after & Hl & <- & Hx & _).
  apply String.eqb_eq in Hx.
  match goal with
  | |- context [match ?e with Some _ => (false, st) | None => _ end] =>
      destruct e eqn:Hfind; [exact Hok|]
  end.
  rewrite Hl, lookup_at_middle, insert_at_middle. simpl.
  rewrite Hl in Hlen, Hnames, Hids, Hgen.
  repeat split; simpl.
  - rewrite length_app in *. simpl in *. lia.
  - rewrite map_app in *. simpl in *.
    destruct (CategoryController.data_name categoryData) as [name|] eqn:En;
      [|exact Hnames].
    simpl. destruct (String.eqb_spec name "") as [->|Hne]; [congruence|].
    apply NoDup_insert_middle; [now apply NoDup_remove_1 in Hnames|].
    rewrite <- map_app. intros Hin. apply in_map_iff in Hin as (cat & Hk & Hcat).
    assert (Hcat' : In cat (CategoryController.categories st)).
    { rewrite Hl. apply in_app_or in Hcat as [?|?]; apply in_or_app;
        [now left | right; now right]. }
    pose proof (find_none _ _ Hfind cat Hcat') as Hnone. simpl in Hnone.
    rewrite Hk, String.eqb_refl, andb_true_r in Hnone.
    apply negb_false_iff, String.eqb_eq in Hnone.
    apply NoDup_remove_2 in Hids. apply Hids. rewrite <- map_app, Hx, <- Hnone.
    now apply in_map.
  - rewrite map_app in *. simpl in *. now rewrite <- Hx.
  - intros cat Hcat. apply in_app_or in Hcat as [Hcat|[<-|Hcat]].
    + apply Hgen. apply in_or_app. now left.
    + simpl. rewrite <- Hx. apply Hgen. apply in_elt.
    + apply Hgen. apply in_or_app. right. now right.
Qed.

Lemma deleteCategory_ok (st : CategoryController.t) (tasks : list Task.t)
    (categoryId : string) :
  categories_ok generateCategoryId st ->
  categories_ok generateCategoryId
    (snd (CategoryController.deleteCategory st tasks categoryId))
  /\ (fst (CategoryController.deleteCategory st tasks categoryId) = true ->
      (forall task, In task tasks -> Task.category task <> categoryId)
      /\ CategoryController.getCategoryById
           (snd (CategoryController.deleteCategory st tasks categoryId)) categoryId = None).
Proof.
  intros Hok. pose proof Hok as (Hlen & Hnames & Hids & Hgen).
  unfold CategoryController.deleteCategory.
  destruct (Z.ltb_spec 0 (Z.of_nat (length (List.filter
              (fun task => String.eqb (Task.category task) categoryId) tasks))))
    as [Hused|Hfree]; [split; [exact Hok | discriminate]|].
  pose proof (findIndex_split (fun cat => String.eqb (cat_id cat) categoryId)
                (CategoryController.categories st)) as Hs.
  destruct (findIndex _ (CategoryController.categories st)) as [i|];
    [|split; [exact Hok | discriminate]].
  destruct Hs as (before & x & after & Hl & <- & Hx & _).
  apply String.eqb_eq in Hx.
  rewrite Hl, delete_at_middle. simpl.
  rewrite Hl in Hlen, Hnames, Hids, Hgen. split.
  - repeat split; simpl.
    + rewrite length_app in *. simpl in *. lia.
    + rewrite map_app in *. simpl in *. now apply NoDup_remove_1 in Hnames.
    + rewrite map_app in *. simpl in *. now apply NoDup_remove_1 in Hids.
    + intros cat Hcat. apply Hgen. apply in_app_or in Hcat as [?|?]; apply in_or_app;
        [now left | right; now right].
  - intros _. split.
    + intros task Htask Hc.
      assert (Hin : In task (List.filter
                (fun task => String.eqb (Task.category task) categoryId) tasks)).
      { apply filter_In. split; [exact Htask | now apply String.eqb_eq]. }
      destruct (List.filter _ tasks); [destruct Hin | simpl in Hfree; lia].
    + unfold CategoryController.getCategoryById. simpl.
      destruct (List.find _ (before ++ after)) as [cat|] eqn:Hf; [|reflexivity].
      apply find_some in Hf as [Hin Hid]. apply String.eqb_eq in Hid.
      exfalso. rewrite map_app in Hids. simpl in Hids. apply NoDup_remove_2 in Hids.
      apply Hids. rewrite <- map_app, Hx, <- Hid. now apply in_map.
Qed.

(** X30. The category list stays within its bounds.  With an id generator
    that never repeats itself, adding, updating (with a name that is not
    the empty string) and deleting keep the list at five categories at
    most, with names that differ even when case is ignored and with
    distinct ids; a category is deleted only when no task uses it, and
    its id is unknown afterwards. *)
Theorem categories_stay_ok (st : CategoryController.t) :
  categories_ok generateCategoryId st ->
  (forall name color,
     categories_ok generateCategoryId
       (snd (CategoryController.addCategory generateCategoryId st name color)))
  /\ (forall categoryId categoryData,
        CategoryController.data_name categoryData <> Some "" ->
        categories_ok generateCategoryId
          (snd (CategoryController.updateCategory st categoryId categoryData)))
  /\ (forall tasks categoryId,
        categories_ok generateCategoryId
          (snd (CategoryController.deleteCategory st tasks categoryId))
        /\ (fst (CategoryController.deleteCategory st tasks categoryId) = true ->
            (forall task, In task tasks -> Task.category task <> categoryId)
            /\ CategoryController.getCategoryById
                 (snd (CategoryController.deleteCategory st tasks categoryId))
                 categoryId = None)).
Proof using generateCategoryId_inj.
  intros Hok. split; [|split].
  - intros name color. now apply addCategory_ok.
  - intros categoryId categoryData Hname. now apply updateCategory_ok.
  - intros tasks categoryId. now apply deleteCategory_ok.
Qed.
End Categories.

Lemma categories_stay_ok_witness :
  let st := CategoryController.mk [mkCategory "t" "Work" "#ff0000"] 1 in
  (forall name color,
     categories_ok Samples.unary
       (snd (CategoryController.addCategory Samples.unary st name color)))
  /\ (forall categoryId categoryData,
        CategoryController.data_name categoryData <> Some "" ->
        categories_ok Samples.unary
          (snd (CategoryController.updateCategory st categoryId categoryData)))
  /\ (forall tasks categoryId,
        categories_ok Samples.unary
          (snd (CategoryController.deleteCategory st tasks categoryId))
        /\ (fst (CategoryController.deleteCategory st tasks categoryId) = true ->
            (forall task, In task tasks -> Task.category task <> categoryId)
            /\ CategoryController.getCategoryById
                 (snd (CategoryController.deleteCategory st tasks categoryId))
                 categoryId = None)).
Proof.
  apply (categories_stay_ok Samples.unary unary_inj
           (CategoryController.mk [mkCategory "t" "Work" "#ff0000"] 1)).
  unfold categories_ok. simpl.
  split; [lia|].
  split; [constructor; [intros [] | constructor]|].
  split; [constructor; [intros [] | constructor]|].
  intros cat [<-|[]]. exists 0%nat. split; [lia | reflexivity].
Defined.
